(** * pserver.gcloudstorage: the resumable-upload bridge of [storage.py]

    A shallow embedding of [GCloudFile] and [GCloudFileManager]
    (src/pserver/gcloudstorage/storage.py) and the properties of the
    upload state machine that the specification states about them.

    Python integers are [Z]; [bytes] are lists of [byte]; [str] is [string].
    A Python attribute that may be missing on the object ([hasattr]) is an
    [option]; an attribute that may hold [None] is an inner [option].
    Exceptions are values of [exn]; every method runs in the monad [M],
    that threads the mutable world (the persistent file object of the
    field, the unread request body, the log of backend calls) and keeps
    the mutations made before an exception was raised. *)

From Stdlib Require Import ZArith List String Ascii Bool Lia.
From Stdlib.Strings Require Import Byte.
From Stdlib Require Import DecimalString DecimalPos.
Import ListNotations.
Local Open Scope string_scope.
Local Open Scope Z_scope.

Set Implicit Arguments.

(** ** Python built-ins used by the module *)

Module Py.

Definition bytes := list byte.

(** [len(x)] as a Python integer. *)
Definition len {A} (l : list A) : Z := Z.of_nat (List.length l).

(** [data[k:]]: a negative [k] counts from the end, and every index is
    clipped to the sequence. *)
Definition slice_from {A} (k : Z) (l : list A) : list A :=
  if k <? 0 then skipn (Z.to_nat (Z.max (len l + k) 0)) l
  else skipn (Z.to_nat k) l.

(** [str(n)] for an integer. *)
Definition str (n : Z) : string := NilZero.string_of_int (Z.to_int n).

Definition is_space (c : ascii) : bool :=
  let n := nat_of_ascii c in
  (((9 <=? n) && (n <=? 13)) || ((28 <=? n) && (n <=? 32)))%nat.

Definition digit_of (c : ascii) : option Z :=
  let n := nat_of_ascii c in
  if ((48 <=? n) && (n <=? 57))%nat then Some (Z.of_nat n - 48) else None.

Fixpoint lstrip (l : list ascii) : list ascii :=
  match l with
  | c :: l' => if is_space c then lstrip l' else l
  | [] => []
  end.

Definition strip (l : list ascii) : list ascii :=
  rev (lstrip (rev (lstrip l))).

(** The digits of an integer literal, most significant first: single
    underscores are allowed between two digits.  [after_digit] tells
    whether the previous character was a digit. *)
Fixpoint digits (acc : Z) (after_digit : bool) (l : list ascii) : option Z :=
  match l with
  | [] => if after_digit then Some acc else None
  | c :: l' =>
      match digit_of c with
      | Some d => digits (10 * acc + d) true l'
      | None =>
          if (Ascii.eqb c "_" && after_digit)%bool then digits acc false l'
          else None
      end
  end.

(** [int(s)] for a [str] in base 10; [None] stands for [ValueError]. *)
Definition int (s : string) : option Z :=
  match strip (list_ascii_of_string s) with
  | "-"%char :: l => option_map Z.opp (digits 0 false l)
  | "+"%char :: l => digits 0 false l
  | l => digits 0 false l
  end.

(** [s.split(sep)] for a one-character separator. *)
Fixpoint split_chars (sep : ascii) (cur : list ascii) (l : list ascii)
  : list string :=
  match l with
  | [] => [string_of_list_ascii (rev cur)]
  | c :: l' =>
      if Ascii.eqb c sep
      then string_of_list_ascii (rev cur) :: split_chars sep [] l'
      else split_chars sep (c :: cur) l'
  end.

Definition split (sep : ascii) (s : string) : list string :=
  split_chars sep [] (list_ascii_of_string s).

(** [s.split()]: split on runs of whitespace, no empty pieces. *)
Fixpoint split_ws_chars (cur : list ascii) (l : list ascii) : list string :=
  match l with
  | [] => match cur with
          | [] => []
          | _ => [string_of_list_ascii (rev cur)]
          end
  | c :: l' =>
      if is_space c
      then match cur with
           | [] => split_ws_chars [] l'
           | _ => string_of_list_ascii (rev cur) :: split_ws_chars [] l'
           end
      else split_ws_chars (c :: cur) l'
  end.

Definition split_ws (s : string) : list string :=
  split_ws_chars [] (list_ascii_of_string s).

Definition upper_char (c : ascii) : ascii :=
  let n := nat_of_ascii c in
  if ((97 <=? n) && (n <=? 122))%nat then ascii_of_nat (n - 32) else c.

Fixpoint upper (s : string) : string :=
  match s with
  | EmptyString => EmptyString
  | String c s' => String (upper_char c) (upper s')
  end.

End Py.

Definition bytes := Py.bytes.

(** ** Headers

    [request.headers] and [call.headers] are case-insensitive multidicts:
    a key is looked up whatever its case, and indexing returns the first
    value. *)

Definition headers := list (string * string).

Fixpoint hget (k : string) (hs : headers) : option string :=
  match hs with
  | [] => None
  | (k', v) :: hs' =>
      if String.eqb (Py.upper k') (Py.upper k) then Some v else hget k hs'
  end.

Definition hmem (k : string) (hs : headers) : bool :=
  match hget k hs with Some _ => true | None => false end.

(** ** Data model *)

(** [GCloudFile]: the persistent object of one file slot.  [__init__] sets
    [contentType] and [_current_upload]; every other attribute appears
    when a method first assigns it. *)
Record GCloudFile := mkFile {
  contentType : string;
  filename : option string;
  _current_upload : Z;
  _size : option Z;
  _md5hash : option (option string);
  _extension : option (option string);
  _upload_file_id : option (option string);
  _uri : option (option string);
  _resumable_uri : option string;
  _resumable_uri_date : option Z
}.

Definition set_filename v f :=
  mkFile (contentType f) v (_current_upload f) (_size f) (_md5hash f)
    (_extension f) (_upload_file_id f) (_uri f) (_resumable_uri f)
    (_resumable_uri_date f).
Definition set_current_upload v f :=
  mkFile (contentType f) (filename f) v (_size f) (_md5hash f)
    (_extension f) (_upload_file_id f) (_uri f) (_resumable_uri f)
    (_resumable_uri_date f).
Definition set_size v f :=
  mkFile (contentType f) (filename f) (_current_upload f) (Some v) (_md5hash f)
    (_extension f) (_upload_file_id f) (_uri f) (_resumable_uri f)
    (_resumable_uri_date f).
Definition set_md5hash v f :=
  mkFile (contentType f) (filename f) (_current_upload f) (_size f) (Some v)
    (_extension f) (_upload_file_id f) (_uri f) (_resumable_uri f)
    (_resumable_uri_date f).
Definition set_extension v f :=
  mkFile (contentType f) (filename f) (_current_upload f) (_size f) (_md5hash f)
    (Some v) (_upload_file_id f) (_uri f) (_resumable_uri f)
    (_resumable_uri_date f).
Definition set_upload_file_id v f :=
  mkFile (contentType f) (filename f) (_current_upload f) (_size f) (_md5hash f)
    (_extension f) (Some v) (_uri f) (_resumable_uri f)
    (_resumable_uri_date f).
Definition set_uri v f :=
  mkFile (contentType f) (filename f) (_current_upload f) (_size f) (_md5hash f)
    (_extension f) (_upload_file_id f) (Some v) (_resumable_uri f)
    (_resumable_uri_date f).
Definition set_resumable_uri v f :=
  mkFile (contentType f) (filename f) (_current_upload f) (_size f) (_md5hash f)
    (_extension f) (_upload_file_id f) (_uri f) (Some v)
    (_resumable_uri_date f).
Definition set_resumable_uri_date v f :=
  mkFile (contentType f) (filename f) (_current_upload f) (_size f) (_md5hash f)
    (_extension f) (_upload_file_id f) (_uri f) (_resumable_uri f)
    (Some v).

(** [GCloudFile(contentType=ct)]: no filename is given, and the field
    property's default is [None], so nothing else is assigned. *)
Definition new_file (ct : string) : GCloudFile :=
  mkFile ct None 0 None None None None None None None.

(** The [size] property: [None] when the attribute is missing. *)
Definition size (f : GCloudFile) : option Z := _size f.

Definition actualSize (f : GCloudFile) : Z := _current_upload f.

(** Truth value of an integer-or-[None]. *)
Definition truthy_int (v : option Z) : bool :=
  match v with Some n => negb (n =? 0) | None => false end.

(** An answer of the storage backend to one HTTP call. *)
Record reply := mkReply {
  status : Z;
  rheaders : headers;
  text : string
}.

(** The backend as the handlers of one request see it: its answer to the
    session-creating POST and, in order, its answers to the chunk PUTs
    ([None], or a list that ran out: the call raised in the HTTP client),
    and the status it gives to the delete of an object key. *)
Record Backend := mkBackend {
  post_answer : option reply;
  put_answers : list reply;
  delete_status : string -> Z
}.

(** What [plone.server.browser.Response] is built from. *)
Record Response := mkResponse {
  resp_headers : headers;
  resp_status : option Z
}.

(** The incoming request, apart from its body. *)
Record Request := mkRequest {
  req_headers : headers;
  req_content_type : string
}.

(** What the module takes from its collaborators, fixed during one request
    and taken to be there: [request._site_id]; the name the [bucket]
    property resolves to (looking the bucket up, and creating it when it is
    missing, is the resolver's business); the access token; the ids of the
    security principals joined by commas; [str(request)]; the instant
    [datetime.now] gives, in seconds; [uuid4().hex], by number of draw;
    [json.dumps] on the metadata; [isoformat]; base64 then utf-8 decoding
    ([None] when it raises); the URL of the context and the name of the
    field. *)
Record Env := mkEnv {
  site_id : string;
  bucket : string;
  access_token : string;
  creator : string;
  request_repr : string;
  now : Z;
  uuid4_hex : nat -> string;
  json_dumps : list (string * option string) -> string;
  isoformat : Z -> string;
  b64decode_utf8 : string -> option string;
  absolute_url : string;
  field_name : string
}.

(** The calls that leave the module: the HTTP calls to the backend and
    the two notifications. *)
Inductive event :=
| EvDelete (bucket_name key : string)
| EvPost (url : string) (hs : headers) (body : string)
| EvPut (uri : string) (hs : headers) (data : bytes)
| EvNotifyInitial
| EvNotifyFinish.

(** The mutable world of one request: the value of the field on the
    context (the file object is shared, every method mutates it in place),
    the unread part of the request body, the number of uuids drawn, and
    the calls made so far, oldest first. *)
Record World := mkWorld {
  slot : option GCloudFile;
  content : bytes;
  uuid_count : nat;
  trace : list event
}.

Definition set_slot v w := mkWorld v (content w) (uuid_count w) (trace w).
Definition set_content v w := mkWorld (slot w) v (uuid_count w) (trace w).
Definition set_uuid_count v w := mkWorld (slot w) (content w) v (trace w).
Definition set_trace v w := mkWorld (slot w) (content w) (uuid_count w) v.

(** ** Exceptions and the monad of the methods *)

(** The exceptions of the module and of the libraries it calls:
    [GoogleCloudException] is the module's own, [HttpError] what the delete
    of the Google client raises, [IncompleteReadError] what [readexactly]
    raises, [ClientError] what the HTTP session raises when a call gets no
    answer, and [DecodeError] what base64 or utf-8 decoding raises. *)
Inductive exn :=
| AttributeError (msg : string)
| KeyError (key : string)
| IndexError
| ValueError
| TypeError
| DecodeError
| GoogleCloudException (body : string)
| IncompleteReadError (partial : bytes)
| HttpError (code : Z)
| ClientError.

Inductive result (A : Type) :=
| Ok (a : A)
| Raise (e : exn).
Arguments Raise {A} e.

Definition M (A : Type) := World -> result A * World.

Definition ret {A} (a : A) : M A := fun w => (Ok a, w).

Definition raise {A} (e : exn) : M A := fun w => (Raise e, w).

Definition bind {A B} (m : M A) (k : A -> M B) : M B :=
  fun w => match m w with
           | (Ok a, w') => k a w'
           | (Raise e, w') => (Raise e, w')
           end.

Notation "x <- m ;; k" := (bind m (fun x => k))
  (at level 61, m at next level, right associativity).
Notation "m ;;; k" := (bind m (fun _ => k))
  (at level 61, right associativity).

(** [try: m except E as e: h e]; [handler] returns [None] on the
    exceptions the clause does not catch. *)
Definition try_except {A} (m : M A) (handler : exn -> option (M A)) : M A :=
  fun w => match m w with
           | (Ok a, w') => (Ok a, w')
           | (Raise e, w') =>
               match handler e with
               | Some h => h w'
               | None => (Raise e, w')
               end
           end.

Definition of_option {A} (e : exn) (o : option A) : M A :=
  match o with Some a => ret a | None => raise e end.

(** [self] inside a method, and [file] in the manager: the object of the
    slot.  Using [None] as an object raises [AttributeError]. *)
Definition self : M GCloudFile :=
  fun w => match slot w with
           | Some f => (Ok f, w)
           | None => (Raise (AttributeError "NoneType"), w)
           end.

Definition update (g : GCloudFile -> GCloudFile) : M unit :=
  fun w => match slot w with
           | Some f => (Ok tt, set_slot (Some (g f)) w)
           | None => (Raise (AttributeError "NoneType"), w)
           end.

(** Reading an attribute that may be missing. *)
Definition attr {A} (name : string) (v : option A) : M A :=
  of_option (AttributeError name) v.

Definition emit (e : event) : M unit :=
  fun w => (Ok tt, set_trace (trace w ++ [e])%list w).

Definition uuid4 (env : Env) : M string :=
  fun w => (Ok (uuid4_hex env (uuid_count w)),
            set_uuid_count (S (uuid_count w)) w).

(** [request.content.readexactly(n)]: [n] bytes of the body, or
    [IncompleteReadError] with what was left when the body is shorter;
    nothing is read for [n <= 0]. *)
Definition readexactly (n : Z) : M bytes :=
  fun w =>
    let k := Z.to_nat n in
    if (k <=? List.length (content w))%nat
    then (Ok (firstn k (content w)), set_content (skipn k (content w)) w)
    else (Raise (IncompleteReadError (content w)), set_content [] w).

(** [try: data = readexactly(n) except IncompleteReadError as e: e.partial] *)
Definition read_or_partial (n : Z) : M bytes :=
  try_except (readexactly n)
    (fun e => match e with
              | IncompleteReadError p => Some (ret p)
              | _ => None
              end).

(** ** The module's constants *)

Definition CHUNK_SIZE : Z := 524288.
Definition MAX_RETRIES : Z := 5.
Definition UPLOAD_URL (bucket_name : string) : string :=
  "https://www.googleapis.com/upload/storage/v1/b/" ++ bucket_name
  ++ "/o?uploadType=resumable".

Definition status_in (st : Z) (l : list Z) : bool :=
  existsb (Z.eqb st) l.

(** ** [GCloudFile] methods *)

(** [req = util._service.objects().delete(bucket=..., object=key)] then
    [req.execute()]: the client library raises [HttpError] when the
    backend answers with a status of 300 or more. *)
Definition execute_delete (env : Env) (b : Backend) (key : string) : M unit :=
  emit (EvDelete (bucket env) key) ;;;
  if 300 <=? delete_status b key
  then raise (HttpError (delete_status b key))
  else ret tt.

(** [try: req.execute() except errors.HttpError: pass] *)
Definition delete_best_effort (env : Env) (b : Backend) (key : string)
  : M unit :=
  try_except (execute_delete env b key)
    (fun e => match e with
              | HttpError _ => Some (ret tt)
              | _ => None
              end).

(** The answer of an HTTP call of the [aiohttp] session. *)
Definition answer (a : option reply) : M reply :=
  of_option ClientError a.

Definition initUpload (env : Env) (b : Backend) : M unit :=
  f <- self ;;
  match _upload_file_id f with
  | Some (Some key) => delete_best_effort env b key
  | _ => ret tt
  end ;;;
  u <- uuid4 env ;;
  let key := site_id env ++ "/" ++ u in
  update (set_upload_file_id (Some key)) ;;;
  let init_url := UPLOAD_URL (bucket env) ++ "&name=" ++ key in
  f <- self ;;
  let metadata :=
    json_dumps env [("CREATOR", Some (creator env));
                    ("REQUEST", Some (request_repr env));
                    ("NAME", filename f)] in
  let call_size := Z.of_nat (String.length metadata) in
  sz <- attr "_size" (_size f) ;;
  emit (EvPost init_url
          [("AUTHORIZATION", "Bearer " ++ access_token env);
           ("X-Upload-Content-Type", contentType f);
           ("X-Upload-Content-Length", Py.str sz);
           ("Content-Type", "application/json; charset=UTF-8");
           ("Content-Length", Py.str call_size)]
          metadata) ;;;
  call <- answer (post_answer b) ;;
  (if negb (status call =? 200)
   then raise (GoogleCloudException (text call))
   else
     loc <- of_option (KeyError "Location") (hget "Location" (rheaders call)) ;;
     update (set_resumable_uri loc)) ;;;
  update (set_current_upload 0) ;;;
  update (set_resumable_uri_date (now env)) ;;;
  emit EvNotifyInitial.

(** A computation that touches nothing of the world. *)
Definition lift {A} (r : result A) : M A := fun w => (r, w).

(** [int(call.headers['Range'].split('-')[1])] *)
Definition range_end (call : reply) : result Z :=
  match hget "Range" (rheaders call) with
  | None => Raise (KeyError "Range")
  | Some rng =>
      match nth_error (Py.split "-" rng) 1 with
      | None => Raise IndexError
      | Some piece =>
          match Py.int piece with
          | None => Raise ValueError
          | Some n => Ok n
          end
      end
  end.

Definition content_range (init chunk total : Z) : string :=
  "bytes " ++ Py.str init ++ "-" ++ Py.str chunk ++ "/" ++ Py.str total.

(** [appendData(data)]; [a] is the backend's answer to this PUT. *)
Definition appendData (data : bytes) (a : option reply) : M reply :=
  f <- self ;;
  sz <- attr "_size" (_size f) ;;
  let cr := content_range (_current_upload f)
              (_current_upload f + Py.len data - 1) sz in
  uri <- attr "_resumable_uri" (_resumable_uri f) ;;
  emit (EvPut uri
          [("Content-Length", Py.str (Py.len data));
           ("Content-Type", contentType f);
           ("Content-Range", cr)]
          data) ;;;
  call <- answer a ;;
  (if status call =? 308
   then n <- lift (range_end call) ;; update (set_current_upload n)
   else ret tt) ;;;
  (if status_in (status call) [200; 201]
   then update (set_current_upload sz)
   else ret tt) ;;;
  ret call.

Definition finishUpload (env : Env) (b : Backend) : M unit :=
  f <- self ;;
  match _uri f with
  | Some (Some key) => delete_best_effort env b key
  | _ => ret tt
  end ;;;
  f <- self ;;
  pending <- attr "_upload_file_id" (_upload_file_id f) ;;
  update (set_uri pending) ;;;
  update (set_upload_file_id None) ;;;
  emit EvNotifyFinish.

(** ** [GCloudFileManager] methods *)

(** How one turn of a [while data] loop ends. *)
Inductive flow :=
| Break
| Again (data : option bytes) (count : Z).

(** [data += more]; adding bytes to [None] is a [TypeError]. *)
Definition iadd (data : option bytes) (more : bytes) : M (option bytes) :=
  match data with
  | Some d => ret (Some (d ++ more)%list)
  | None => raise TypeError
  end.

(** The body of the loop of [tus_patch], entered with a non-empty [data]. *)
Definition patch_turn (env : Env) (b : Backend) (data : bytes) (count : Z)
    (a : option reply) : M flow :=
  f <- self ;;
  let old_current_upload := _current_upload f in
  resp <- appendData data a ;;
  f <- self ;;
  let readed_bytes :=
    if status_in (status resp) [200; 201]
    then _current_upload f - old_current_upload
    else _current_upload f - old_current_upload + 1 in
  let data := Py.slice_from readed_bytes data in
  let bytes_to_read := Py.len data in
  data <- (if status_in (status resp) [200; 201]
           then finishUpload env b ;;; ret None
           else ret (Some data)) ;;
  if bytes_to_read =? 0 then ret Break
  else if bytes_to_read <? 262144 then ret Break
  else if status_in (status resp) [400] then ret Break
  else if status resp =? 308 then
    more <- read_or_partial bytes_to_read ;;
    data <- iadd data more ;;
    ret (Again data 0)
  else
    let count := count + 1 in
    if count >? MAX_RETRIES
    then raise (AttributeError "MAX retries error")
    else ret (Again data count).

(** [while data: ...] of [tus_patch]: [data] is true when it is neither
    [None] nor empty.  The recursion is on the answers the backend will
    give: every turn makes one PUT, and a PUT that gets no answer raises. *)
Fixpoint patch_loop (env : Env) (b : Backend) (answers : list reply)
    (data : option bytes) (count : Z) : M unit :=
  match data with
  | Some ((_ :: _) as d) =>
      match answers with
      | [] => patch_turn env b d count None ;;; ret tt
      | a :: answers' =>
          fl <- patch_turn env b d count (Some a) ;;
          match fl with
          | Break => ret tt
          | Again data' count' => patch_loop env b answers' data' count'
          end
      end
  | _ => ret tt
  end.

Definition tus_patch (env : Env) (req : Request) (b : Backend) : M Response :=
  to_upload <-
    (if hmem "CONTENT-LENGTH" (req_headers req)
     then
       v <- of_option (KeyError "CONTENT-LENGTH")
              (hget "CONTENT-LENGTH" (req_headers req)) ;;
       of_option ValueError (Py.int v)
     else raise (AttributeError "No content-length header")) ;;
  (if hmem "UPLOAD-OFFSET" (req_headers req)
   then
     v <- of_option (KeyError "UPLOAD-OFFSET")
            (hget "UPLOAD-OFFSET" (req_headers req)) ;;
     n <- of_option ValueError (Py.int v) ;;
     update (set_current_upload n)
   else raise (AttributeError "No upload-offset header")) ;;;
  data <- read_or_partial to_upload ;;
  patch_loop env b (put_answers b) (Some data) 0 ;;;
  f <- self ;;
  date <- attr "_resumable_uri_date" (_resumable_uri_date f) ;;
  let expiration := date + 7 * 86400 in
  ret (mkResponse
         [("Upload-Offset", Py.str (actualSize f));
          ("Tus-Resumable", "1.0.0");
          ("Upload-Expires", isoformat env expiration);
          ("Access-Control-Expose-Headers",
           "Upload-Offset,Upload-Expires,Tus-Resumable")]
         None).

(** [file = self.field.get(self.context)]; when it is [None], a new
    [GCloudFile] is stored in the field. *)
Definition get_or_create_file (req : Request) : M unit :=
  fun w => match slot w with
           | Some _ => (Ok tt, w)
           | None => (Ok tt, set_slot (Some (new_file (req_content_type req))) w)
           end.

(** [self.request.headers.get('X-HTTP-Method-Override') == 'PATCH'] *)
Definition method_override_is_patch (req : Request) : bool :=
  match hget "X-HTTP-Method-Override" (req_headers req) with
  | Some v => String.eqb v "PATCH"
  | None => false
  end.

Definition tus_create (env : Env) (req : Request) (b : Backend) : M Response :=
  if method_override_is_patch req then tus_patch env req b
  else
    get_or_create_file req ;;;
    (if hmem "CONTENT-LENGTH" (req_headers req)
     then
       v <- of_option (KeyError "CONTENT-LENGTH")
              (hget "CONTENT-LENGTH" (req_headers req)) ;;
       n <- of_option ValueError (Py.int v) ;;
       update (set_current_upload n)
     else update (set_current_upload 0)) ;;;
    (if hmem "UPLOAD-LENGTH" (req_headers req)
     then
       v <- of_option (KeyError "UPLOAD-LENGTH")
              (hget "UPLOAD-LENGTH" (req_headers req)) ;;
       n <- of_option ValueError (Py.int v) ;;
       update (set_size n)
     else raise (AttributeError "We need upload-length header")) ;;;
    match hget "UPLOAD-MD5" (req_headers req) with
    | Some v => update (set_md5hash (Some v))
    | None => ret tt
    end ;;;
    match hget "UPLOAD-EXTENSION" (req_headers req) with
    | Some v => update (set_extension (Some v))
    | None => ret tt
    end ;;;
    (if negb (hmem "TUS-RESUMABLE" (req_headers req))
     then raise (AttributeError "Its a TUS needs a TUS version")
     else ret tt) ;;;
    match hget "UPLOAD-METADATA" (req_headers req) with
    | None => u <- uuid4 env ;; update (set_filename (Some u))
    | Some meta =>
        piece <- of_option IndexError (nth_error (Py.split_ws meta) 1) ;;
        name <- of_option DecodeError (b64decode_utf8 env piece) ;;
        update (set_filename (Some name))
    end ;;;
    initUpload env b ;;;
    ret (mkResponse
           [("Location",
             absolute_url env ++ "/@tusupload/" ++ field_name env);
            ("Tus-Resumable", "1.0.0");
            ("Access-Control-Expose-Headers", "Location,Tus-Resumable")]
           (Some 201)).

Definition tus_head (env : Env) : M Response :=
  fun w =>
    match slot w with
    | None => (Raise (KeyError "No file on this context"), w)
    | Some f =>
        let head_response :=
          [("Upload-Offset", Py.str (actualSize f));
           ("Tus-Resumable", "1.0.0");
           ("Access-Control-Expose-Headers",
            "Upload-Offset,Upload-Length,Tus-Resumable")] in
        if truthy_int (size f)
        then
          match _size f with
          | Some n =>
              (Ok (mkResponse
                     (head_response ++ [("Upload-Length", Py.str n)])%list None),
               w)
          | None => (Raise (AttributeError "_size"), w)
          end
        else (Ok (mkResponse head_response None), w)
    end.

(** The body of the loop of [upload], entered with a non-empty [data]. *)
Definition upload_turn (data : bytes) (count : Z) (a : option reply)
  : M flow :=
  f <- self ;;
  let old_current_upload := _current_upload f in
  resp <- appendData data a ;;
  f <- self ;;
  let readed_bytes := _current_upload f - old_current_upload in
  let data := Py.slice_from readed_bytes data in
  let bytes_to_read := readed_bytes in
  if status_in (status resp) [200; 201] then ret Break
  else if status resp =? 308 then
    more <- read_or_partial bytes_to_read ;;
    ret (Again (Some (data ++ more)%list) 0)
  else
    let count := count + 1 in
    if count >? MAX_RETRIES
    then raise (AttributeError "MAX retries error")
    else ret (Again (Some data) count).

Fixpoint upload_loop (answers : list reply) (data : option bytes) (count : Z)
  : M unit :=
  match data with
  | Some ((_ :: _) as d) =>
      match answers with
      | [] => upload_turn d count None ;;; ret tt
      | a :: answers' =>
          fl <- upload_turn d count (Some a) ;;
          match fl with
          | Break => ret tt
          | Again data' count' => upload_loop answers' data' count'
          end
      end
  | _ => ret tt
  end.

(** [upload]: the whole body in one request.  The savepoint of the
    surrounding transaction is the transaction manager's and is left out. *)
Definition upload (env : Env) (req : Request) (b : Backend) : M unit :=
  get_or_create_file req ;;;
  update (set_md5hash (hget "X-UPLOAD-MD5HASH" (req_headers req))) ;;;
  update (set_extension (hget "X-UPLOAD-EXTENSION" (req_headers req))) ;;;
  (if hmem "X-UPLOAD-SIZE" (req_headers req)
   then
     v <- of_option (KeyError "X-UPLOAD-SIZE")
            (hget "X-UPLOAD-SIZE" (req_headers req)) ;;
     n <- of_option ValueError (Py.int v) ;;
     update (set_size n)
   else raise (AttributeError "x-upload-size header needed")) ;;;
  match hget "X-UPLOAD-FILENAME" (req_headers req) with
  | Some v => update (set_filename (Some v))
  | None =>
      match hget "X-UPLOAD-FILENAME-B64" (req_headers req) with
      | Some v =>
          name <- of_option DecodeError (b64decode_utf8 env v) ;;
          update (set_filename (Some name))
      | None => u <- uuid4 env ;; update (set_filename (Some u))
      end
  end ;;;
  initUpload env b ;;;
  data <- read_or_partial CHUNK_SIZE ;;
  upload_loop (put_answers b) (Some data) 0 ;;;
  finishUpload env b.

(** ** The rest of the module *)

Definition MAX_SIZE : Z := 1073741824.

(** [tus_options]: the capabilities, whatever the state. *)
Definition tus_options : M Response :=
  ret (mkResponse
         [("Tus-Resumable", "1.0.0");
          ("Tus-Version", "1.0.0");
          ("Tus-Max-Size", "1073741824");
          ("Tus-Extension", "creation,expiration")]
         None).

(** [l[-1]] on the list that [split] returned (it is never empty). *)
Definition last_piece (l : list string) : string := List.last l EmptyString.

(** [GCloudFile(contentType=ct, filename=name)]: with a filename, the
    extension is what follows its last dot, when it has a dot.  (With no
    filename the field property answers its default, [None], and the
    object is [new_file ct].) *)
Definition init_file (ct : string) (name : option string) : GCloudFile :=
  match name with
  | Some n =>
      let f := set_filename (Some n) (new_file ct) in
      let extension_discovery := Py.split "." n in
      if 1 <? Py.len extension_discovery
      then set_extension (Some (last_piece extension_discovery)) f
      else f
  | None => new_file ct
  end.

(** The [md5] and [extension] properties: [None] when the attribute is
    missing. *)
Definition md5 (f : GCloudFile) : option string :=
  match _md5hash f with Some v => v | None => None end.

Definition extension (f : GCloudFile) : option string :=
  match _extension f with Some v => v | None => None end.

Definition getSize (f : GCloudFile) : option Z := size f.

(** The dictionary [json_converter] returns. *)
Record FileJson := mkFileJson {
  json_filename : option string;
  json_contenttype : string;
  json_size : option Z;
  json_extension : option string;
  json_md5 : option string
}.

Definition json_converter (value : option GCloudFile) : option FileJson :=
  match value with
  | None => None
  | Some f =>
      Some (mkFileJson (filename f) (contentType f) (size f) (extension f)
              (md5 f))
  end.

(** [GCloudFile.download]: the key of the object that is fetched, the
    committed one as soon as the [_uri] attribute is there. *)
Definition download_key (f : GCloudFile) : result (option string) :=
  match _uri f with
  | None =>
      match _upload_file_id f with
      | Some key => Ok key
      | None => Raise (AttributeError "_upload_file_id")
      end
  | Some key => Ok key
  end.

(** [io.BytesIO]: the bytes and the position. *)
Record BytesIO := mkBytesIO {
  buf_bytes : bytes;
  buf_pos : nat
}.

Definition buf_seek0 (b : BytesIO) : BytesIO := mkBytesIO (buf_bytes b) 0.

(** [buf.read()]: everything from the position on; the position goes to
    the end. *)
Definition buf_read (b : BytesIO) : bytes * BytesIO :=
  (skipn (buf_pos b) (buf_bytes b),
   mkBytesIO (buf_bytes b) (Nat.max (buf_pos b) (List.length (buf_bytes b)))).

(** [buf.truncate()]: cut at the position. *)
Definition buf_truncate (b : BytesIO) : BytesIO :=
  mkBytesIO (firstn (buf_pos b) (buf_bytes b)) (buf_pos b).

(** [buf.write(chunk)]: at the position, over what is there, after zeros
    when the position is beyond the end. *)
Definition buf_write (chunk : bytes) (b : BytesIO) : BytesIO :=
  let pre :=
    (firstn (buf_pos b) (buf_bytes b) ++
     repeat x00 (buf_pos b - List.length (buf_bytes b)))%list in
  mkBytesIO
    (pre ++ chunk ++ skipn (buf_pos b + List.length chunk) (buf_bytes b))%list
    (buf_pos b + List.length chunk).

(** What [aiohttp.web.StreamResponse] has been given. *)
Record StreamResponse := mkStreamResponse {
  sr_headers : headers;
  sr_content_type : string;
  sr_content_length : option Z;
  sr_body : bytes
}.

(** ['%s' % x] for a string or [None]. *)
Definition format_s (x : option string) : string :=
  match x with Some s => s | None => "None" end.

Definition dquote : string := String (ascii_of_nat 34) EmptyString.

(** One turn of the loop of [download], after [next_chunk()] has written
    [chunk] into the buffer: the buffer is read from its start, given to
    the response, and emptied. *)
Definition download_turn (chunk : bytes) (buf : BytesIO) (out : bytes)
  : bytes * BytesIO :=
  let buf := buf_write chunk buf in
  let buf := buf_seek0 buf in
  let (data, buf) := buf_read buf in
  let out := (out ++ data)%list in
  let buf := buf_seek0 buf in
  let buf := buf_truncate buf in
  (out, buf).

(** The loop of [download].  [chunks] are the pieces the downloader will
    write into the buffer, one for each [next_chunk()], which says [done]
    on the last one (and at once when there is nothing to fetch); [out] is
    what the response has been given so far. *)
Fixpoint download_loop (chunks : list bytes) (buf : BytesIO) (out : bytes)
  : bytes * BytesIO :=
  match chunks with
  | [] => download_turn [] buf out
  | chunk :: rest =>
      match rest with
      | [] => download_turn chunk buf out
      | _ :: _ =>
          let (out, buf) := download_turn chunk buf out in
          download_loop rest buf out
      end
  end.

(** [GCloudFileManager.download]; [media] gives the pieces in which the
    downloader fetches the object of a key. *)
Definition download (slot : option GCloudFile)
    (media : option string -> list bytes) : result StreamResponse :=
  match slot with
  | None => Raise (AttributeError "No field value")
  | Some f =>
      let hs :=
        [("CONTENT-DISPOSITION",
          "attachment; filename=" ++ dquote ++ format_s (filename f)
          ++ dquote)] in
      let content_length :=
        if truthy_int (size f) then size f else None in
      match download_key f with
      | Raise e => Raise e
      | Ok key =>
          let (out, _) := download_loop (media key) (mkBytesIO [] 0) [] in
          Ok (mkStreamResponse hs (contentType f) content_length out)
      end
  end.

(** [str.lower] and [c in s] on ASCII strings. *)
Definition lower_char (c : ascii) : ascii :=
  let n := nat_of_ascii c in
  if ((65 <=? n) && (n <=? 90))%nat then ascii_of_nat (n + 32) else c.

Fixpoint lower (s : string) : string :=
  match s with
  | EmptyString => EmptyString
  | String c s' => String (lower_char c) (lower s')
  end.

Fixpoint contains_char (c : ascii) (s : string) : bool :=
  match s with
  | EmptyString => false
  | String c' s' => Ascii.eqb c' c || contains_char c s'
  end.

(** The name [GCloudBlobStore.bucket] builds from the site id and the
    configured bucket. *)
Definition bucket_name (site configured : string) : string :=
  let char_delimiter := if contains_char "." configured then "." else "_" in
  lower site ++ char_delimiter ++ configured.

(** [GCloudBlobStore.bucket] on the buckets that exist: [get_bucket]
    raises [NotFound] on a name that is not there, and the bucket is then
    created.  The result is the name and the buckets afterwards. *)
Definition bucket_property (site configured : string) (existing : list string)
  : string * list string :=
  let name := bucket_name site configured in
  if existsb (String.eqb name) existing
  then (name, existing)
  else (name, name :: existing).

(** * Vocabulary of the properties *)

(** ** Calls, traces and outcomes *)

(** The PUT [appendData] makes for [data] on the file [f]. *)
Definition put_event (f : GCloudFile) (uri : string) (sz : Z) (data : bytes)
  : event :=
  EvPut uri
    [("Content-Length", Py.str (Py.len data));
     ("Content-Type", contentType f);
     ("Content-Range",
      content_range (_current_upload f)
        (_current_upload f + Py.len data - 1) sz)]
    data.

(** The key [initUpload] gives to the pending object. *)
Definition pending_key (env : Env) (k : nat) : string :=
  site_id env ++ "/" ++ uuid4_hex env k.

(** The session-creating POST. *)
Definition post_event (env : Env) (f : GCloudFile) (sz : Z) (k : nat) : event :=
  let metadata :=
    json_dumps env [("CREATOR", Some (creator env));
                    ("REQUEST", Some (request_repr env));
                    ("NAME", filename f)] in
  EvPost (UPLOAD_URL (bucket env) ++ "&name=" ++ pending_key env k)
    [("AUTHORIZATION", "Bearer " ++ access_token env);
     ("X-Upload-Content-Type", contentType f);
     ("X-Upload-Content-Length", Py.str sz);
     ("Content-Type", "application/json; charset=UTF-8");
     ("Content-Length", Py.str (Z.of_nat (String.length metadata)))]
    metadata.

(** The delete [initUpload] makes first, when a pending object is left. *)
Definition init_delete (env : Env) (f : GCloudFile) : list event :=
  match _upload_file_id f with
  | Some (Some key) => [EvDelete (bucket env) key]
  | _ => []
  end.

(** The calls [finishUpload] makes: the delete of the committed object,
    when there is one, and the notification. *)
Definition finish_events (env : Env) (f : GCloudFile) : list event :=
  match _uri f with
  | Some (Some key) => [EvDelete (bucket env) key; EvNotifyFinish]
  | _ => [EvNotifyFinish]
  end.

(** The chunk PUTs among the calls. *)
Definition is_put (e : event) : bool :=
  match e with EvPut _ _ _ => true | _ => false end.

(** The number of [appendData] attempts a trace holds. *)
Definition attempts (tr : list event) : nat :=
  List.length (filter is_put tr).

(** The sizes of the chunks put to the backend, oldest first. *)
Definition put_sizes (tr : list event) : list Z :=
  flat_map (fun e => match e with
                     | EvPut _ _ data => [Py.len data]
                     | _ => []
                     end) tr.

(** The session-creating POSTs among the calls. *)
Definition is_post (e : event) : bool :=
  match e with EvPost _ _ _ => true | _ => false end.

(** The calls of the second world are those of the first, followed by
    calls that are no session-creating POST. *)
Definition no_new_post (w w' : World) : Prop :=
  exists evs, trace w' = (trace w ++ evs)%list /\
              forallb (fun e => negb (is_post e)) evs = true.

(** Whether a method returned. *)
Definition succeeded {A} (r : result A) : bool :=
  match r with Ok _ => true | Raise _ => false end.

(** The error of a result, if it is one. *)
Definition error_of {A} (r : result A) : option exn :=
  match r with Ok _ => None | Raise e => Some e end.

(** The accepted offset of the file of the slot. *)
Definition offset_of (w : World) : option Z :=
  option_map _current_upload (slot w).

(** ** The steps of a Patch *)

(** What [tus_patch] does after its loop: the response with the offset and
    the expiry of the session. *)
Definition patch_tail (env : Env) : M Response :=
  f <- self ;;
  date <- attr "_resumable_uri_date" (_resumable_uri_date f) ;;
  ret (mkResponse
         [("Upload-Offset", Py.str (actualSize f));
          ("Tus-Resumable", "1.0.0");
          ("Upload-Expires", isoformat env (date + 7 * 86400));
          ("Access-Control-Expose-Headers",
           "Upload-Offset,Upload-Expires,Tus-Resumable")]
         None).

(** A status on which the loop of [tus_patch] counts a retry. *)
Definition retried (a : reply) : bool :=
  negb (status_in (status a) [200; 201; 308; 400]).

(** The offset [appendData] leaves after the answer [a], from [cur]. *)
Definition offset_after (sz cur : Z) (a : reply) : Z :=
  if status a =? 308
  then match range_end a with Ok n => n | Raise _ => cur end
  else if status_in (status a) [200; 201] then sz else cur.

(** The offset a Patch request declares, when it is an integer. *)
Definition declared_offset (req : Request) : option Z :=
  match hget "UPLOAD-OFFSET" (req_headers req) with
  | Some v => Py.int v
  | None => None
  end.

(** ** Sessions and sequences of operations *)

(** The operations made on one upload session. *)
Inductive op :=
| OpAppend (data : bytes) (a : reply)
| OpHead
| OpPatch (req : Request) (body : bytes) (b : Backend).

(** An append is made with the answer the backend gives to it; a Patch
    comes with its request, its body and the backend of its time. *)
Definition run_op (env : Env) (o : op) : M unit :=
  match o with
  | OpAppend data a => appendData data (Some a) ;;; ret tt
  | OpHead => tus_head env ;;; ret tt
  | OpPatch req body b =>
      (fun w => (Ok tt, set_content body w)) ;;;
      tus_patch env req b ;;; ret tt
  end.

(** A Continue answer acknowledges an offset between the current one and
    the declared size. *)
Definition ack_ok (sz cur : Z) (a : reply) : bool :=
  if status a =? 308
  then match range_end a with
       | Ok n => (cur <=? n) && (n <=? sz)
       | Raise _ => false
       end
  else true.

(** The same along the answers of one Patch, each one measured against
    the offset the answers before it have led to. *)
Fixpoint acks_ok (sz cur : Z) (answers : list reply) : bool :=
  match answers with
  | [] => true
  | a :: rest => ack_ok sz cur a && acks_ok sz (offset_after sz cur a) rest
  end.

(** What the code does not check by itself: the offset a Patch declares
    and the offsets the backend acknowledges never go back nor beyond the
    declared size. *)
Definition op_ok (sz cur : Z) (o : op) : bool :=
  match o with
  | OpAppend _ a => ack_ok sz cur a
  | OpHead => true
  | OpPatch req _ b =>
      match declared_offset req with
      | Some off =>
          (cur <=? off) && (off <=? sz) && acks_ok sz off (put_answers b)
      | None => false
      end
  end.

(** A session that [initUpload] has opened, of declared size [sz]. *)
Definition session (sz : Z) (f : GCloudFile) : Prop :=
  _size f = Some sz /\
  (exists uri, _resumable_uri f = Some uri) /\
  (exists pending, _upload_file_id f = Some pending).

(** A sequence of successful operations, each within [op_ok]. *)
Inductive run (env : Env) (sz : Z) : World -> list op -> World -> Prop :=
| run_nil w : run env sz w [] w
| run_cons w f o w1 ops w2 :
    slot w = Some f ->
    op_ok sz (_current_upload f) o = true ->
    run_op env o w = (Ok tt, w1) ->
    run env sz w1 ops w2 ->
    run env sz w (o :: ops) w2.

(** What a world after some steps has kept of the session and how far its
    offset stands from [lo]. *)
Definition advanced (sz lo : Z) (w : World) : Prop :=
  exists f, slot w = Some f /\ session sz f /\
            lo <= _current_upload f <= sz.

(** ** What every step of a method keeps *)

(** [safe R E m]: whenever [m] runs, the worlds before and after are
    related by [R], and an exception that comes out satisfies [E]. *)
Definition safe (R : World -> World -> Prop) (E : exn -> Prop) {A} (m : M A)
  : Prop :=
  forall w r w', m w = (r, w') -> R w w' /\ (forall e, r = Raise e -> E e).

(** The exceptions a short read or a failed delete would raise. *)
Definition handled (e : exn) : Prop :=
  match e with
  | IncompleteReadError _ | HttpError _ => False
  | _ => True
  end.

(** [quiet m]: [m] makes no session-creating POST and lets neither an
    [IncompleteReadError] nor an [HttpError] out. *)
Definition quiet {A} (m : M A) : Prop := safe no_new_post handled m.

(** ** Decimal numerals *)

(** The value of a decimal numeral read after the prefix valued [acc]. *)
Fixpoint uint_value (d : Decimal.uint) (acc : Z) : Z :=
  match d with
  | Decimal.Nil => acc
  | Decimal.D0 d => uint_value d (10 * acc + 0)
  | Decimal.D1 d => uint_value d (10 * acc + 1)
  | Decimal.D2 d => uint_value d (10 * acc + 2)
  | Decimal.D3 d => uint_value d (10 * acc + 3)
  | Decimal.D4 d => uint_value d (10 * acc + 4)
  | Decimal.D5 d => uint_value d (10 * acc + 5)
  | Decimal.D6 d => uint_value d (10 * acc + 6)
  | Decimal.D7 d => uint_value d (10 * acc + 7)
  | Decimal.D8 d => uint_value d (10 * acc + 8)
  | Decimal.D9 d => uint_value d (10 * acc + 9)
  end.

(** The characters of a decimal numeral. *)
Definition chars_of (d : Decimal.uint) : list ascii :=
  list_ascii_of_string (NilEmpty.string_of_uint d).

(** The characters [0] to [9]. *)
Definition is_digit (c : ascii) : bool :=
  match Py.digit_of c with Some _ => true | None => false end.

(** ** Sample data *)

(** An environment to run the methods in. *)
Definition demo_env : Env :=
  mkEnv "site" "bucket" "token" "root" "<Request>" 0
    (fun n => "uuid" ++ Py.str (Z.of_nat n))
    (fun _ => "{}") Py.str (fun s => Some s) "http://host/obj" "file".

(** A file whose session was initiated: declared size [sz], offset [cur]. *)
Definition demo_file (sz cur : Z) : GCloudFile :=
  mkFile "application/octet-stream" (Some "name") cur (Some sz) None None
    (Some (Some "site/pending")) None (Some "http://backend/session")
    (Some 0).

(** A file with a committed object and a pending one. *)
Definition replacing_file : GCloudFile :=
  mkFile "application/octet-stream" (Some "name") 10 (Some 10) None None
    (Some (Some "site/new")) (Some (Some "site/old"))
    (Some "http://backend/session") (Some 0).

(** A Patch request of [n] bytes at offset [off]. *)
Definition patch_request (n off : Z) : Request :=
  mkRequest [("Content-Length", Py.str n); ("Upload-Offset", Py.str off)]
    "application/offset+octet-stream".

(** A Create request redirected to Patch, with no [Upload-Length]. *)
Definition override_request : Request :=
  mkRequest
    [("X-HTTP-Method-Override", "PATCH");
     ("Content-Length", "10"); ("Upload-Offset", "0")]
    "application/offset+octet-stream".

(** The world of a request with the body [body] on the file [f]. *)
Definition demo_world (f : GCloudFile) (body : bytes) : World :=
  mkWorld (Some f) body 0 [].

(** A backend that gives [answers] to the appends and accepts deletes. *)
Definition answering (answers : list reply) : Backend :=
  mkBackend None answers (fun _ => 204).

(** [n] bytes. *)
Definition zeros (n : Z) : bytes := repeat x00 (Z.to_nat n).

(** A transient failure of the backend. *)
Definition unavailable : reply := mkReply 503 [] "".

(** The Complete answer. *)
Definition complete : reply := mkReply 200 [] "".

(** The answer to a session-creating call that succeeded. *)
Definition created : reply :=
  mkReply 200 [("Location", "http://backend/session")] "".

(** The Continue answer that acknowledges the bytes [0 .. last]. *)
Definition continue_ack (last : Z) : reply :=
  mkReply 308 [("Range", "bytes=0-" ++ Py.str last)] "".

(** A Create request for [n] bytes in all. *)
Definition create_request (n : Z) : Request :=
  mkRequest [("Upload-Length", Py.str n); ("Tus-Resumable", "1.0.0")]
    "application/octet-stream".

(** Create, then Patch with the whole body, then Head, on an empty slot;
    the backend opens the session and completes on the first append. *)
Definition create_patch_head (n : Z) : M Response :=
  let b := mkBackend (Some created) [complete] (fun _ => 204) in
  tus_create demo_env (create_request n) b ;;;
  (fun w => (Ok tt, set_content (zeros n) w)) ;;;
  tus_patch demo_env (patch_request n 0) b ;;;
  tus_head demo_env.

(** ** What a method leaves untouched *)

(** [frames q m]: [m] never changes what [q] sees of the world. *)
Definition frames {X} (q : World -> X) {A} (m : M A) : Prop :=
  safe (fun w w' => q w = q w') (fun _ => True) m.

(** What [p] sees of the file of the slot. *)
Definition on_file {X} (p : GCloudFile -> X) (w : World) : option X :=
  option_map p (slot w).

(** The metadata of a file and the handle of its session. *)
Definition metadata (f : GCloudFile) :=
  (contentType f, filename f, _size f, _md5hash f, _extension f,
   _resumable_uri f, _resumable_uri_date f).

(** ** Responses *)

(** The response of a Patch that leaves the file at [offset], on a session
    opened at [date]. *)
Definition patch_response (env : Env) (offset date : Z) : Response :=
  mkResponse
    [("Upload-Offset", Py.str offset);
     ("Tus-Resumable", "1.0.0");
     ("Upload-Expires", isoformat env (date + 7 * 86400));
     ("Access-Control-Expose-Headers",
      "Upload-Offset,Upload-Expires,Tus-Resumable")]
    None.

(** The file after a Complete answer and the finalization that follows. *)
Definition finalized (sz : Z) (pending : option string) (f : GCloudFile)
  : GCloudFile :=
  set_upload_file_id None (set_uri pending (set_current_upload sz f)).

(** The response of a Create that opened a session. *)
Definition create_response (env : Env) : Response :=
  mkResponse
    [("Location", absolute_url env ++ "/@tusupload/" ++ field_name env);
     ("Tus-Resumable", "1.0.0");
     ("Access-Control-Expose-Headers", "Location,Tus-Resumable")]
    (Some 201).

(** The file after [initUpload] opened the session [loc], the [k]-th uuid
    naming the pending object. *)
Definition initiated (env : Env) (k : nat) (loc : string) (f : GCloudFile)
  : GCloudFile :=
  set_resumable_uri_date (now env)
    (set_current_upload 0
       (set_resumable_uri loc
          (set_upload_file_id (Some (pending_key env k)) f))).

(** The offset a Create takes from its [Content-Length] header. *)
Definition create_offset (req : Request) : option Z :=
  match hget "CONTENT-LENGTH" (req_headers req) with
  | None => Some 0
  | Some v => Py.int v
  end.

(** The file a Create works on, and what the size, checksum and extension
    headers have made of it. *)
Definition file_or_new (req : Request) (sl : option GCloudFile) : GCloudFile :=
  match sl with
  | Some f => f
  | None => new_file (req_content_type req)
  end.

Definition create_headers (req : Request) (c n : Z) (f : GCloudFile)
  : GCloudFile :=
  let f := set_size n (set_current_upload c f) in
  let f :=
    match hget "UPLOAD-MD5" (req_headers req) with
    | Some v => set_md5hash (Some v) f
    | None => f
    end in
  match hget "UPLOAD-EXTENSION" (req_headers req) with
  | Some v => set_extension (Some v) f
  | None => f
  end.

(** What [tus_create] does after these headers. *)
Definition create_tail (env : Env) (req : Request) (b : Backend) : M Response :=
  (if negb (hmem "TUS-RESUMABLE" (req_headers req))
   then raise (AttributeError "Its a TUS needs a TUS version")
   else ret tt) ;;;
  match hget "UPLOAD-METADATA" (req_headers req) with
  | None => u <- uuid4 env ;; update (set_filename (Some u))
  | Some meta =>
      piece <- of_option IndexError (nth_error (Py.split_ws meta) 1) ;;
      name <- of_option DecodeError (b64decode_utf8 env piece) ;;
      update (set_filename (Some name))
  end ;;;
  initUpload env b ;;;
  ret (create_response env).

(** The whole file but for its accepted offset. *)
Definition but_offset (f : GCloudFile) : GCloudFile := set_current_upload 0 f.

(** The name [upload] gives the file: the plain header before the base64
    one, and the [k]-th uuid when there is neither; and the number of
    uuids this takes. *)
Definition upload_name (env : Env) (req : Request) (k : nat) : option string :=
  match hget "X-UPLOAD-FILENAME" (req_headers req) with
  | Some v => Some v
  | None =>
      match hget "X-UPLOAD-FILENAME-B64" (req_headers req) with
      | Some v => b64decode_utf8 env v
      | None => Some (uuid4_hex env k)
      end
  end.

Definition upload_uuids (req : Request) : nat :=
  match hget "X-UPLOAD-FILENAME" (req_headers req),
        hget "X-UPLOAD-FILENAME-B64" (req_headers req) with
  | None, None => 1
  | _, _ => 0
  end.

(** The file after the checksum and extension headers of [upload], and
    after all its headers. *)
Definition upload_reset (req : Request) (sl : option GCloudFile) : GCloudFile :=
  set_extension (hget "X-UPLOAD-EXTENSION" (req_headers req))
    (set_md5hash (hget "X-UPLOAD-MD5HASH" (req_headers req))
       (file_or_new req sl)).

Definition upload_file (req : Request) (n : Z) (name : string)
    (sl : option GCloudFile) : GCloudFile :=
  set_filename (Some name) (set_size n (upload_reset req sl)).

(** What [upload] does after its headers. *)
Definition upload_tail (env : Env) (b : Backend) : M unit :=
  initUpload env b ;;;
  data <- read_or_partial CHUNK_SIZE ;;
  upload_loop (put_answers b) (Some data) 0 ;;;
  finishUpload env b.

(** A call that is not a PUT without a byte. *)
Definition put_nonempty (e : event) : bool :=
  match e with
  | EvPut _ _ [] => false
  | _ => true
  end.

(** [orderly w w']: from [w] to [w'] calls were only added, none of them a
    PUT without a byte, and the request body was only read from its
    front. *)
Definition orderly (w w' : World) : Prop :=
  (exists evs, trace w' = (trace w ++ evs)%list /\
               forallb put_nonempty evs = true) /\
  (exists read, content w = (read ++ content w')%list).

(** [disciplined m]: [m] is orderly and lets neither an
    [IncompleteReadError] nor an [HttpError] out. *)
Definition disciplined {A} (m : M A) : Prop := safe orderly handled m.

(** * Properties *)

Arguments status_in : simpl never.
Arguments content_range : simpl never.
Arguments Py.str : simpl never.
Arguments Py.len : simpl never.
Arguments Py.slice_from : simpl never.
Arguments range_end : simpl never.

(** ** The built-ins: [int(str(n))] gives [n] back *)

Section Decimal_roundtrip.
Import Decimal.

Lemma uint_value_acc d : forall acc : positive,
  uint_value d (Zpos acc) = Zpos (Pos.of_uint_acc d acc).
Proof.
  induction d; intros acc; cbn [uint_value Pos.of_uint_acc];
    try reflexivity;
    match goal with
    | |- uint_value _ ?z = _ =>
        match goal with
        | |- _ = Zpos (Pos.of_uint_acc _ ?p) =>
            replace z with (Zpos p) by lia
        end
    end; apply IHd.
Qed.

Lemma uint_value_0 d : uint_value d 0 = Z.of_N (Pos.of_uint d).
Proof.
  induction d; cbn [uint_value Pos.of_uint Z.mul Z.add Z.of_N];
    try reflexivity; try exact IHd; apply uint_value_acc.
Qed.

Lemma uint_value_to_uint p : uint_value (Pos.to_uint p) 0 = Zpos p.
Proof. rewrite uint_value_0, DecimalPos.Unsigned.of_to. reflexivity. Qed.

Lemma digits_chars_of d : forall acc,
  Py.digits acc true (chars_of d) = Some (uint_value d acc).
Proof.
  unfold chars_of.
  induction d; intros acc; cbn [NilEmpty.string_of_uint list_ascii_of_string];
    try reflexivity;
    cbn [Py.digits uint_value];
    match goal with
    | |- match Py.digit_of ?c with _ => _ end = _ =>
        let v := eval vm_compute in (Py.digit_of c) in
        change (Py.digit_of c) with v
    end; cbv iota; rewrite IHd; reflexivity.
Qed.

Lemma digits_chars_of_nonnil d acc :
  d <> Nil -> Py.digits acc false (chars_of d) = Some (uint_value d acc).
Proof.
  unfold chars_of.
  destruct d; intros Hd; try congruence;
    cbn [NilEmpty.string_of_uint list_ascii_of_string Py.digits uint_value];
    match goal with
    | |- match Py.digit_of ?c with _ => _ end = _ =>
        let v := eval vm_compute in (Py.digit_of c) in
        change (Py.digit_of c) with v
    end; cbv iota; apply digits_chars_of.
Qed.

Lemma chars_of_digits d : forallb is_digit (chars_of d) = true.
Proof.
  unfold chars_of.
  induction d; cbn [NilEmpty.string_of_uint list_ascii_of_string forallb];
    try reflexivity; rewrite IHd; reflexivity.
Qed.

Lemma is_digit_not_space c : is_digit c = true -> Py.is_space c = false.
Proof.
  destruct c as [[|] [|] [|] [|] [|] [|] [|] [|]];
    vm_compute; congruence.
Qed.

Lemma is_digit_not_sign c :
  is_digit c = true -> c <> "-"%char /\ c <> "+"%char.
Proof.
  destruct c as [[|] [|] [|] [|] [|] [|] [|] [|]];
    vm_compute; intros H; split; congruence.
Qed.

Lemma lstrip_digits l : forallb is_digit l = true -> Py.lstrip l = l.
Proof.
  destruct l as [| c l]; [reflexivity |].
  cbn [forallb Py.lstrip]. intros H. apply andb_true_iff in H as [Hc _].
  rewrite (is_digit_not_space _ Hc). reflexivity.
Qed.

Lemma forallb_rev {A} (p : A -> bool) l :
  forallb p l = true -> forallb p (List.rev l) = true.
Proof.
  rewrite !forallb_forall. intros H x Hx. apply H, in_rev, Hx.
Qed.

Lemma strip_digits l : forallb is_digit l = true -> Py.strip l = l.
Proof.
  intros H. unfold Py.strip. rewrite (lstrip_digits _ H).
  rewrite (lstrip_digits _ (forallb_rev _ _ H)). apply rev_involutive.
Qed.

(** The same with a sign in front. *)
Lemma strip_signed_digits l :
  forallb is_digit l = true -> l <> [] ->
  Py.strip ("-"%char :: l) = "-"%char :: l.
Proof.
  intros H Hne. unfold Py.strip. cbn [Py.lstrip].
  change (Py.is_space "-") with false. cbv iota.
  cbn [List.rev].
  assert (Hrev : Py.lstrip (List.rev l ++ ["-"%char]) = (List.rev l ++ ["-"%char])%list).
  { destruct (List.rev l) as [| c r] eqn:E.
    - apply (f_equal (@List.rev _)) in E. rewrite rev_involutive in E.
      cbn in E. contradiction.
    - cbn [List.app Py.lstrip].
      assert (Hc : is_digit c = true).
      { pose proof (forallb_rev _ _ H) as Hr. rewrite E in Hr.
        cbn [forallb] in Hr. apply andb_true_iff in Hr as [Hc _]. exact Hc. }
      rewrite (is_digit_not_space _ Hc). reflexivity. }
  rewrite Hrev, rev_app_distr, rev_involutive. reflexivity.
Qed.

Lemma str_nonneg_chars p :
  list_ascii_of_string (Py.str (Zpos p)) = chars_of (Pos.to_uint p).
Proof.
  unfold Py.str, chars_of. cbn [Z.to_int NilZero.string_of_int].
  unfold NilZero.string_of_uint.
  pose proof (DecimalPos.Unsigned.to_uint_nonnil p) as Hn.
  destruct (Pos.to_uint p); try reflexivity. congruence.
Qed.

Lemma chars_of_nonnil d : d <> Nil -> chars_of d <> [].
Proof. destruct d; intros H; cbn; congruence. Qed.

Theorem int_str (n : Z) : Py.int (Py.str n) = Some n.
Proof.
  destruct n as [| p | p].
  - reflexivity.
  - unfold Py.int. rewrite str_nonneg_chars.
    pose proof (chars_of_digits (Pos.to_uint p)) as Hd.
    pose proof (DecimalPos.Unsigned.to_uint_nonnil p) as Hn.
    rewrite (strip_digits _ Hd).
    destruct (chars_of (Pos.to_uint p)) as [| c l] eqn:E.
    + exfalso. exact (chars_of_nonnil Hn E).
    + assert (Hc : is_digit c = true).
      { cbn [forallb] in Hd. apply andb_true_iff in Hd as [Hc _]. exact Hc. }
      destruct (is_digit_not_sign _ Hc) as [Hm Hp].
      assert (Hgoal : Py.digits 0 false (c :: l) = Some (Zpos p)).
      { rewrite <- E, (digits_chars_of_nonnil 0 Hn).
        rewrite uint_value_to_uint. reflexivity. }
      destruct c as [[|] [|] [|] [|] [|] [|] [|] [|]];
        try exact Hgoal; congruence.
  - unfold Py.int.
    assert (Hs : list_ascii_of_string (Py.str (Zneg p)) =
                 "-"%char :: chars_of (Pos.to_uint p)).
    { unfold Py.str, chars_of. cbn [Z.to_int NilZero.string_of_int].
      unfold NilZero.string_of_uint.
      pose proof (DecimalPos.Unsigned.to_uint_nonnil p) as Hn.
      destruct (Pos.to_uint p); try reflexivity. congruence. }
    pose proof (DecimalPos.Unsigned.to_uint_nonnil p) as Hn.
    rewrite Hs, (strip_signed_digits (chars_of_digits _) (chars_of_nonnil Hn)).
    rewrite (digits_chars_of_nonnil 0 Hn), uint_value_to_uint. reflexivity.
Qed.

Lemma str_nonneg_digits n :
  0 <= n -> forallb is_digit (list_ascii_of_string (Py.str n)) = true.
Proof.
  destruct n as [| p | p]; intros H.
  - reflexivity.
  - rewrite str_nonneg_chars. apply chars_of_digits.
  - lia.
Qed.

Lemma split_chars_no_sep sep l : forall cur,
  forallb (fun c => negb (Ascii.eqb c sep)) l = true ->
  Py.split_chars sep cur l = [string_of_list_ascii (List.rev cur ++ l)].
Proof.
  induction l as [| c l IH]; intros cur H.
  - cbn. rewrite app_nil_r. reflexivity.
  - cbn [forallb] in H. apply andb_true_iff in H as [Hc Hl].
    cbn [Py.split_chars]. apply negb_true_iff in Hc. rewrite Hc.
    rewrite (IH _ Hl). cbn [List.rev]. rewrite <- app_assoc. reflexivity.
Qed.

Lemma digits_no_dash l :
  forallb is_digit l = true ->
  forallb (fun c => negb (Ascii.eqb c "-")) l = true.
Proof.
  rewrite !forallb_forall. intros H c Hc.
  destruct (is_digit_not_sign _ (H c Hc)) as [Hm _].
  apply negb_true_iff, Ascii.eqb_neq, Hm.
Qed.

(** The acknowledged range [bytes=0-n] is read back as [n]. *)
Lemma range_end_ack st txt n :
  0 <= n ->
  range_end (mkReply st [("Range", "bytes=0-" ++ Py.str n)] txt) = Ok n.
Proof.
  intros Hn. unfold range_end. cbn [rheaders].
  change (hget "Range" [("Range", "bytes=0-" ++ Py.str n)])
    with (Some ("bytes=0-" ++ Py.str n)).
  unfold Py.split.
  change (list_ascii_of_string ("bytes=0-" ++ Py.str n))
    with ("b" :: "y" :: "t" :: "e" :: "s" :: "=" :: "0" :: "-"
            :: list_ascii_of_string (Py.str n))%char.
  cbn [Py.split_chars Ascii.eqb Bool.eqb].
  rewrite split_chars_no_sep
    by (apply digits_no_dash, str_nonneg_digits, Hn).
  cbn [List.rev List.app nth_error].
  rewrite string_of_list_ascii_of_string, int_str. reflexivity.
Qed.

End Decimal_roundtrip.

(** ** How the primitive steps run *)

(** Reading with the short read accepted: the next [n] bytes of the body,
    or all of it when it is shorter; never an exception. *)
Lemma read_or_partial_run n w :
  read_or_partial n w =
    (Ok (firstn (Z.to_nat n) (content w)),
     set_content (skipn (Z.to_nat n) (content w)) w).
Proof.
  unfold read_or_partial, try_except, readexactly.
  destruct (Nat.leb_spec (Z.to_nat n) (List.length (content w))) as [Hle | Hlt].
  - reflexivity.
  - cbn. rewrite firstn_all2, skipn_all2 by lia. reflexivity.
Qed.

(** The best-effort delete makes the call and succeeds, whatever the
    backend answers. *)
Lemma delete_best_effort_run env b key w :
  delete_best_effort env b key w =
    (Ok tt, set_trace (trace w ++ [EvDelete (bucket env) key])%list w).
Proof.
  unfold delete_best_effort, try_except, execute_delete, bind, emit.
  destruct (300 <=? delete_status b key); reflexivity.
Qed.

(** One [appendData] on an initiated session: the PUT is made, and the
    offset moves as the status of the answer says. *)
Lemma appendData_run f sz uri data a body k tr :
  _size f = Some sz ->
  _resumable_uri f = Some uri ->
  appendData data (Some a) (mkWorld (Some f) body k tr) =
    let tr' := (tr ++ [put_event f uri sz data])%list in
    if status a =? 308
    then match range_end a with
         | Ok n => (Ok a, mkWorld (Some (set_current_upload n f)) body k tr')
         | Raise e => (Raise e, mkWorld (Some f) body k tr')
         end
    else if status_in (status a) [200; 201]
         then (Ok a, mkWorld (Some (set_current_upload sz f)) body k tr')
         else (Ok a, mkWorld (Some f) body k tr').
Proof.
  intros Hsz Huri.
  assert (E2 : status a = 308 -> status_in (status a) [200; 201] = false)
    by (intros ->; reflexivity).
  unfold appendData, bind, self, attr, of_option, ret, emit, answer, lift,
    update, put_event.
  cbn. rewrite Hsz, Huri. cbn.
  destruct (Z.eqb_spec (status a) 308) as [E308 | E308].
  - rewrite (E2 E308). destruct (range_end a); reflexivity.
  - destruct (status_in (status a) [200; 201]); reflexivity.
Qed.

Lemma appendData_no_answer f sz uri data body k tr :
  _size f = Some sz ->
  _resumable_uri f = Some uri ->
  appendData data None (mkWorld (Some f) body k tr) =
    (Raise ClientError,
     mkWorld (Some f) body k (tr ++ [put_event f uri sz data])%list).
Proof.
  intros Hsz Huri.
  unfold appendData, bind, self, attr, of_option, ret, emit, answer, raise.
  cbn. rewrite Hsz, Huri. reflexivity.
Qed.

(** Without an answer from the backend [appendData] raises, in every
    world: a turn of a loop that has run out of answers ends the loop. *)
Lemma appendData_unanswered data w :
  exists e w', appendData data None w = (Raise e, w').
Proof.
  unfold appendData, attr, answer.
  unfold bind, self, of_option, ret, raise, emit.
  destruct (slot w) as [f |]; [| eauto].
  destruct (_size f); [| eauto].
  destruct (_resumable_uri f); eauto.
Qed.

Lemma patch_turn_unanswered env b data count w :
  exists e w', patch_turn env b data count None w = (Raise e, w').
Proof.
  unfold patch_turn. unfold bind at 1.
  destruct (self w) as [[f | e] w0]; [| eauto].
  unfold bind at 1.
  destruct (appendData_unanswered data w0) as (e & w' & ->). eauto.
Qed.

Lemma upload_turn_unanswered data count w :
  exists e w', upload_turn data count None w = (Raise e, w').
Proof.
  unfold upload_turn. unfold bind at 1.
  destruct (self w) as [[f | e] w0]; [| eauto].
  unfold bind at 1.
  destruct (appendData_unanswered data w0) as (e & w' & ->). eauto.
Qed.

Lemma finishUpload_run env b f pending body k tr :
  _upload_file_id f = Some pending ->
  finishUpload env b (mkWorld (Some f) body k tr) =
    (Ok tt,
     mkWorld (Some (set_upload_file_id None (set_uri pending f))) body k
       (tr ++ finish_events env f)%list).
Proof.
  intros Hid. unfold finishUpload, finish_events.
  unfold bind at 1. cbn [self slot].
  destruct (_uri f) as [[key |] |] eqn:Huri.
  - unfold bind at 1. rewrite delete_best_effort_run.
    unfold bind, self, attr, of_option, ret, update, emit. cbn.
    rewrite Hid. cbn. rewrite <- app_assoc. reflexivity.
  - unfold bind, self, attr, of_option, ret, update, emit. cbn.
    rewrite Hid. reflexivity.
  - unfold bind, self, attr, of_option, ret, update, emit. cbn.
    rewrite Hid. reflexivity.
Qed.

(** One turn of the loop of [tus_patch] after a Continue answer. *)
Lemma patch_turn_continue env b f sz uri data count a n body k tr :
  _size f = Some sz ->
  _resumable_uri f = Some uri ->
  status a = 308 ->
  range_end a = Ok n ->
  let rest := Py.slice_from (n - _current_upload f + 1) data in
  let tr' := (tr ++ [put_event f uri sz data])%list in
  let f' := set_current_upload n f in
  patch_turn env b data count (Some a) (mkWorld (Some f) body k tr) =
    if Py.len rest <? 262144
    then (Ok Break, mkWorld (Some f') body k tr')
    else (Ok (Again (Some (rest ++ firstn (Z.to_nat (Py.len rest)) body)%list) 0),
          mkWorld (Some f') (skipn (Z.to_nat (Py.len rest)) body) k tr').
Proof.
  intros Hsz Huri H308 Hrng rest tr' f'.
  unfold patch_turn. unfold bind at 1. cbn [self slot].
  unfold bind at 1. rewrite (@appendData_run f sz uri data a body k tr Hsz Huri).
  rewrite H308, Hrng. cbn [Z.eqb Pos.eqb].
  unfold bind at 1. cbn [self slot]. rewrite !H308.
  replace (status_in 308 [200; 201]) with false by reflexivity.
  replace (status_in 308 [400]) with false by reflexivity.
  unfold bind at 1. cbn [ret].
  cbn [_current_upload set_current_upload]. fold rest. fold tr'. fold f'.
  destruct (Z.eqb_spec (Py.len rest) 0) as [E0 | E0].
  - rewrite E0. reflexivity.
  - destruct (Py.len rest <? 262144); [reflexivity |].
    cbn [Z.eqb Pos.eqb]. unfold bind at 1. rewrite read_or_partial_run.
    reflexivity.
Qed.

(** One turn of the loop of [tus_patch] after an answer that is neither
    Complete nor Continue. *)
Lemma patch_turn_transient env b f sz uri data count a body k tr :
  _size f = Some sz ->
  _resumable_uri f = Some uri ->
  (status a =? 308) = false ->
  status_in (status a) [200; 201] = false ->
  let rest := Py.slice_from 1 data in
  let w' := mkWorld (Some f) body k (tr ++ [put_event f uri sz data])%list in
  patch_turn env b data count (Some a) (mkWorld (Some f) body k tr) =
    if Py.len rest <? 262144 then (Ok Break, w')
    else if status_in (status a) [400] then (Ok Break, w')
    else if count + 1 >? MAX_RETRIES
         then (Raise (AttributeError "MAX retries error"), w')
         else (Ok (Again (Some rest) (count + 1)), w').
Proof.
  intros Hsz Huri H308 H200 rest w'.
  unfold patch_turn. unfold bind at 1. cbn [self slot].
  unfold bind at 1. rewrite (@appendData_run f sz uri data a body k tr Hsz Huri).
  rewrite H308, H200. cbv zeta.
  unfold bind at 1. cbn [self slot].
  rewrite H200. unfold bind at 1. cbn [ret].
  replace (_current_upload f - _current_upload f + 1) with 1 by lia.
  fold rest. fold w'.
  destruct (Z.eqb_spec (Py.len rest) 0) as [E0 | E0].
  - rewrite E0. reflexivity.
  - destruct (Py.len rest <? 262144); [reflexivity |].
    destruct (status_in (status a) [400]); [reflexivity |].
    rewrite H308.
    destruct (count + 1 >? MAX_RETRIES); reflexivity.
Qed.

(** One turn of the loop of [tus_patch] after a Complete answer: the
    upload is finished, and the turn either leaves the loop or hands it
    [None], on which the loop stops. *)
Lemma patch_turn_complete env b f sz uri pending data count a body k tr :
  _size f = Some sz ->
  _resumable_uri f = Some uri ->
  _upload_file_id f = Some pending ->
  status_in (status a) [200; 201] = true ->
  let rest := Py.slice_from (sz - _current_upload f) data in
  let f' := set_upload_file_id None (set_uri pending (set_current_upload sz f)) in
  let w' := mkWorld (Some f') body k
              ((tr ++ [put_event f uri sz data]) ++ finish_events env f)%list in
  patch_turn env b data count (Some a) (mkWorld (Some f) body k tr) =
    if Py.len rest <? 262144 then (Ok Break, w')
    else if count + 1 >? MAX_RETRIES
         then (Raise (AttributeError "MAX retries error"), w')
         else (Ok (Again None (count + 1)), w').
Proof.
  intros Hsz Huri Hid H200 rest f' w'.
  assert (H308 : (status a =? 308) = false).
  { destruct (Z.eqb_spec (status a) 308) as [E | E]; [| reflexivity].
    rewrite E in H200. discriminate. }
  assert (H400 : status_in (status a) [400] = false).
  { unfold status_in in *. cbn in *.
    destruct (Z.eqb_spec (status a) 400) as [E | E]; [| reflexivity].
    rewrite E in H200. discriminate. }
  unfold patch_turn. unfold bind at 1. cbn [self slot].
  unfold bind at 1. rewrite (@appendData_run f sz uri data a body k tr Hsz Huri).
  rewrite H308, H200. cbv zeta.
  unfold bind at 1. cbn [self slot].
  rewrite H200. unfold bind at 1. unfold bind at 1.
  rewrite (@finishUpload_run env b (set_current_upload sz f) pending body k _ Hid).
  cbn [ret _current_upload set_current_upload].
  change (finish_events env (set_current_upload sz f))
    with (finish_events env f).
  fold rest. fold f'. fold w'.
  destruct (Z.eqb_spec (Py.len rest) 0) as [E0 | E0].
  - rewrite E0. reflexivity.
  - destruct (Py.len rest <? 262144); [reflexivity |].
    rewrite H400, H308.
    destruct (count + 1 >? MAX_RETRIES); reflexivity.
Qed.

(** ** The loop of [tus_patch] *)

(** With both headers well-formed, [tus_patch] stores the declared offset,
    reads the declared number of bytes (or what there is) and enters its
    loop with them. *)
Lemma tus_patch_run env req b f body k tr v1 n v2 off :
  hget "CONTENT-LENGTH" (req_headers req) = Some v1 ->
  Py.int v1 = Some n ->
  hget "UPLOAD-OFFSET" (req_headers req) = Some v2 ->
  Py.int v2 = Some off ->
  tus_patch env req b (mkWorld (Some f) body k tr) =
    (patch_loop env b (put_answers b) (Some (firstn (Z.to_nat n) body)) 0 ;;;
     patch_tail env)
      (mkWorld (Some (set_current_upload off f)) (skipn (Z.to_nat n) body) k tr).
Proof.
  intros H1 H1' H2 H2'.
  unfold tus_patch, hmem. rewrite H1, H2.
  unfold bind at 1. unfold bind at 1. cbn [of_option ret]. rewrite H1'.
  cbn [of_option ret].
  unfold bind at 1. unfold bind at 1. cbn [of_option ret].
  unfold bind at 1. rewrite H2'. cbn [of_option ret update slot set_slot].
  unfold bind at 1. rewrite read_or_partial_run.
  reflexivity.
Qed.

Lemma len_slice_from_1 {A} (l : list A) :
  1 <= Py.len l -> Py.len (Py.slice_from 1 l) = Py.len l - 1.
Proof.
  unfold Py.len, Py.slice_from. intros H. cbn [Z.ltb Z.compare].
  rewrite length_skipn. lia.
Qed.

Lemma len_pos_cons {A} (l : list A) :
  1 <= Py.len l -> exists x l', l = x :: l'.
Proof.
  destruct l as [| x l']; unfold Py.len; cbn [List.length]; intros H.
  - lia.
  - eauto.
Qed.

Lemma retried_cases a :
  retried a = true ->
  (status a =? 308) = false /\
  status_in (status a) [200; 201] = false /\
  status_in (status a) [400] = false.
Proof.
  unfold retried, status_in. cbn [existsb].
  destruct (status a =? 200), (status a =? 201), (status a =? 308),
    (status a =? 400); cbn; intros H; try discriminate; auto.
Qed.

Lemma attempts_app tr1 tr2 :
  attempts (tr1 ++ tr2) = (attempts tr1 + attempts tr2)%nat.
Proof. unfold attempts. rewrite filter_app, length_app. reflexivity. Qed.

(** With [m] retries left and only retried statuses ahead, the loop makes
    [m + 1] more attempts and raises; the file is not touched. *)
Lemma patch_loop_retries env b f sz uri body k :
  _size f = Some sz ->
  _resumable_uri f = Some uri ->
  forall (m : nat) answers data count tr,
    count = MAX_RETRIES - Z.of_nat m ->
    (m < List.length answers)%nat ->
    forallb retried (firstn (S m) answers) = true ->
    262144 + Z.of_nat m + 1 <= Py.len data ->
    exists evs,
      patch_loop env b answers (Some data) count (mkWorld (Some f) body k tr) =
        (Raise (AttributeError "MAX retries error"),
         mkWorld (Some f) body k (tr ++ evs)%list) /\
      attempts evs = S m.
Proof.
  intros Hsz Huri m.
  induction m as [| m IH]; intros answers data count tr Hc Hlen Hall Hdata.
  - destruct answers as [| a answers]; [cbn in Hlen; lia |].
    cbn [firstn forallb] in Hall. apply andb_true_iff in Hall as [Ha _].
    apply retried_cases in Ha as (H308 & H200 & H400).
    destruct (len_pos_cons data) as (x & d & ->); [lia |].
    cbn [patch_loop]. unfold bind at 1.
    rewrite (@patch_turn_transient env b f sz uri (x :: d) count a body k tr
               Hsz Huri H308 H200).
    rewrite len_slice_from_1 by lia.
    replace (Py.len (x :: d) - 1 <? 262144) with false
      by (symmetry; apply Z.ltb_ge; lia).
    rewrite H400.
    replace (count + 1 >? MAX_RETRIES) with true
      by (symmetry; unfold MAX_RETRIES in *; apply Z.gtb_lt; lia).
    eexists. split; [reflexivity | reflexivity].
  - destruct answers as [| a answers]; [cbn in Hlen; lia |].
    change (firstn (S (S m)) (a :: answers))
      with (a :: firstn (S m) answers) in Hall.
    cbn [forallb] in Hall. apply andb_true_iff in Hall as [Ha Hall].
    apply retried_cases in Ha as (H308 & H200 & H400).
    destruct (len_pos_cons data) as (x & d & ->); [lia |].
    cbn [patch_loop]. unfold bind at 1.
    rewrite (@patch_turn_transient env b f sz uri (x :: d) count a body k tr
               Hsz Huri H308 H200).
    rewrite len_slice_from_1 by lia.
    replace (Py.len (x :: d) - 1 <? 262144) with false
      by (symmetry; apply Z.ltb_ge; lia).
    rewrite H400.
    replace (count + 1 >? MAX_RETRIES) with false
      by (symmetry; unfold MAX_RETRIES in *; rewrite Z.gtb_ltb; apply Z.ltb_ge; lia).
    destruct (IH answers (Py.slice_from 1 (x :: d)) (count + 1)
                (tr ++ [put_event f uri sz (x :: d)])%list)
      as (evs & Hrun & Hatt).
    + unfold MAX_RETRIES in *. lia.
    + cbn in Hlen. lia.
    + exact Hall.
    + rewrite len_slice_from_1 by lia. lia.
    + exists (put_event f uri sz (x :: d) :: evs). split.
      * rewrite Hrun. rewrite <- app_assoc. reflexivity.
      * change (put_event f uri sz (x :: d) :: evs)
          with ([put_event f uri sz (x :: d)] ++ evs)%list.
        rewrite attempts_app, Hatt. reflexivity.
Qed.

Lemma slice_from_len {A} (l : list A) : Py.slice_from (Py.len l) l = [].
Proof.
  unfold Py.slice_from, Py.len.
  replace (Z.of_nat (List.length l) <? 0) with false
    by (symmetry; apply Z.ltb_ge; lia).
  rewrite Nat2Z.id. apply skipn_all.
Qed.

(** One turn of the loop of [upload] after an answer that is neither
    Complete nor Continue: the same buffer, one more on the counter. *)
Lemma upload_turn_transient f sz uri data count a body k tr :
  _size f = Some sz ->
  _resumable_uri f = Some uri ->
  (status a =? 308) = false ->
  status_in (status a) [200; 201] = false ->
  let w' := mkWorld (Some f) body k (tr ++ [put_event f uri sz data])%list in
  upload_turn data count (Some a) (mkWorld (Some f) body k tr) =
    if count + 1 >? MAX_RETRIES
    then (Raise (AttributeError "MAX retries error"), w')
    else (Ok (Again (Some data) (count + 1)), w').
Proof.
  intros Hsz Huri H308 H200 w'.
  unfold upload_turn. unfold bind at 1. cbn [self slot].
  unfold bind at 1.
  rewrite (@appendData_run f sz uri data a body k tr Hsz Huri).
  rewrite H308, H200. cbv zeta.
  unfold bind at 1. cbn [self slot].
  rewrite H200, H308.
  replace (_current_upload f - _current_upload f) with 0 by lia.
  change (Py.slice_from 0 data) with data.
  fold w'. destruct (count + 1 >? MAX_RETRIES); reflexivity.
Qed.

(** The loop of [upload] under the same answers: with [m] retries left it
    makes [m + 1] more attempts on the unchanged buffer and raises. *)
Lemma upload_loop_retries f sz uri body k :
  _size f = Some sz ->
  _resumable_uri f = Some uri ->
  forall (m : nat) answers data count tr,
    count = MAX_RETRIES - Z.of_nat m ->
    (m < List.length answers)%nat ->
    forallb (fun a => negb (status_in (status a) [200; 201; 308]))
      (firstn (S m) answers) = true ->
    1 <= Py.len data ->
    exists evs,
      upload_loop answers (Some data) count (mkWorld (Some f) body k tr) =
        (Raise (AttributeError "MAX retries error"),
         mkWorld (Some f) body k (tr ++ evs)%list) /\
      attempts evs = S m.
Proof.
  intros Hsz Huri m.
  assert (Hcases : forall a,
    negb (status_in (status a) [200; 201; 308]) = true ->
    (status a =? 308) = false /\ status_in (status a) [200; 201] = false).
  { intros a. unfold status_in. cbn [existsb].
    destruct (status a =? 200), (status a =? 201), (status a =? 308);
      cbn; intros H; try discriminate; auto. }
  induction m as [| m IH]; intros answers data count tr Hc Hlen Hall Hdata;
    (destruct answers as [| a answers]; [cbn in Hlen; lia |]);
    change (firstn (S ?n) (a :: answers)) with (a :: firstn n answers) in Hall;
    cbn [forallb] in Hall; apply andb_true_iff in Hall as [Ha Hall];
    apply Hcases in Ha as (H308 & H200);
    destruct (len_pos_cons data Hdata) as (x & d & ->);
    cbn [upload_loop]; unfold bind at 1;
    rewrite (@upload_turn_transient f sz uri (x :: d) count a body k tr
               Hsz Huri H308 H200).
  - replace (count + 1 >? MAX_RETRIES) with true
      by (symmetry; unfold MAX_RETRIES in *; apply Z.gtb_lt; lia).
    eexists. split; reflexivity.
  - replace (count + 1 >? MAX_RETRIES) with false
      by (symmetry; unfold MAX_RETRIES in *; rewrite Z.gtb_ltb;
          apply Z.ltb_ge; lia).
    cbv beta iota zeta.
    destruct (IH answers (x :: d) (count + 1)
                (tr ++ [put_event f uri sz (x :: d)])%list)
      as (evs & Hrun & Hatt).
    + unfold MAX_RETRIES in *. lia.
    + cbn in Hlen. lia.
    + exact Hall.
    + exact Hdata.
    + exists (put_event f uri sz (x :: d) :: evs). split.
      * eapply eq_trans; [exact Hrun |].
        rewrite <- app_assoc. reflexivity.
      * change (put_event f uri sz (x :: d) :: evs)
          with ([put_event f uri sz (x :: d)] ++ evs)%list.
        rewrite attempts_app, Hatt. reflexivity.
Qed.

(** A turn of the loop on a non-empty buffer, with an answer ahead. *)
Lemma patch_loop_cons env b a answers data count w :
  1 <= Py.len data ->
  patch_loop env b (a :: answers) (Some data) count w =
    (fl <- patch_turn env b data count (Some a) ;;
     match fl with
     | Break => ret tt
     | Again data' count' => patch_loop env b answers data' count'
     end) w.
Proof.
  intros H. destruct data as [| x d]; [unfold Py.len in H; cbn in H; lia |].
  reflexivity.
Qed.

(** On Continue the offset becomes the number read from the [Range]
    header, whatever it is. *)
Lemma appendData_continue f sz uri data a n body k tr :
  _size f = Some sz ->
  _resumable_uri f = Some uri ->
  status a = 308 ->
  range_end a = Ok n ->
  appendData data (Some a) (mkWorld (Some f) body k tr) =
    (Ok a, mkWorld (Some (set_current_upload n f)) body k
             (tr ++ [put_event f uri sz data])%list).
Proof.
  intros Hsz Huri H308 Hrng.
  rewrite (@appendData_run f sz uri data a body k tr Hsz Huri).
  rewrite H308, Hrng. reflexivity.
Qed.

(** ** What every step of a method keeps *)

Section Safe.

Variable R : World -> World -> Prop.
Variable E : exn -> Prop.
Hypothesis R_refl : forall w, R w w.
Hypothesis R_trans : forall w1 w2 w3, R w1 w2 -> R w2 w3 -> R w1 w3.

Lemma safe_ret {A} (a : A) : safe R E (ret a).
Proof.
  intros w r w' H. apply pair_equal_spec in H as [<- <-].
  split; [apply R_refl | intros e He; discriminate].
Qed.

Lemma safe_raise {A} (e : exn) : E e -> safe R E (@raise A e).
Proof.
  intros He w r w' H. apply pair_equal_spec in H as [<- <-].
  split; [apply R_refl | intros e' [= <-]; exact He].
Qed.

Lemma safe_bind {A B} (m : M A) (k : A -> M B) :
  safe R E m -> (forall a, safe R E (k a)) -> safe R E (bind m k).
Proof.
  intros Hm Hk w r w' H. unfold bind in H.
  destruct (m w) as [[a | e] w1] eqn:Hmw.
  - destruct (Hm _ _ _ Hmw) as [HR _].
    destruct (Hk a _ _ _ H) as [HR' HE'].
    split; [eapply R_trans; eassumption | exact HE'].
  - apply pair_equal_spec in H as [<- <-].
    destruct (Hm _ _ _ Hmw) as [HR HE]. split; [exact HR |].
    intros e' [= <-]. apply HE. reflexivity.
Qed.

Lemma safe_of_option {A} (e : exn) (o : option A) :
  E e -> safe R E (of_option e o).
Proof.
  intros He. destruct o; [apply safe_ret | apply safe_raise, He].
Qed.

Lemma safe_lift {A} (r : result A) :
  (forall e, r = Raise e -> E e) -> safe R E (lift r).
Proof.
  intros He w r' w' H. apply pair_equal_spec in H as [<- <-].
  split; [apply R_refl | exact He].
Qed.

Lemma safe_self : E (AttributeError "NoneType") -> safe R E self.
Proof.
  intros He w r w' H. unfold self in H.
  destruct (slot w); apply pair_equal_spec in H as [<- <-];
    (split; [apply R_refl |]); intros e [= <-]. exact He.
Qed.

End Safe.

Lemma no_new_post_refl w : no_new_post w w.
Proof. exists []. split; [symmetry; apply app_nil_r | reflexivity]. Qed.

Lemma no_new_post_trans w1 w2 w3 :
  no_new_post w1 w2 -> no_new_post w2 w3 -> no_new_post w1 w3.
Proof.
  intros (e1 & H1 & F1) (e2 & H2 & F2). exists (e1 ++ e2)%list. split.
  - rewrite H2, H1, app_assoc. reflexivity.
  - rewrite forallb_app, F1, F2. reflexivity.
Qed.

Lemma quiet_ret {A} (a : A) : quiet (ret a).
Proof. apply safe_ret, no_new_post_refl. Qed.

Lemma quiet_raise {A} e : handled e -> quiet (@raise A e).
Proof. apply safe_raise, no_new_post_refl. Qed.

Lemma quiet_bind {A B} (m : M A) (k : A -> M B) :
  quiet m -> (forall a, quiet (k a)) -> quiet (bind m k).
Proof. apply safe_bind, no_new_post_trans. Qed.

Lemma quiet_of_option {A} e (o : option A) : handled e -> quiet (of_option e o).
Proof. apply safe_of_option, no_new_post_refl. Qed.

Lemma quiet_self : quiet self.
Proof. apply safe_self; [apply no_new_post_refl | exact I]. Qed.

Lemma quiet_update g : quiet (update g).
Proof.
  intros w r w' H. unfold update in H.
  destruct (slot w); apply pair_equal_spec in H as [<- <-];
    (split; [exists []; split; [symmetry; apply app_nil_r | reflexivity] |]);
    intros e [= <-]. exact I.
Qed.

Lemma quiet_emit e : is_post e = false -> quiet (emit e).
Proof.
  intros He w r w' H. unfold emit in H. apply pair_equal_spec in H as [<- <-].
  split.
  - exists [e]. split; [reflexivity |]. cbn. rewrite He. reflexivity.
  - intros e' [=].
Qed.

Lemma quiet_read_or_partial n : quiet (read_or_partial n).
Proof.
  intros w r w' H. rewrite read_or_partial_run in H.
  apply pair_equal_spec in H as [<- <-]. split.
  - exists []. split; [symmetry; apply app_nil_r | reflexivity].
  - intros e [=].
Qed.

Lemma quiet_delete_best_effort env b key : quiet (delete_best_effort env b key).
Proof.
  intros w r w' H. rewrite delete_best_effort_run in H.
  apply pair_equal_spec in H as [<- <-]. split.
  - eexists. split; [reflexivity | reflexivity].
  - intros e [=].
Qed.

Lemma quiet_range_end call : quiet (lift (range_end call)).
Proof.
  apply safe_lift; [apply no_new_post_refl |].
  unfold range_end. intros e.
  destruct (hget "Range" (rheaders call)); [| intros [= <-]; exact I].
  destruct (nth_error (Py.split "-" s) 1); [| intros [= <-]; exact I].
  destruct (Py.int s0); [discriminate | intros [= <-]; exact I].
Qed.

Ltac quiet_step :=
  first
    [ apply quiet_bind; [| intros ? ]
    | apply quiet_ret
    | apply quiet_self
    | apply quiet_update
    | apply quiet_read_or_partial
    | apply quiet_delete_best_effort
    | apply quiet_range_end
    | apply quiet_emit; reflexivity
    | apply quiet_of_option; exact I
    | apply quiet_raise; exact I ].

Ltac quiet_auto :=
  repeat match goal with
         | |- quiet (if ?c then _ else _) => destruct c
         | |- quiet (match ?x with _ => _ end) => destruct x
         | _ => quiet_step
         end.

Lemma quiet_appendData data a : quiet (appendData data a).
Proof. unfold appendData, attr, answer. quiet_auto. Qed.

Lemma quiet_finishUpload env b : quiet (finishUpload env b).
Proof. unfold finishUpload, attr. quiet_auto. Qed.

Lemma quiet_patch_turn env b data count a : quiet (patch_turn env b data count a).
Proof.
  unfold patch_turn, iadd.
  apply quiet_bind; [apply quiet_self | intros f].
  apply quiet_bind; [apply quiet_appendData | intros resp].
  apply quiet_bind; [apply quiet_self | intros f'].
  apply quiet_bind.
  - destruct (status_in (status resp) [200; 201]); [| apply quiet_ret].
    apply quiet_bind; [apply quiet_finishUpload | intros; apply quiet_ret].
  - intros data'. quiet_auto.
Qed.

Lemma quiet_patch_loop env b answers :
  forall data count, quiet (patch_loop env b answers data count).
Proof.
  induction answers as [| a answers IH]; intros data count;
    destruct data as [[| x d] |]; cbn [patch_loop]; try apply quiet_ret.
  - apply quiet_bind; [apply quiet_patch_turn | intros; apply quiet_ret].
  - apply quiet_bind; [apply quiet_patch_turn |].
    intros [| data' count']; [apply quiet_ret | apply IH].
Qed.

Lemma quiet_tus_patch env req b : quiet (tus_patch env req b).
Proof.
  unfold tus_patch, attr.
  apply quiet_bind.
  { quiet_auto. }
  intros to_upload. apply quiet_bind.
  { quiet_auto. }
  intros _. apply quiet_bind; [apply quiet_read_or_partial |].
  intros data. apply quiet_bind; [apply quiet_patch_loop |].
  intros _. quiet_auto.
Qed.

(** ** A whole upload *)

(** Create with a total length of 10, then a Patch of the 10 bytes at
    offset 0 that the backend completes: the object is finalized and Head
    reports the accepted offset 10. *)
Lemma create_patch_head_10 :
  let run := create_patch_head 10 (mkWorld None [] 0%nat []) in
  option_map (fun resp => hget "Upload-Offset" (resp_headers resp))
    (match fst run with Ok resp => Some resp | Raise _ => None end) =
    Some (Some "10") /\
  option_map _uri (slot (snd run)) = Some (Some (Some "site/uuid1")) /\
  option_map _upload_file_id (slot (snd run)) = Some (Some None) /\
  attempts (trace (snd run)) = 1%nat.
Proof. cbv zeta. repeat split; vm_compute; reflexivity. Qed.

(** ** C1: the offset stored on Continue *)

(** C1, on the code.  A chunk of [len] bytes is sent from offset 0 as the
    range [0 .. len - 1], and the backend answers Continue with that same
    range: it has stored all [len] bytes.  [appendData] stores the last
    byte index [len - 1] as the accepted offset, one less than the number
    of bytes accepted, and the Patch that drove the append tells the
    client to resume at [len - 1]. *)
Theorem continue_offset_one_short env req b f sz uri date body k tr v1 v2 :
  hget "CONTENT-LENGTH" (req_headers req) = Some v1 ->
  Py.int v1 = Some (Py.len body) ->
  hget "UPLOAD-OFFSET" (req_headers req) = Some v2 ->
  Py.int v2 = Some 0 ->
  _size f = Some sz ->
  _resumable_uri f = Some uri ->
  _resumable_uri_date f = Some date ->
  1 <= Py.len body ->
  put_answers b = [continue_ack (Py.len body - 1)] ->
  let sent :=
    EvPut uri
      [("Content-Length", Py.str (Py.len body));
       ("Content-Type", contentType f);
       ("Content-Range", content_range 0 (0 + Py.len body - 1) sz)]
      body in
  let f' := set_current_upload (Py.len body - 1) f in
  appendData body (Some (continue_ack (Py.len body - 1)))
    (mkWorld (Some (set_current_upload 0 f)) [] k tr) =
    (Ok (continue_ack (Py.len body - 1)),
     mkWorld (Some f') [] k (tr ++ [sent])%list) /\
  _current_upload f' = Py.len body - 1 /\
  exists resp,
    tus_patch env req b (mkWorld (Some f) body k tr) =
      (Ok resp, mkWorld (Some f') [] k (tr ++ [sent])%list) /\
    hget "Upload-Offset" (resp_headers resp) = Some (Py.str (Py.len body - 1)).
Proof.
  intros H1 H1' H2 H2' Hsz Huri Hdate Hlen Hans sent f'.
  assert (Hrng : range_end (continue_ack (Py.len body - 1)) =
                 Ok (Py.len body - 1))
    by (apply range_end_ack; lia).
  assert (Hone :
    appendData body (Some (continue_ack (Py.len body - 1)))
      (mkWorld (Some (set_current_upload 0 f)) [] k tr) =
      (Ok (continue_ack (Py.len body - 1)),
       mkWorld (Some f') [] k (tr ++ [sent])%list)).
  { rewrite (@appendData_continue (set_current_upload 0 f) sz uri body
               (continue_ack (Py.len body - 1)) (Py.len body - 1) [] k tr
               Hsz Huri eq_refl Hrng).
    reflexivity. }
  split; [exact Hone |]. split; [reflexivity |].
  rewrite (@tus_patch_run env req b f body k tr v1 _ v2 0 H1 H1' H2 H2').
  assert (Hnat : Z.to_nat (Py.len body) = List.length body)
    by (unfold Py.len; apply Nat2Z.id).
  rewrite Hans, Hnat, firstn_all, skipn_all.
  unfold bind at 1. rewrite patch_loop_cons by exact Hlen.
  unfold bind at 1.
  rewrite (@patch_turn_continue env b (set_current_upload 0 f) sz uri body 0
             (continue_ack (Py.len body - 1)) (Py.len body - 1) [] k tr
             Hsz Huri eq_refl Hrng).
  cbn [_current_upload set_current_upload].
  replace (Py.len body - 1 - 0 + 1) with (Py.len body) by lia.
  rewrite slice_from_len. change (Py.len (@nil byte) <? 262144) with true.
  cbv iota.
  unfold patch_tail, bind, self, attr, of_option, ret.
  cbn [slot set_current_upload _resumable_uri_date]. rewrite Hdate.
  eexists. split; [reflexivity |]. reflexivity.
Qed.

Lemma continue_offset_one_short_witness :
  let body := zeros 524288 in
  let f' := set_current_upload 524287 (demo_file 1000000 0) in
  let sent :=
    EvPut "http://backend/session"
      [("Content-Length", Py.str (Py.len body));
       ("Content-Type", "application/octet-stream");
       ("Content-Range", content_range 0 (0 + Py.len body - 1) 1000000)]
      body in
  appendData body (Some (continue_ack (Py.len body - 1)))
    (mkWorld (Some (set_current_upload 0 (demo_file 1000000 0))) [] 0%nat []) =
    (Ok (continue_ack (Py.len body - 1)),
     mkWorld (Some (set_current_upload (Py.len body - 1) (demo_file 1000000 0)))
       [] 0%nat ([] ++ [sent])%list) /\
  _current_upload (set_current_upload (Py.len body - 1) (demo_file 1000000 0))
    = Py.len body - 1 /\
  exists resp,
    tus_patch demo_env (patch_request 524288 0)
      (answering [continue_ack (Py.len body - 1)])
      (mkWorld (Some (demo_file 1000000 0)) body 0%nat []) =
      (Ok resp,
       mkWorld (Some (set_current_upload (Py.len body - 1) (demo_file 1000000 0)))
         [] 0%nat ([] ++ [sent])%list) /\
    hget "Upload-Offset" (resp_headers resp) = Some (Py.str (Py.len body - 1)).
Proof.
  cbv zeta.
  apply (@continue_offset_one_short demo_env (patch_request 524288 0)
           (answering [continue_ack (Py.len (zeros 524288) - 1)])
           (demo_file 1000000 0) 1000000 "http://backend/session" 0
           (zeros 524288) 0%nat [] "524288" "0").
  - reflexivity.
  - vm_compute. reflexivity.
  - reflexivity.
  - reflexivity.
  - reflexivity.
  - reflexivity.
  - reflexivity.
  - vm_compute. discriminate.
  - reflexivity.
Defined.

(** ** C2: the bound on retries *)

(** C2, as the code has it.  When the backend answers the first six
    appends of a Patch with a status that is none of 200, 201, 308 and 400,
    and the chunk read from the client has at least 262150 bytes (so that
    262144 stay buffered after every attempt), [tus_patch] raises the
    max-retries error after exactly six [appendData] attempts, the sixth
    being the one that takes the counter over [MAX_RETRIES = 5]; the file
    keeps the offset the client declared, no attempt moves it. *)
Theorem tus_patch_max_retries env req b f sz uri body k tr v1 n v2 off :
  hget "CONTENT-LENGTH" (req_headers req) = Some v1 ->
  Py.int v1 = Some n ->
  hget "UPLOAD-OFFSET" (req_headers req) = Some v2 ->
  Py.int v2 = Some off ->
  _size f = Some sz ->
  _resumable_uri f = Some uri ->
  262150 <= Py.len (firstn (Z.to_nat n) body) ->
  (6 <= List.length (put_answers b))%nat ->
  forallb retried (firstn 6 (put_answers b)) = true ->
  exists w',
    tus_patch env req b (mkWorld (Some f) body k tr) =
      (Raise (AttributeError "MAX retries error"), w') /\
    attempts (trace w') = (attempts tr + 6)%nat /\
    slot w' = Some (set_current_upload off f).
Proof.
  intros H1 H1' H2 H2' Hsz Huri Hdata Hlen Hall.
  rewrite (@tus_patch_run env req b f body k tr v1 n v2 off H1 H1' H2 H2').
  destruct (@patch_loop_retries env b (set_current_upload off f) sz uri
              (skipn (Z.to_nat n) body) k Hsz Huri 5%nat (put_answers b)
              (firstn (Z.to_nat n) body) 0 tr)
    as (evs & Hrun & Hatt); try (reflexivity || assumption || lia).
  eexists. split.
  - unfold bind at 1. rewrite Hrun. reflexivity.
  - cbn [trace slot]. rewrite attempts_app, Hatt. split; reflexivity.
Qed.

Lemma tus_patch_max_retries_witness :
  exists w',
    tus_patch demo_env (patch_request 262150 0)
      (answering (repeat unavailable 6))
      (demo_world (demo_file 262150 0) (zeros 262150)) =
      (Raise (AttributeError "MAX retries error"), w') /\
    attempts (trace w') = (attempts [] + 6)%nat /\
    slot w' = Some (set_current_upload 0 (demo_file 262150 0)).
Proof.
  apply (@tus_patch_max_retries demo_env (patch_request 262150 0)
           (answering (repeat unavailable 6)) (demo_file 262150 0)
           262150 "http://backend/session" (zeros 262150) 0%nat []
           "262150" 262150 "0" 0);
    reflexivity.
Defined.

(** C2, as stated, fails on the code: with every answer a 503, a Patch of
    ten bytes makes a single attempt and answers normally, and a Patch of
    262150 bytes raises after six attempts, not five. *)
Lemma tus_patch_five_attempts_counterexample :
  let small :=
    tus_patch demo_env (patch_request 10 0)
      (answering (repeat unavailable 10))
      (demo_world (demo_file 10 0) (zeros 10)) in
  let large :=
    tus_patch demo_env (patch_request 262150 0)
      (answering (repeat unavailable 10))
      (demo_world (demo_file 262150 0) (zeros 262150)) in
  (exists resp, fst small = Ok resp) /\
  attempts (trace (snd small)) = 1%nat /\
  fst large = Raise (AttributeError "MAX retries error") /\
  attempts (trace (snd large)) = 6%nat.
Proof.
  cbv zeta. split; [| split; [| split]].
  - eexists. vm_compute. reflexivity.
  - vm_compute. reflexivity.
  - vm_compute. reflexivity.
  - vm_compute. reflexivity.
Qed.

(** ** C3: how the accepted offset moves *)

Lemma session_finished sz pending f :
  session sz f -> session sz (set_upload_file_id None (set_uri pending f)).
Proof.
  intros (Hsz & Huri & _). split; [exact Hsz |]. split; [exact Huri |].
  exists None. reflexivity.
Qed.

Lemma patch_turn_no_answer env b f sz uri data count body k tr :
  _size f = Some sz ->
  _resumable_uri f = Some uri ->
  patch_turn env b data count None (mkWorld (Some f) body k tr) =
    (Raise ClientError,
     mkWorld (Some f) body k (tr ++ [put_event f uri sz data])%list).
Proof.
  intros Hsz Huri. unfold patch_turn. unfold bind at 1. cbn [self slot].
  unfold bind at 1.
  rewrite (@appendData_no_answer f sz uri data body k tr Hsz Huri).
  reflexivity.
Qed.

Lemma appendData_advanced sz f data a body k tr r w' :
  session sz f ->
  _current_upload f <= sz ->
  ack_ok sz (_current_upload f) a = true ->
  appendData data (Some a) (mkWorld (Some f) body k tr) = (r, w') ->
  advanced sz (_current_upload f) w'.
Proof.
  intros Hs Hcur Hack Hrun.
  pose proof Hs as (Hsz & (uri & Huri) & _).
  rewrite (@appendData_run f sz uri data a body k tr Hsz Huri) in Hrun.
  cbv zeta in Hrun. unfold ack_ok in Hack.
  destruct (status a =? 308).
  - destruct (range_end a) as [n | e]; [| discriminate].
    apply andb_true_iff in Hack as [H1 H2].
    apply Z.leb_le in H1, H2.
    injection Hrun as _ <-. exists (set_current_upload n f).
    split; [reflexivity |]. split; [exact Hs |]. cbn. lia.
  - destruct (status_in (status a) [200; 201]); injection Hrun as _ <-.
    + exists (set_current_upload sz f).
      split; [reflexivity |]. split; [exact Hs |]. cbn. lia.
    + exists f. split; [reflexivity |]. split; [exact Hs |]. lia.
Qed.

Lemma advanced_le sz lo lo' w : lo' <= lo -> advanced sz lo w -> advanced sz lo' w.
Proof.
  intros Hle (f & Hf & Hs & Hcur). exists f. split; [exact Hf |].
  split; [exact Hs | lia].
Qed.

(** The loop of [tus_patch] never takes the offset back, nor beyond the
    declared size, when the backend's acknowledgements do not. *)
Lemma patch_loop_advanced env b sz k :
  forall answers data count f body tr r w',
    session sz f ->
    _current_upload f <= sz ->
    acks_ok sz (_current_upload f) answers = true ->
    patch_loop env b answers data count (mkWorld (Some f) body k tr) = (r, w') ->
    advanced sz (_current_upload f) w'.
Proof.
  induction answers as [| a answers IH];
    intros data count f body tr r w' Hs Hcur Hacks Hrun;
    pose proof Hs as (Hsz & (uri & Huri) & (pending & Hid)).
  - destruct data as [[| x d] |]; cbn [patch_loop] in Hrun;
      try (injection Hrun as _ <-; exists f; repeat split; try exact Hs;
           try apply Hs; lia).
    unfold bind in Hrun.
    rewrite (@patch_turn_no_answer env b f sz uri (x :: d) count body k tr
               Hsz Huri) in Hrun.
    injection Hrun as _ <-. exists f. repeat split; try apply Hs; lia.
  - destruct data as [[| x d] |]; cbn [patch_loop] in Hrun;
      try (injection Hrun as _ <-; exists f; repeat split; try exact Hs;
           try apply Hs; lia).
    cbn [acks_ok] in Hacks. apply andb_true_iff in Hacks as [Hack Hacks].
    unfold offset_after in Hacks. unfold ack_ok in Hack.
    unfold bind in Hrun.
    destruct (Z.eqb_spec (status a) 308) as [E308 | E308].
    + destruct (range_end a) as [n | e] eqn:Hrng; [| discriminate].
      apply andb_true_iff in Hack as [H1 H2]. apply Z.leb_le in H1, H2.
      rewrite (@patch_turn_continue env b f sz uri (x :: d) count a n body k tr
                 Hsz Huri E308 Hrng) in Hrun.
      cbv zeta in Hrun.
      destruct (Py.len (Py.slice_from (n - _current_upload f + 1) (x :: d))
                <? 262144).
      * injection Hrun as _ <-. exists (set_current_upload n f).
        split; [reflexivity |]. split; [exact Hs |]. cbn. lia.
      * apply IH in Hrun; try (exact Hs || reflexivity || (cbn; lia)).
        -- apply (advanced_le (lo := n)); [lia | exact Hrun].
        -- exact Hacks.
    + assert (H308 : (status a =? 308) = false) by (apply Z.eqb_neq, E308).
      cbv iota in Hacks.
      destruct (status_in (status a) [200; 201]) eqn:H200.
      * rewrite (@patch_turn_complete env b f sz uri pending (x :: d) count a
                   body k tr Hsz Huri Hid H200) in Hrun.
        cbv zeta in Hrun.
        assert (Hfin : advanced sz (_current_upload f)
                  (mkWorld
                     (Some (set_upload_file_id None
                              (set_uri pending (set_current_upload sz f))))
                     body k
                     ((tr ++ [put_event f uri sz (x :: d)]) ++
                      finish_events env f)%list)).
        { eexists. split; [reflexivity |]. split.
          - apply session_finished. exact Hs.
          - cbn. lia. }
        destruct (Py.len (Py.slice_from (sz - _current_upload f) (x :: d))
                  <? 262144).
        -- injection Hrun as _ <-. exact Hfin.
        -- destruct (count + 1 >? MAX_RETRIES).
           ++ injection Hrun as _ <-. exact Hfin.
           ++ destruct answers; cbn [patch_loop ret] in Hrun;
                injection Hrun as _ <-; exact Hfin.
      * rewrite (@patch_turn_transient env b f sz uri (x :: d) count a body k tr
                   Hsz Huri H308 H200) in Hrun.
        cbv zeta in Hrun.
        assert (Hsame : advanced sz (_current_upload f)
                  (mkWorld (Some f) body k
                     (tr ++ [put_event f uri sz (x :: d)])%list)).
        { exists f. split; [reflexivity |]. split; [exact Hs | lia]. }
        destruct (Py.len (Py.slice_from 1 (x :: d)) <? 262144).
        -- injection Hrun as _ <-. exact Hsame.
        -- destruct (status_in (status a) [400]).
           ++ injection Hrun as _ <-. exact Hsame.
           ++ destruct (count + 1 >? MAX_RETRIES).
              ** injection Hrun as _ <-. exact Hsame.
              ** apply IH in Hrun; try (exact Hs || reflexivity || lia).
                 --- exact Hrun.
                 --- exact Hacks.
Qed.

Ltac pair_inv H :=
  apply pair_equal_spec in H; destruct H as [_ <-].

Lemma tus_head_world env w r w' : tus_head env w = (r, w') -> w' = w.
Proof.
  unfold tus_head. destruct (slot w) as [f |]; [| intros [= _ <-]; reflexivity].
  destruct (truthy_int (size f)); [| intros [= _ <-]; reflexivity].
  destruct (_size f); intros [= _ <-]; reflexivity.
Qed.

Lemma patch_tail_world env w r w' : patch_tail env w = (r, w') -> w' = w.
Proof.
  unfold patch_tail, bind, self, attr, of_option, ret, raise.
  destruct (slot w) as [f |]; [| intros [= _ <-]; reflexivity].
  destruct (_resumable_uri_date f); intros [= _ <-]; reflexivity.
Qed.

Lemma tus_patch_advanced env sz req b f body k tr r w' off :
  session sz f ->
  declared_offset req = Some off ->
  _current_upload f <= off <= sz ->
  acks_ok sz off (put_answers b) = true ->
  tus_patch env req b (mkWorld (Some f) body k tr) = (r, w') ->
  advanced sz (_current_upload f) w'.
Proof.
  intros Hs Hoff Hle Hacks Hrun.
  assert (Hsame : advanced sz (_current_upload f) (mkWorld (Some f) body k tr)).
  { exists f. split; [reflexivity |]. split; [exact Hs | lia]. }
  unfold declared_offset in Hoff.
  destruct (hget "UPLOAD-OFFSET" (req_headers req)) as [v2 |] eqn:H2;
    [| discriminate].
  destruct (hget "CONTENT-LENGTH" (req_headers req)) as [v1 |] eqn:H1.
  - destruct (Py.int v1) as [n |] eqn:H1'.
    + rewrite (@tus_patch_run env req b f body k tr v1 n v2 off H1 H1' H2 Hoff)
        in Hrun.
      unfold bind in Hrun.
      destruct (patch_loop env b (put_answers b)
                  (Some (firstn (Z.to_nat n) body)) 0
                  (mkWorld (Some (set_current_upload off f))
                     (skipn (Z.to_nat n) body) k tr)) as [r1 w1] eqn:Hloop.
      apply patch_loop_advanced with (sz := sz) in Hloop;
        try (exact Hs || exact Hacks || (cbn; lia)).
      cbn [_current_upload set_current_upload] in Hloop.
      apply (advanced_le (lo := off)); [lia |].
      destruct r1 as [[] | e].
      * destruct (patch_tail env w1) as [r2 w2] eqn:Htail.
        apply patch_tail_world in Htail. subst w2.
        pair_inv Hrun. exact Hloop.
      * pair_inv Hrun. exact Hloop.
    + unfold tus_patch, hmem, bind in Hrun. rewrite H1 in Hrun.
      cbn [of_option ret] in Hrun. rewrite H1' in Hrun.
      cbn [of_option raise] in Hrun. pair_inv Hrun. exact Hsame.
  - unfold tus_patch, hmem, bind in Hrun. rewrite H1 in Hrun.
    cbn [raise] in Hrun. pair_inv Hrun. exact Hsame.
Qed.

Lemma run_op_advanced env sz o f body k tr r w' :
  session sz f ->
  _current_upload f <= sz ->
  op_ok sz (_current_upload f) o = true ->
  run_op env o (mkWorld (Some f) body k tr) = (r, w') ->
  advanced sz (_current_upload f) w'.
Proof.
  intros Hs Hcur Hok Hrun.
  destruct o as [data a | | req body' b]; cbn [run_op op_ok] in *.
  - unfold bind in Hrun.
    destruct (appendData data (Some a) (mkWorld (Some f) body k tr))
      as [r1 w1] eqn:Happ.
    apply appendData_advanced with (sz := sz) in Happ; try assumption.
    destruct r1; cbv [ret] in Hrun; pair_inv Hrun; exact Happ.
  - unfold bind in Hrun.
    destruct (tus_head env (mkWorld (Some f) body k tr)) as [r1 w1] eqn:Hhead.
    apply tus_head_world in Hhead. subst w1.
    destruct r1; cbv [ret] in Hrun; pair_inv Hrun;
      (exists f; split; [reflexivity |]; split; [exact Hs | lia]).
  - destruct (declared_offset req) as [off |] eqn:Hoff; [| discriminate].
    apply andb_true_iff in Hok as [Hok Hacks].
    apply andb_true_iff in Hok as [H1 H2]. apply Z.leb_le in H1, H2.
    unfold bind at 1 in Hrun. unfold set_content in Hrun.
    cbn [slot uuid_count trace] in Hrun.
    unfold bind in Hrun.
    destruct (tus_patch env req b (mkWorld (Some f) body' k tr))
      as [r1 w1] eqn:Hpatch.
    apply tus_patch_advanced with (sz := sz) (off := off) in Hpatch;
      try assumption; try lia.
    destruct r1; cbv [ret] in Hrun; pair_inv Hrun; exact Hpatch.
Qed.

(** C3, as the code has it.  On an opened session of declared size [sz],
    along any sequence of successful appends, Heads and Patches in which
    every offset a Patch declares and every offset a Continue answer
    acknowledges is at least the offset accepted so far and at most [sz]
    (the code checks neither), the accepted offset never decreases and
    never exceeds [sz], and the declared size stays what it was. *)
Theorem offset_monotone_within_size env sz ops w w' f :
  slot w = Some f ->
  session sz f ->
  _current_upload f <= sz ->
  run env sz w ops w' ->
  exists f',
    slot w' = Some f' /\ _size f' = Some sz /\
    _current_upload f <= _current_upload f' <= sz.
Proof.
  intros Hf Hs Hcur Hrun. revert f Hf Hs Hcur.
  induction Hrun as [w | w f0 o w1 ops w2 Hf0 Hok Hop Hrun IH];
    intros f Hf Hs Hcur.
  - exists f. split; [exact Hf |]. split; [apply Hs | lia].
  - rewrite Hf in Hf0. injection Hf0 as <-.
    destruct w as [sl body k tr]. cbn [slot] in Hf. subst sl.
    apply run_op_advanced with (sz := sz) in Hop; try assumption.
    destruct Hop as (f1 & Hf1 & Hs1 & Hcur1).
    destruct (IH f1 Hf1 Hs1) as (f' & Hf' & Hsz' & Hcur'); [lia |].
    exists f'. split; [exact Hf' |]. split; [exact Hsz' | lia].
Qed.

Lemma offset_monotone_within_size_witness :
  let w := demo_world (demo_file 10 0) [] in
  let w1 :=
    snd (run_op demo_env
           (OpPatch (patch_request 10 0) (zeros 10) (answering [complete])) w) in
  let w2 := snd (run_op demo_env OpHead w1) in
  exists f',
    slot w2 = Some f' /\ _size f' = Some 10 /\
    _current_upload (demo_file 10 0) <= _current_upload f' <= 10.
Proof.
  cbv zeta.
  apply (@offset_monotone_within_size demo_env 10
           [OpPatch (patch_request 10 0) (zeros 10) (answering [complete]);
            OpHead]
           (demo_world (demo_file 10 0) []) _ (demo_file 10 0)).
  - reflexivity.
  - split; [reflexivity |]. split; eexists; reflexivity.
  - vm_compute. discriminate.
  - eapply run_cons.
    + reflexivity.
    + vm_compute. reflexivity.
    + vm_compute. reflexivity.
    + eapply run_cons.
      * reflexivity.
      * reflexivity.
      * vm_compute. reflexivity.
      * vm_compute. apply run_nil.
Defined.

(** C3, as stated, fails on the code: on a session of declared size 10
    that stands at offset 5, a Patch that declares offset 3 succeeds and
    takes the offset back to 3, a Patch that declares offset 99 succeeds
    and takes it beyond the size, and an append answered Continue with
    [bytes=0-20] leaves it at 20. *)
Lemma offset_monotone_counterexample :
  let w := demo_world (demo_file 10 5) [] in
  let back := tus_patch demo_env (patch_request 0 3) (answering []) w in
  let beyond := tus_patch demo_env (patch_request 0 99) (answering []) w in
  let acked := appendData (zeros 5) (Some (continue_ack 20)) w in
  succeeded (fst back) = true /\ offset_of (snd back) = Some 3 /\
  succeeded (fst beyond) = true /\ offset_of (snd beyond) = Some 99 /\
  succeeded (fst acked) = true /\ offset_of (snd acked) = Some 20.
Proof. cbv zeta. repeat split; vm_compute; reflexivity. Qed.

(** ** C4: the buffered chunk after a Continue *)

(** [data[k:]] for an index within the sequence: the first [k] elements
    go, the others stay. *)
Lemma slice_from_prefix {A} (k : Z) (l : list A) :
  0 <= k ->
  l = (firstn (Z.to_nat k) l ++ Py.slice_from k l)%list /\
  (k <= Py.len l -> Py.len (Py.slice_from k l) = Py.len l - k).
Proof.
  intros Hk. unfold Py.slice_from.
  destruct (Z.ltb_spec k 0) as [Hneg | _]; [lia |]. split.
  - symmetry. apply firstn_skipn.
  - intros Hle. unfold Py.len in *. rewrite length_skipn. lia.
Qed.

(** C4, as the code has it.  After a Continue answer that acknowledges
    the byte index [n], the loop of [tus_patch] discards the consumed
    prefix of the buffered chunk: [consumed = n - offset + 1] bytes, those
    from the offset the chunk was sent from up to the acknowledged byte,
    and keeps [rest = data[consumed:]].  When [rest] has fewer than 262144
    bytes (none included) the loop ends there: the remainder is not sent
    and nothing is read from the client.  Otherwise the loop reads up to
    [len rest] further bytes from the client, appends them to [rest], and
    goes on with that buffer and a retry counter of 0. *)
Theorem patch_loop_after_continue
    env b f sz uri data count a n answers body k tr :
  _size f = Some sz ->
  _resumable_uri f = Some uri ->
  1 <= Py.len data ->
  status a = 308 ->
  range_end a = Ok n ->
  let consumed := n - _current_upload f + 1 in
  let rest := Py.slice_from consumed data in
  let w1 := mkWorld (Some (set_current_upload n f)) body k
              (tr ++ [put_event f uri sz data])%list in
  let more := firstn (Z.to_nat (Py.len rest)) body in
  (0 <= consumed ->
   data = (firstn (Z.to_nat consumed) data ++ rest)%list /\
   (consumed <= Py.len data -> Py.len rest = Py.len data - consumed)) /\
  patch_loop env b (a :: answers) (Some data) count
    (mkWorld (Some f) body k tr) =
    if Py.len rest <? 262144 then (Ok tt, w1)
    else patch_loop env b answers (Some (rest ++ more)%list) 0
           (set_content (skipn (Z.to_nat (Py.len rest)) body) w1).
Proof.
  intros Hsz Huri Hlen H308 Hrng consumed rest w1 more.
  split; [intros Hc; apply slice_from_prefix, Hc |].
  rewrite patch_loop_cons by exact Hlen.
  unfold bind at 1.
  rewrite (@patch_turn_continue env b f sz uri data count a n body k tr
             Hsz Huri H308 Hrng).
  cbv zeta. fold consumed. fold rest.
  destruct (Py.len rest <? 262144); reflexivity.
Qed.

Lemma patch_loop_after_continue_witness :
  let f := demo_file 900000 0 in
  let data := zeros 600000 in
  let body := zeros 300000 in
  let consumed := 299999 - _current_upload f + 1 in
  let rest := Py.slice_from consumed data in
  let w1 := mkWorld (Some (set_current_upload 299999 f)) body 0%nat
              ([] ++ [put_event f "http://backend/session" 900000 data])%list in
  let more := firstn (Z.to_nat (Py.len rest)) body in
  (consumed, Py.len rest, Py.len more) = (300000, 300000, 300000) /\
  data = (firstn (Z.to_nat consumed) data ++ rest)%list /\
  patch_loop demo_env (answering []) (continue_ack 299999 :: [complete])
    (Some data) 0 (mkWorld (Some f) body 0%nat []) =
    patch_loop demo_env (answering []) [complete]
      (Some (rest ++ more)%list) 0
      (set_content (skipn (Z.to_nat (Py.len rest)) body) w1).
Proof.
  intros f data body consumed rest w1 more.
  assert (Hlen : 1 <= Py.len data) by (vm_compute; discriminate).
  assert (Hrng : range_end (continue_ack 299999) = Ok 299999)
    by (vm_compute; reflexivity).
  destruct (@patch_loop_after_continue demo_env (answering []) f
              900000 "http://backend/session" data 0 (continue_ack 299999)
              299999 [complete] body 0%nat [] eq_refl eq_refl Hlen eq_refl
              Hrng)
    as [Hcut Hrun].
  assert (Hc : 0 <= consumed) by (vm_compute; discriminate).
  destruct (Hcut Hc) as [Hsplit _].
  assert (Hbig : (Py.len rest <? 262144) = false) by (vm_compute; reflexivity).
  fold consumed rest in Hrun. rewrite Hbig in Hrun.
  split; [vm_compute; reflexivity |]. split; [exact Hsplit | exact Hrun].
Defined.

(** C4, as stated, fails on the code.  With ten bytes buffered and the
    first five acknowledged, the remaining bytes are never sent, although
    the backend would have answered: the Patch ends after one append.
    With 600000 bytes buffered, the first 300000 acknowledged and 300000
    more bytes waiting in the request body, the loop reads those from the
    client before it sends again: the second append carries 600000
    bytes and the body is used up. *)
Lemma patch_remainder_counterexample :
  let small :=
    tus_patch demo_env (patch_request 10 0)
      (answering [continue_ack 4; complete])
      (demo_world (demo_file 10 0) (zeros 10)) in
  let large :=
    tus_patch demo_env (patch_request 600000 0)
      (answering [continue_ack 299999; complete])
      (demo_world (demo_file 900000 0) (zeros 900000)) in
  (succeeded (fst small), put_sizes (trace (snd small))) = (true, [10]) /\
  (succeeded (fst large), put_sizes (trace (snd large)), content (snd large)) =
    (true, [600000; 600000], []).
Proof. cbv zeta. split; vm_compute; reflexivity. Qed.

(** ** C5: the errors of session initiation *)

(** [initUpload] on a file whose size is set, when the POST is answered. *)
Lemma initUpload_run env b f sz call body k tr :
  _size f = Some sz ->
  post_answer b = Some call ->
  let f1 := set_upload_file_id (Some (pending_key env k)) f in
  let tr1 := ((tr ++ init_delete env f) ++ [post_event env f sz k])%list in
  initUpload env b (mkWorld (Some f) body k tr) =
    if negb (status call =? 200)
    then (Raise (GoogleCloudException (text call)),
          mkWorld (Some f1) body (S k) tr1)
    else match hget "Location" (rheaders call) with
         | None => (Raise (KeyError "Location"),
                    mkWorld (Some f1) body (S k) tr1)
         | Some loc =>
             (Ok tt,
              mkWorld
                (Some (set_resumable_uri_date (now env)
                         (set_current_upload 0 (set_resumable_uri loc f1))))
                body (S k) (tr1 ++ [EvNotifyInitial])%list)
         end.
Proof.
  intros Hsz Hpost f1 tr1.
  assert (Hdel :
    (match _upload_file_id f with
     | Some (Some key) => delete_best_effort env b key
     | _ => ret tt
     end) (mkWorld (Some f) body k tr) =
    (Ok tt, mkWorld (Some f) body k (tr ++ init_delete env f)%list)).
  { unfold init_delete. destruct (_upload_file_id f) as [[key |] |].
    - apply delete_best_effort_run.
    - unfold ret. rewrite app_nil_r. reflexivity.
    - unfold ret. rewrite app_nil_r. reflexivity. }
  unfold initUpload. unfold bind at 1. cbn [self slot].
  unfold bind at 1. rewrite Hdel.
  unfold answer, attr.
  unfold bind, uuid4, update, self, of_option, ret, emit, raise.
  cbn [slot set_slot set_uuid_count set_trace uuid_count trace content
       _size set_upload_file_id filename contentType].
  rewrite Hsz, Hpost.
  cbn [slot set_slot set_uuid_count set_trace uuid_count trace content].
  fold (pending_key env k).
  destruct (negb (status call =? 200)).
  - reflexivity.
  - destruct (hget "Location" (rheaders call)); reflexivity.
Qed.

(** C5, as the code has it.  When the backend answers the session-creating
    call with any status other than 200, [initUpload] raises
    [GoogleCloudException] with the body of the answer, whatever the
    status; on 200 with a [Location] header it stores that header as the
    session URI and sets the accepted offset to 0. *)
Theorem initUpload_outcome env b f sz call body k tr :
  _size f = Some sz ->
  post_answer b = Some call ->
  (status call <> 200 ->
   fst (initUpload env b (mkWorld (Some f) body k tr)) =
     Raise (GoogleCloudException (text call))) /\
  (status call = 200 ->
   forall loc, hget "Location" (rheaders call) = Some loc ->
   exists w' f',
     initUpload env b (mkWorld (Some f) body k tr) = (Ok tt, w') /\
     slot w' = Some f' /\
     _resumable_uri f' = Some loc /\
     _current_upload f' = 0).
Proof.
  intros Hsz Hpost.
  rewrite (@initUpload_run env b f sz call body k tr Hsz Hpost). cbv zeta.
  split.
  - intros Hne. apply Z.eqb_neq in Hne. rewrite Hne. reflexivity.
  - intros He loc Hloc. apply Z.eqb_eq in He. rewrite He, Hloc.
    eexists. eexists. split; [reflexivity |]. split; [reflexivity |].
    split; reflexivity.
Qed.

Lemma initUpload_outcome_witness :
  let w := mkWorld (Some (set_size 10 (new_file "text/plain"))) [] 0%nat [] in
  let answered call := mkBackend (Some call) [] (fun _ => 204) in
  fst (initUpload demo_env (answered (mkReply 403 [] "denied")) w) =
    Raise (GoogleCloudException "denied") /\
  exists w' f',
    initUpload demo_env (answered created) w = (Ok tt, w') /\
    slot w' = Some f' /\
    _resumable_uri f' = Some "http://backend/session" /\
    _current_upload f' = 0.
Proof.
  cbv zeta. split.
  - apply (@initUpload_outcome demo_env
             (mkBackend (Some (mkReply 403 [] "denied")) [] (fun _ => 204))
             (set_size 10 (new_file "text/plain")) 10 (mkReply 403 [] "denied")
             [] 0%nat []).
    + reflexivity.
    + reflexivity.
    + discriminate.
  - apply (@initUpload_outcome demo_env
             (mkBackend (Some created) [] (fun _ => 204))
             (set_size 10 (new_file "text/plain")) 10 created [] 0%nat []).
    + reflexivity.
    + reflexivity.
    + reflexivity.
    + reflexivity.
Defined.

(** C5, as stated, fails on the code: the statuses 401 and 403 get the
    very exception that 500 gets; no error of its own tells an
    authorization failure apart. *)
Lemma initUpload_auth_counterexample :
  let w := mkWorld (Some (set_size 10 (new_file "text/plain"))) [] 0%nat [] in
  let answered st := mkBackend (Some (mkReply st [] "denied")) [] (fun _ => 204) in
  error_of (fst (initUpload demo_env (answered 401) w)) =
    Some (GoogleCloudException "denied") /\
  error_of (fst (initUpload demo_env (answered 403) w)) =
    error_of (fst (initUpload demo_env (answered 500) w)) /\
  error_of (fst (initUpload demo_env (answered 401) w)) =
    error_of (fst (initUpload demo_env (answered 500) w)).
Proof. cbv zeta. repeat split; vm_compute; reflexivity. Qed.

(** ** C6: the headers a request must carry *)

(** C6, as the code has it.  A Create that is not redirected to Patch
    and has no [Upload-Length] header raises the missing-header error
    before any call leaves the module; so does a Patch with no
    [Content-Length] header, and a Patch with no [Upload-Offset] header,
    which leave the world as it was.  (A [Content-Length] that is there
    must be an integer: [int] is applied to it before the other header is
    looked at.) *)
Theorem missing_header_errors env req b w :
  (forall v, hget "CONTENT-LENGTH" (req_headers req) = Some v ->
             Py.int v <> None) ->
  (hget "X-HTTP-Method-Override" (req_headers req) <> Some "PATCH" ->
   hget "UPLOAD-LENGTH" (req_headers req) = None ->
   exists w',
     tus_create env req b w =
       (Raise (AttributeError "We need upload-length header"), w') /\
     trace w' = trace w) /\
  (hget "CONTENT-LENGTH" (req_headers req) = None ->
   tus_patch env req b w =
     (Raise (AttributeError "No content-length header"), w)) /\
  (hget "UPLOAD-OFFSET" (req_headers req) = None ->
   exists msg,
     tus_patch env req b w = (Raise (AttributeError msg), w) /\
     (hget "CONTENT-LENGTH" (req_headers req) <> None ->
      msg = "No upload-offset header")).
Proof.
  intros Hcl. split; [| split].
  - intros Hover Hul.
    assert (Hno : method_override_is_patch req = false).
    { unfold method_override_is_patch.
      destruct (hget "X-HTTP-Method-Override" (req_headers req)) as [v |];
        [| reflexivity].
      apply String.eqb_neq. intros ->. apply Hover. reflexivity. }
    unfold tus_create, hmem. rewrite Hno, Hul.
    destruct w as [sl body k tr].
    unfold bind, get_or_create_file, update, of_option, ret, raise.
    cbn [slot set_slot trace content uuid_count].
    destruct (hget "CONTENT-LENGTH" (req_headers req)) as [v |] eqn:H1.
    + destruct (Py.int v) as [n |] eqn:H1';
        [| exfalso; exact (Hcl v eq_refl H1')].
      destruct sl; cbn [slot set_slot trace]; eexists; split; reflexivity.
    + destruct sl; cbn [slot set_slot trace]; eexists; split; reflexivity.
  - intros H1. unfold tus_patch, hmem, bind, raise. rewrite H1. reflexivity.
  - intros H2. unfold tus_patch, hmem, bind, raise, of_option, ret.
    rewrite H2.
    destruct (hget "CONTENT-LENGTH" (req_headers req)) as [v |] eqn:H1.
    + destruct (Py.int v) as [n |] eqn:H1';
        [| exfalso; exact (Hcl v eq_refl H1')].
      eexists. split; [reflexivity | reflexivity].
    + eexists. split; [reflexivity |]. intros Hc. congruence.
Qed.

Lemma missing_header_errors_witness :
  let w := demo_world (demo_file 10 0) (zeros 10) in
  let create := mkRequest [("Tus-Resumable", "1.0.0")] "text/plain" in
  (exists w',
     tus_create demo_env create (answering []) w =
       (Raise (AttributeError "We need upload-length header"), w') /\
     trace w' = trace w) /\
  tus_patch demo_env create (answering []) w =
    (Raise (AttributeError "No content-length header"), w) /\
  exists msg,
    tus_patch demo_env (mkRequest [("Content-Length", "10")] "") (answering []) w =
      (Raise (AttributeError msg), w) /\
    msg = "No upload-offset header".
Proof.
  cbv zeta.
  pose proof (@missing_header_errors demo_env
                (mkRequest [("Tus-Resumable", "1.0.0")] "text/plain")
                (answering []) (demo_world (demo_file 10 0) (zeros 10)))
    as Hcreate.
  pose proof (@missing_header_errors demo_env
                (mkRequest [("Content-Length", "10")] "")
                (answering []) (demo_world (demo_file 10 0) (zeros 10)))
    as Hpatch.
  destruct Hcreate as (Hc1 & Hc2 & _); [discriminate |].
  destruct Hpatch as (_ & _ & Hp3).
  { intros v [= <-]. vm_compute. discriminate. }
  split; [apply Hc1; [discriminate | reflexivity] |].
  split; [apply Hc2; reflexivity |].
  destruct (Hp3 eq_refl) as (msg & Hrun & Hmsg).
  exists msg. split; [exact Hrun | apply Hmsg; discriminate].
Defined.

(** C6, as stated, fails on the code: a Create request with no
    [Upload-Length] header that carries [X-HTTP-Method-Override: PATCH]
    raises nothing; it is answered as a Patch, after an append was made. *)
Lemma create_without_length_counterexample :
  let run :=
    tus_create demo_env override_request (answering [complete])
      (demo_world (demo_file 10 0) (zeros 10)) in
  hget "UPLOAD-LENGTH" (req_headers override_request) = None /\
  succeeded (fst run) = true /\
  attempts (trace (snd run)) = 1%nat.
Proof. cbv zeta. repeat split; vm_compute; reflexivity. Qed.

(** ** C7: a request body shorter than declared *)

Lemma no_new_post_extends w w' :
  no_new_post w w' -> exists evs, trace w' = (trace w ++ evs)%list.
Proof. intros (evs & H & _). exists evs. exact H. Qed.

(** A turn of the loop first puts the buffered chunk, as it stands. *)
Lemma patch_turn_puts_first env b f sz uri data count a body k tr r w' :
  _size f = Some sz ->
  _resumable_uri f = Some uri ->
  patch_turn env b data count a (mkWorld (Some f) body k tr) = (r, w') ->
  exists later, trace w' = (tr ++ put_event f uri sz data :: later)%list.
Proof.
  intros Hsz Huri Hrun.
  unfold patch_turn in Hrun. unfold bind at 1 in Hrun. cbn [self slot] in Hrun.
  destruct (appendData data a (mkWorld (Some f) body k tr)) as [r1 w1] eqn:Happ.
  assert (Htr : trace w1 = (tr ++ [put_event f uri sz data])%list).
  { destruct a as [a |].
    - rewrite (@appendData_run f sz uri data a body k tr Hsz Huri) in Happ.
      cbv zeta in Happ.
      destruct (status a =? 308);
        [destruct (range_end a) |
         destruct (status_in (status a) [200; 201])];
        apply pair_equal_spec in Happ as [_ <-]; reflexivity.
    - rewrite (@appendData_no_answer f sz uri data body k tr Hsz Huri) in Happ.
      apply pair_equal_spec in Happ as [_ <-]. reflexivity. }
  unfold bind at 1 in Hrun. rewrite Happ in Hrun.
  destruct r1 as [resp | e].
  - match type of Hrun with
    | ?m w1 = _ =>
        assert (Hq : quiet m)
    end.
    { apply quiet_bind; [apply quiet_self | intros f'].
      apply quiet_bind.
      - destruct (status_in (status resp) [200; 201]); [| apply quiet_ret].
        apply quiet_bind; [apply quiet_finishUpload | intros; apply quiet_ret].
      - intros data'. unfold iadd. quiet_auto. }
    destruct (Hq _ _ _ Hrun) as [Hext _].
    apply no_new_post_extends in Hext as (evs & Hext).
    exists evs. rewrite Hext, Htr, <- app_assoc. reflexivity.
  - apply pair_equal_spec in Hrun as [_ <-].
    exists []. exact Htr.
Qed.

Lemma patch_loop_puts_first env b f sz uri answers data count body k tr r w' :
  _size f = Some sz ->
  _resumable_uri f = Some uri ->
  1 <= Py.len data ->
  patch_loop env b answers (Some data) count (mkWorld (Some f) body k tr)
    = (r, w') ->
  exists later, trace w' = (tr ++ put_event f uri sz data :: later)%list.
Proof.
  intros Hsz Huri Hlen Hrun.
  destruct (len_pos_cons data Hlen) as (x & d & ->).
  destruct answers as [| a answers]; cbn [patch_loop] in Hrun;
    unfold bind at 1 in Hrun.
  - destruct (patch_turn env b (x :: d) count None (mkWorld (Some f) body k tr))
      as [r1 w1] eqn:Hturn.
    pose proof (@patch_turn_puts_first env b f sz uri _ _ _ _ _ _ _ _
                  Hsz Huri Hturn) as (later & Hput).
    clear Hturn. rename Hput into Hturn.
    destruct r1; apply pair_equal_spec in Hrun as [_ <-];
      exists later; exact Hturn.
  - destruct (patch_turn env b (x :: d) count (Some a)
                (mkWorld (Some f) body k tr)) as [r1 w1] eqn:Hturn.
    pose proof (@patch_turn_puts_first env b f sz uri _ _ _ _ _ _ _ _
                  Hsz Huri Hturn) as (later & Hput).
    clear Hturn. rename Hput into Hturn.
    destruct r1 as [[| data' count'] | e].
    + apply pair_equal_spec in Hrun as [_ <-]. exists later. exact Hturn.
    + destruct (quiet_patch_loop env b answers data' count' _ Hrun)
        as [Hext _].
      apply no_new_post_extends in Hext as (evs & Hext).
      exists (later ++ evs)%list.
      rewrite Hext, Hturn, <- app_assoc. reflexivity.
    + apply pair_equal_spec in Hrun as [_ <-]. exists later. exact Hturn.
Qed.

(** C7.  When the request body ends before the declared number of bytes,
    [tus_patch] enters its loop with the bytes that were delivered, all of
    them and nothing else; no [IncompleteReadError] ever comes out of
    [tus_patch]; and on an opened session the first chunk put to the
    backend is exactly the delivered bytes, from the declared offset. *)
Theorem tus_patch_short_read env req b f body k tr v1 n v2 off :
  hget "CONTENT-LENGTH" (req_headers req) = Some v1 ->
  Py.int v1 = Some n ->
  hget "UPLOAD-OFFSET" (req_headers req) = Some v2 ->
  Py.int v2 = Some off ->
  Py.len body < n ->
  let w := mkWorld (Some f) body k tr in
  tus_patch env req b w =
    (patch_loop env b (put_answers b) (Some body) 0 ;;; patch_tail env)
      (mkWorld (Some (set_current_upload off f)) [] k tr) /\
  (forall w0 e w' partial,
     tus_patch env req b w0 = (Raise e, w') -> e <> IncompleteReadError partial) /\
  (forall sz uri,
     _size f = Some sz -> _resumable_uri f = Some uri -> 1 <= Py.len body ->
     exists later,
       trace (snd (tus_patch env req b w)) =
         (tr ++ put_event (set_current_upload off f) uri sz body :: later)%list).
Proof.
  intros H1 H1' H2 H2' Hshort w.
  assert (Hrun :
    tus_patch env req b w =
      (patch_loop env b (put_answers b) (Some body) 0 ;;; patch_tail env)
        (mkWorld (Some (set_current_upload off f)) [] k tr)).
  { unfold w.
    rewrite (@tus_patch_run env req b f body k tr v1 n v2 off H1 H1' H2 H2').
    unfold Py.len in Hshort.
    rewrite firstn_all2, skipn_all2 by lia. reflexivity. }
  split; [exact Hrun |]. split.
  - intros w0 e w' partial Hraise.
    destruct (quiet_tus_patch env req b _ Hraise) as [_ He].
    specialize (He e eq_refl). intros ->. exact He.
  - intros sz uri Hsz Huri Hlen. rewrite Hrun. unfold bind.
    destruct (patch_loop env b (put_answers b) (Some body) 0
                (mkWorld (Some (set_current_upload off f)) [] k tr))
      as [r1 w1] eqn:Hloop.
    pose proof (@patch_loop_puts_first env b (set_current_upload off f) sz uri
                  _ _ _ _ _ _ _ _
                  Hsz Huri Hlen Hloop) as (later & Hput).
    clear Hloop. rename Hput into Hloop.
    destruct r1 as [[] | e].
    + destruct (patch_tail env w1) as [r2 w2] eqn:Htail.
      apply patch_tail_world in Htail. subst w2.
      exists later. exact Hloop.
    + exists later. exact Hloop.
Qed.

Lemma tus_patch_short_read_witness :
  let w := mkWorld (Some (demo_file 10 0)) (zeros 4) 0%nat [] in
  let req := patch_request 10 0 in
  let b := answering [continue_ack 3] in
  tus_patch demo_env req b w =
    (patch_loop demo_env b (put_answers b) (Some (zeros 4)) 0 ;;;
     patch_tail demo_env)
      (mkWorld (Some (set_current_upload 0 (demo_file 10 0))) [] 0%nat []) /\
  exists later,
    trace (snd (tus_patch demo_env req b w)) =
      ([] ++ put_event (set_current_upload 0 (demo_file 10 0))
               "http://backend/session" 10 (zeros 4) :: later)%list.
Proof.
  cbv zeta.
  destruct (@tus_patch_short_read demo_env (patch_request 10 0)
              (answering [continue_ack 3]) (demo_file 10 0) (zeros 4) 0%nat []
              "10" 10 "0" 0 eq_refl eq_refl eq_refl eq_refl eq_refl)
    as (Hloop & _ & Hfirst).
  split; [exact Hloop |].
  apply Hfirst.
  - reflexivity.
  - reflexivity.
  - vm_compute. discriminate.
Defined.

(** ** C8: best-effort cleanup *)

(** The outcome of [initUpload] does not depend on how the backend
    answers the delete of the previous pending object. *)
Lemma initUpload_delete_irrelevant env pa puts ds ds' w :
  initUpload env (mkBackend pa puts ds) w =
  initUpload env (mkBackend pa puts ds') w.
Proof.
  unfold initUpload, bind. cbn [post_answer].
  destruct (self w) as [[f | e] w0]; [| reflexivity].
  destruct (_upload_file_id f) as [[key |] |]; try reflexivity.
  rewrite !delete_best_effort_run. reflexivity.
Qed.

Lemma initUpload_no_http_error env b w e code :
  fst (initUpload env b w) = Raise e -> e <> HttpError code.
Proof.
  unfold initUpload. unfold bind at 1.
  destruct (self w) as [[f | e0] w0] eqn:Hself.
  - unfold bind at 1.
    assert (Hdel : exists w1,
      (match _upload_file_id f with
       | Some (Some key) => delete_best_effort env b key
       | _ => ret tt
       end) w0 = (Ok tt, w1)).
    { destruct (_upload_file_id f) as [[key |] |].
      - rewrite delete_best_effort_run. eexists. reflexivity.
      - eexists. reflexivity.
      - eexists. reflexivity. }
    destruct Hdel as (w1 & ->).
    unfold answer, attr.
    unfold bind, uuid4, update, self, of_option, ret, emit, raise.
    cbn [slot set_slot set_uuid_count set_trace uuid_count trace content].
    repeat (match goal with
            | |- context [match slot ?x with _ => _ end] => destruct (slot x)
            | |- context [match _size ?x with _ => _ end] => destruct (_size x)
            | |- context [match post_answer ?x with _ => _ end] =>
                destruct (post_answer x)
            | |- context [match hget ?x ?y with _ => _ end] =>
                destruct (hget x y)
            | |- context [if negb ?x then _ else _] => destruct (negb x)
            end;
            cbn [fst slot set_slot set_uuid_count set_trace
                 uuid_count trace content]);
      intros H; try discriminate; injection H as <-; discriminate.
  - unfold self in Hself. destruct (slot w); [discriminate |].
    injection Hself as <- _. cbn. intros [= <-]. discriminate.
Qed.

(** C8.  On a file that has its pending key (every file [initUpload] went
    through), [finishUpload] succeeds whatever status the backend gives to
    the delete of the previously committed object: the delete is tried,
    the finalized key becomes the pending key and the pending key becomes
    [None].  [initUpload] likewise runs the same whatever the backend
    answers to the delete of the previous pending object, and never
    raises the [HttpError] of a delete. *)
Theorem cleanup_is_best_effort env pa puts ds f pending body k tr :
  _upload_file_id f = Some pending ->
  finishUpload env (mkBackend pa puts ds) (mkWorld (Some f) body k tr) =
    (Ok tt,
     mkWorld (Some (set_upload_file_id None (set_uri pending f))) body k
       (tr ++ finish_events env f)%list) /\
  _uri (set_upload_file_id None (set_uri pending f)) = Some pending /\
  _upload_file_id (set_upload_file_id None (set_uri pending f)) = Some None /\
  (forall ds' w,
     initUpload env (mkBackend pa puts ds) w =
     initUpload env (mkBackend pa puts ds') w) /\
  (forall w e code,
     fst (initUpload env (mkBackend pa puts ds) w) = Raise e ->
     e <> HttpError code).
Proof.
  intros Hid. split; [apply finishUpload_run, Hid |].
  split; [reflexivity |]. split; [reflexivity |]. split.
  - intros ds' w. apply initUpload_delete_irrelevant.
  - intros w e code. apply initUpload_no_http_error.
Qed.

Lemma cleanup_is_best_effort_witness :
  let ds := fun _ : string => 500 in
  let f := replacing_file in
  finishUpload demo_env (mkBackend None [] ds) (mkWorld (Some f) [] 0%nat []) =
    (Ok tt,
     mkWorld (Some (set_upload_file_id None (set_uri (Some "site/new") f)))
       [] 0%nat ([] ++ finish_events demo_env f)%list) /\
  _uri (set_upload_file_id None (set_uri (Some "site/new") f)) =
    Some (Some "site/new") /\
  _upload_file_id (set_upload_file_id None (set_uri (Some "site/new") f)) =
    Some None /\
  (forall ds' w,
     initUpload demo_env (mkBackend None [] ds) w =
     initUpload demo_env (mkBackend None [] ds') w) /\
  (forall w e code,
     fst (initUpload demo_env (mkBackend None [] ds) w) = Raise e ->
     e <> HttpError code).
Proof.
  cbv zeta.
  apply (@cleanup_is_best_effort demo_env None [] (fun _ => 500)
           replacing_file (Some "site/new") [] 0%nat []).
  reflexivity.
Defined.

(** ** C9: the total length in the answer to Head *)

(** C9.  For a file whose declared size is 0, [tus_head] answers without
    an [Upload-Length] header, although the size is set; for every other
    declared size, the header is there and holds the size. *)
Theorem tus_head_upload_length env f body k tr :
  (exists resp,
      tus_head env (mkWorld (Some (set_size 0 f)) body k tr) =
        (Ok resp, mkWorld (Some (set_size 0 f)) body k tr) /\
      hget "Upload-Length" (resp_headers resp) = None) /\
  (forall n, n <> 0 ->
     exists resp,
       tus_head env (mkWorld (Some (set_size n f)) body k tr) =
         (Ok resp, mkWorld (Some (set_size n f)) body k tr) /\
       hget "Upload-Length" (resp_headers resp) = Some (Py.str n)).
Proof.
  split.
  - eexists. split; reflexivity.
  - intros n Hn. unfold tus_head. cbn [slot size _size set_size truthy_int].
    apply Z.eqb_neq in Hn. rewrite Hn. cbn [negb].
    eexists. split; reflexivity.
Qed.

Lemma tus_head_upload_length_witness :
  exists resp,
    tus_head demo_env (mkWorld (Some (set_size 10 (demo_file 0 0))) [] 0%nat []) =
      (Ok resp, mkWorld (Some (set_size 10 (demo_file 0 0))) [] 0%nat []) /\
    hget "Upload-Length" (resp_headers resp) = Some (Py.str 10).
Proof.
  apply (proj2 (tus_head_upload_length demo_env (demo_file 0 0) [] 0%nat []) 10).
  discriminate.
Defined.

(** ** C10: a Create redirected to Patch *)

Lemma bind_ok_inv {A B} (m : M A) (k : A -> M B) w b w' :
  bind m k w = (Ok b, w') ->
  exists a w1, m w = (Ok a, w1) /\ k a w1 = (Ok b, w').
Proof.
  unfold bind. destruct (m w) as [[a | e] w1]; [eauto | discriminate].
Qed.

(** The response of a Patch that succeeded: the accepted offset and the
    expiry, with no status of its own. *)
Lemma tus_patch_response env req b w resp w' :
  tus_patch env req b w = (Ok resp, w') ->
  exists f' date,
    slot w' = Some f' /\
    resp =
      mkResponse
        [("Upload-Offset", Py.str (_current_upload f'));
         ("Tus-Resumable", "1.0.0");
         ("Upload-Expires", isoformat env (date + 7 * 86400));
         ("Access-Control-Expose-Headers",
          "Upload-Offset,Upload-Expires,Tus-Resumable")]
        None.
Proof.
  unfold tus_patch. intros H.
  apply bind_ok_inv in H as (to_upload & w1 & _ & H).
  apply bind_ok_inv in H as (_ & w2 & _ & H).
  apply bind_ok_inv in H as (data & w3 & _ & H).
  apply bind_ok_inv in H as (_ & w4 & _ & H).
  unfold bind, self, attr, of_option, ret, raise in H.
  destruct (slot w4) as [f' |] eqn:Hslot; [| discriminate].
  destruct (_resumable_uri_date f') as [date |]; [| discriminate].
  apply pair_equal_spec in H as [H <-]. injection H as <-.
  exists f', date. split; [exact Hslot | reflexivity].
Qed.

(** C10.  A Create request whose [X-HTTP-Method-Override] header is
    [PATCH] is the Patch operation on the same request: [tus_create] runs
    as [tus_patch].  When it succeeds, the response is the one of Patch,
    with the accepted offset and the expiry, neither the 201 status nor a
    [Location]; and no session-creating POST was made. *)
Theorem tus_create_method_override env req b w :
  hget "X-HTTP-Method-Override" (req_headers req) = Some "PATCH" ->
  tus_create env req b w = tus_patch env req b w /\
  forall resp w',
    tus_create env req b w = (Ok resp, w') ->
    resp_status resp = None /\
    hget "Location" (resp_headers resp) = None /\
    (exists f', slot w' = Some f' /\
                hget "Upload-Offset" (resp_headers resp) =
                  Some (Py.str (_current_upload f'))) /\
    (exists expires,
        hget "Upload-Expires" (resp_headers resp) = Some expires) /\
    no_new_post w w'.
Proof.
  intros Hover.
  assert (Heq : tus_create env req b w = tus_patch env req b w)
    by (unfold tus_create, method_override_is_patch; rewrite Hover;
        reflexivity).
  split; [exact Heq |].
  intros resp w' Hrun. rewrite Heq in Hrun.
  destruct (quiet_tus_patch env req b _ Hrun) as [Hposts _].
  apply tus_patch_response in Hrun as (f' & date & Hslot & ->).
  split; [reflexivity |]. split; [reflexivity |].
  split; [exists f'; split; [exact Hslot | reflexivity] |].
  split; [eexists; reflexivity | exact Hposts].
Qed.

Lemma tus_create_method_override_witness :
  let w := demo_world (demo_file 10 0) (zeros 10) in
  let b := answering [complete] in
  tus_create demo_env override_request b w =
    tus_patch demo_env override_request b w /\
  exists resp w',
    tus_create demo_env override_request b w = (Ok resp, w') /\
    resp_status resp = None /\
    hget "Location" (resp_headers resp) = None /\
    (exists f', slot w' = Some f' /\
                hget "Upload-Offset" (resp_headers resp) =
                  Some (Py.str (_current_upload f'))) /\
    (exists expires,
        hget "Upload-Expires" (resp_headers resp) = Some expires) /\
    no_new_post w w'.
Proof.
  cbv zeta.
  destruct (@tus_create_method_override demo_env override_request
              (answering [complete]) (demo_world (demo_file 10 0) (zeros 10))
              eq_refl) as [Heq Hresp].
  split; [exact Heq |].
  eexists. eexists. split; [vm_compute; reflexivity |].
  apply Hresp. vm_compute. reflexivity.
Defined.

(** * Further properties of the module *)

(** ** What a method leaves untouched *)

Section Frames.

Context {X : Type} (q : World -> X).

Lemma frames_ret {A} (a : A) : frames q (ret a).
Proof. apply safe_ret. reflexivity. Qed.

Lemma frames_raise {A} (e : exn) : frames q (@raise A e).
Proof. apply safe_raise; [reflexivity | exact I]. Qed.

Lemma frames_bind {A B} (m : M A) (k : A -> M B) :
  frames q m -> (forall a, frames q (k a)) -> frames q (bind m k).
Proof. apply safe_bind. intros w1 w2 w3 H1 H2. congruence. Qed.

Lemma frames_of_option {A} (e : exn) (o : option A) : frames q (of_option e o).
Proof. apply safe_of_option; [reflexivity | exact I]. Qed.

Lemma frames_lift {A} (r : result A) : frames q (lift r).
Proof. apply safe_lift; [reflexivity | intros; exact I]. Qed.

Lemma frames_self : frames q self.
Proof. apply safe_self; [reflexivity | exact I]. Qed.

Lemma frames_step {A} (m : M A) :
  (forall w r w', m w = (r, w') -> q w = q w') -> frames q m.
Proof. intros H w r w' Hm. split; [eapply H, Hm | intros; exact I]. Qed.

Lemma frames_update g :
  (forall w f, slot w = Some f -> q (set_slot (Some (g f)) w) = q w) ->
  frames q (update g).
Proof.
  intros H. apply frames_step. intros w r w' Hm. unfold update in Hm.
  destruct (slot w) as [f |] eqn:Hf; apply pair_equal_spec in Hm as [_ <-].
  - symmetry. apply H, Hf.
  - reflexivity.
Qed.

Lemma frames_emit e :
  (forall w tr, q (set_trace tr w) = q w) -> frames q (emit e).
Proof.
  intros H. apply frames_step. intros w r w' Hm. unfold emit in Hm.
  apply pair_equal_spec in Hm as [_ <-]. symmetry. apply H.
Qed.

Lemma frames_uuid4 env :
  (forall w n, q (set_uuid_count n w) = q w) -> frames q (uuid4 env).
Proof.
  intros H. apply frames_step. intros w r w' Hm. unfold uuid4 in Hm.
  apply pair_equal_spec in Hm as [_ <-]. symmetry. apply H.
Qed.

Lemma frames_read_or_partial n :
  (forall w c, q (set_content c w) = q w) -> frames q (read_or_partial n).
Proof.
  intros H. apply frames_step. intros w r w' Hm.
  rewrite read_or_partial_run in Hm.
  apply pair_equal_spec in Hm as [_ <-]. symmetry. apply H.
Qed.

Lemma frames_delete_best_effort env b key :
  (forall w tr, q (set_trace tr w) = q w) ->
  frames q (delete_best_effort env b key).
Proof.
  intros H. apply frames_step. intros w r w' Hm.
  rewrite delete_best_effort_run in Hm.
  apply pair_equal_spec in Hm as [_ <-]. symmetry. apply H.
Qed.

Lemma frames_get_or_create_file req :
  (forall w s, q (set_slot s w) = q w) -> frames q (get_or_create_file req).
Proof.
  intros H. apply frames_step. intros w r w' Hm.
  unfold get_or_create_file in Hm.
  destruct (slot w); apply pair_equal_spec in Hm as [_ <-];
    [reflexivity | symmetry; apply H].
Qed.

End Frames.

(** The side conditions: what [q] sees does not depend on the field that
    the step sets. *)
Ltac frame_side :=
  intros; unfold on_file, metadata, but_offset, set_slot, set_trace,
    set_content, set_uuid_count; cbn;
  repeat match goal with
         | H : slot _ = Some _ |- _ => rewrite H
         end;
  reflexivity.

Ltac frames_step_tac :=
  first
    [ apply frames_bind; [| intros ? ]
    | apply frames_ret
    | apply frames_raise
    | apply frames_self
    | apply frames_of_option
    | apply frames_lift
    | apply frames_update; frame_side
    | apply frames_emit; frame_side
    | apply frames_uuid4; frame_side
    | apply frames_read_or_partial; frame_side
    | apply frames_delete_best_effort; frame_side
    | apply frames_get_or_create_file; frame_side ].

Ltac frames_auto :=
  repeat match goal with
         | |- frames _ (if ?c then _ else _) => destruct c
         | |- frames _ (match ?x with _ => _ end) => destruct x
         | _ => frames_step_tac
         end.

(** What a Patch can change of a file: the accepted offset and the two
    object keys.  Everything else stays, whatever the backend answers. *)
Lemma frames_metadata_appendData data a :
  frames (on_file metadata) (appendData data a).
Proof. unfold appendData, attr, answer. frames_auto. Qed.

Lemma frames_metadata_finishUpload env b :
  frames (on_file metadata) (finishUpload env b).
Proof. unfold finishUpload, attr. frames_auto. Qed.

Lemma frames_metadata_patch_turn env b data count a :
  frames (on_file metadata) (patch_turn env b data count a).
Proof.
  unfold patch_turn, iadd.
  apply frames_bind; [apply frames_self | intros f].
  apply frames_bind; [apply frames_metadata_appendData | intros resp].
  apply frames_bind; [apply frames_self | intros f'].
  apply frames_bind.
  - destruct (status_in (status resp) [200; 201]); [| apply frames_ret].
    apply frames_bind;
      [apply frames_metadata_finishUpload | intros; apply frames_ret].
  - intros data'. frames_auto.
Qed.

Lemma frames_metadata_patch_loop env b answers :
  forall data count, frames (on_file metadata) (patch_loop env b answers data count).
Proof.
  induction answers as [| a answers IH]; intros data count;
    destruct data as [[| x d] |]; cbn [patch_loop]; try apply frames_ret.
  - apply frames_bind;
      [apply frames_metadata_patch_turn | intros; apply frames_ret].
  - apply frames_bind; [apply frames_metadata_patch_turn |].
    intros [| data' count']; [apply frames_ret | apply IH].
Qed.

(** X1.  Whatever the request and whatever the backend answers, a Patch
    leaves the content type, the filename, the declared size, the
    checksum, the extension, the session URI and its date as they were;
    it returns or raises with the same values. *)
Theorem tus_patch_keeps_metadata env req b w r w' :
  tus_patch env req b w = (r, w') ->
  on_file metadata w' = on_file metadata w.
Proof.
  intros Hrun.
  assert (Hf : frames (on_file metadata) (tus_patch env req b)).
  { unfold tus_patch, attr.
    apply frames_bind; [frames_auto | intros to_upload].
    apply frames_bind; [frames_auto | intros _].
    apply frames_bind; [frames_auto | intros data].
    apply frames_bind; [apply frames_metadata_patch_loop | intros _].
    frames_auto. }
  destruct (Hf _ _ _ Hrun) as [Hq _]. symmetry. exact Hq.
Qed.

Lemma tus_patch_keeps_metadata_witness :
  let run :=
    tus_patch demo_env (patch_request 10 0) (answering [complete])
      (demo_world (demo_file 10 0) (zeros 10)) in
  on_file metadata (snd run) =
    on_file metadata (demo_world (demo_file 10 0) (zeros 10)).
Proof.
  cbv zeta.
  apply (@tus_patch_keeps_metadata demo_env (patch_request 10 0)
           (answering [complete]) (demo_world (demo_file 10 0) (zeros 10))
           (fst (tus_patch demo_env (patch_request 10 0) (answering [complete])
                   (demo_world (demo_file 10 0) (zeros 10))))).
  vm_compute. reflexivity.
Defined.

(** ** Patch: the first answer of the backend *)

Lemma patch_tail_run env f date body k tr :
  _resumable_uri_date f = Some date ->
  patch_tail env (mkWorld (Some f) body k tr) =
    (Ok (patch_response env (_current_upload f) date),
     mkWorld (Some f) body k tr).
Proof.
  intros Hdate. unfold patch_tail, bind, self, attr, of_option, ret.
  cbn [slot]. rewrite Hdate. reflexivity.
Qed.

(** A Patch whose first append the backend completes. *)
Lemma tus_patch_complete_run
    env req b f sz uri pending date body k tr v1 n v2 off a rest :
  hget "CONTENT-LENGTH" (req_headers req) = Some v1 ->
  Py.int v1 = Some n ->
  hget "UPLOAD-OFFSET" (req_headers req) = Some v2 ->
  Py.int v2 = Some off ->
  _size f = Some sz ->
  _resumable_uri f = Some uri ->
  _upload_file_id f = Some pending ->
  _resumable_uri_date f = Some date ->
  1 <= Py.len (firstn (Z.to_nat n) body) ->
  put_answers b = a :: rest ->
  status_in (status a) [200; 201] = true ->
  tus_patch env req b (mkWorld (Some f) body k tr) =
    (Ok (patch_response env sz date),
     mkWorld (Some (finalized sz pending f)) (skipn (Z.to_nat n) body) k
       ((tr ++ [put_event (set_current_upload off f) uri sz
                  (firstn (Z.to_nat n) body)]) ++ finish_events env f)%list).
Proof.
  intros H1 H1' H2 H2' Hsz Huri Hid Hdate Hlen Hans H200.
  rewrite (@tus_patch_run env req b f body k tr v1 n v2 off H1 H1' H2 H2').
  rewrite Hans. unfold bind at 1. rewrite patch_loop_cons by exact Hlen.
  unfold bind at 1.
  rewrite (@patch_turn_complete env b (set_current_upload off f) sz uri pending
             (firstn (Z.to_nat n) body) 0 a (skipn (Z.to_nat n) body) k tr
             Hsz Huri Hid H200).
  cbv zeta.
  change (0 + 1 >? MAX_RETRIES) with false. cbv iota.
  assert (Htail :
    patch_tail env
      (mkWorld (Some (finalized sz pending f)) (skipn (Z.to_nat n) body) k
         ((tr ++ [put_event (set_current_upload off f) uri sz
                    (firstn (Z.to_nat n) body)]) ++ finish_events env f)%list) =
    (Ok (patch_response env sz date),
     mkWorld (Some (finalized sz pending f)) (skipn (Z.to_nat n) body) k
       ((tr ++ [put_event (set_current_upload off f) uri sz
                  (firstn (Z.to_nat n) body)]) ++ finish_events env f)%list))
    by (apply (@patch_tail_run env (finalized sz pending f) date); exact Hdate).
  destruct (Py.len
              (Py.slice_from (sz - _current_upload (set_current_upload off f))
                 (firstn (Z.to_nat n) body)) <? 262144).
  - cbv beta iota. unfold ret at 1. exact Htail.
  - destruct rest; cbn [patch_loop]; unfold ret at 1; exact Htail.
Qed.

(** X2.  When the backend completes the first append of a Patch, the
    upload is finalized in that Patch: one PUT is made with the bytes read,
    the accepted offset becomes the declared size whatever the chunk held,
    the pending key becomes the committed key and is cleared, the delete
    of the previously committed object is requested, and the response
    reports the declared size as offset. *)
Theorem tus_patch_complete_finalizes
    env req b f sz uri pending date body k tr v1 n v2 off a rest :
  hget "CONTENT-LENGTH" (req_headers req) = Some v1 ->
  Py.int v1 = Some n ->
  hget "UPLOAD-OFFSET" (req_headers req) = Some v2 ->
  Py.int v2 = Some off ->
  _size f = Some sz ->
  _resumable_uri f = Some uri ->
  _upload_file_id f = Some pending ->
  _resumable_uri_date f = Some date ->
  1 <= Py.len (firstn (Z.to_nat n) body) ->
  put_answers b = a :: rest ->
  status_in (status a) [200; 201] = true ->
  exists resp f' w',
    tus_patch env req b (mkWorld (Some f) body k tr) = (Ok resp, w') /\
    slot w' = Some f' /\
    _current_upload f' = sz /\
    _uri f' = Some pending /\
    _upload_file_id f' = Some None /\
    hget "Upload-Offset" (resp_headers resp) = Some (Py.str sz) /\
    attempts (trace w') = (attempts tr + 1)%nat /\
    (forall key, _uri f = Some (Some key) ->
                 In (EvDelete (bucket env) key) (trace w')).
Proof.
  intros H1 H1' H2 H2' Hsz Huri Hid Hdate Hlen Hans H200.
  eexists. eexists. eexists.
  split; [eapply tus_patch_complete_run; eassumption |].
  cbn [slot trace]. split; [reflexivity |]. split; [reflexivity |].
  split; [reflexivity |]. split; [reflexivity |]. split; [reflexivity |].
  split.
  - rewrite !attempts_app. unfold finish_events.
    destruct (_uri f) as [[key |] |]; cbn; lia.
  - intros key Hkey. apply in_or_app. right. unfold finish_events.
    rewrite Hkey. left. reflexivity.
Qed.

Lemma tus_patch_complete_finalizes_witness :
  exists resp f' w',
    tus_patch demo_env (patch_request 10 0) (answering [complete])
      (mkWorld (Some replacing_file) (zeros 10) 0%nat []) = (Ok resp, w') /\
    slot w' = Some f' /\
    _current_upload f' = 10 /\
    _uri f' = Some (Some "site/new") /\
    _upload_file_id f' = Some None /\
    hget "Upload-Offset" (resp_headers resp) = Some (Py.str 10) /\
    attempts (trace w') = (attempts [] + 1)%nat /\
    (forall key, _uri replacing_file = Some (Some key) ->
                 In (EvDelete (bucket demo_env) key) (trace w')).
Proof.
  apply (@tus_patch_complete_finalizes demo_env (patch_request 10 0)
           (answering [complete]) replacing_file 10 "http://backend/session"
           (Some "site/new") 0 (zeros 10) 0%nat [] "10" 10 "0" 0 complete []);
    try reflexivity.
  vm_compute. discriminate.
Defined.

(** X3.  A Continue answer that carries no [Range] header (the backend
    has stored nothing yet) makes the Patch fail with [KeyError]: the PUT
    was made, the accepted offset stays the declared one, and nothing is
    finalized. *)
Theorem tus_patch_continue_without_range
    env req b f sz uri body k tr v1 n v2 off a rest :
  hget "CONTENT-LENGTH" (req_headers req) = Some v1 ->
  Py.int v1 = Some n ->
  hget "UPLOAD-OFFSET" (req_headers req) = Some v2 ->
  Py.int v2 = Some off ->
  _size f = Some sz ->
  _resumable_uri f = Some uri ->
  1 <= Py.len (firstn (Z.to_nat n) body) ->
  put_answers b = a :: rest ->
  status a = 308 ->
  hget "Range" (rheaders a) = None ->
  tus_patch env req b (mkWorld (Some f) body k tr) =
    (Raise (KeyError "Range"),
     mkWorld (Some (set_current_upload off f)) (skipn (Z.to_nat n) body) k
       (tr ++ [put_event (set_current_upload off f) uri sz
                 (firstn (Z.to_nat n) body)])%list).
Proof.
  intros H1 H1' H2 H2' Hsz Huri Hlen Hans H308 Hrange.
  rewrite (@tus_patch_run env req b f body k tr v1 n v2 off H1 H1' H2 H2').
  rewrite Hans. unfold bind at 1. rewrite patch_loop_cons by exact Hlen.
  unfold bind at 1. unfold patch_turn. unfold bind at 1. cbn [self slot].
  unfold bind at 1.
  rewrite (@appendData_run (set_current_upload off f) sz uri
             (firstn (Z.to_nat n) body) a (skipn (Z.to_nat n) body) k tr
             Hsz Huri).
  cbv zeta. rewrite H308. cbn [Z.eqb Pos.eqb].
  unfold range_end. rewrite Hrange. reflexivity.
Qed.

Lemma tus_patch_continue_without_range_witness :
  tus_patch demo_env (patch_request 10 0)
    (answering [mkReply 308 [] ""])
    (mkWorld (Some (demo_file 20 0)) (zeros 10) 0%nat []) =
    (Raise (KeyError "Range"),
     mkWorld (Some (set_current_upload 0 (demo_file 20 0)))
       (skipn (Z.to_nat 10) (zeros 10)) 0%nat
       ([] ++ [put_event (set_current_upload 0 (demo_file 20 0))
                 "http://backend/session" 20
                 (firstn (Z.to_nat 10) (zeros 10))])%list).
Proof.
  apply (@tus_patch_continue_without_range demo_env (patch_request 10 0)
           (answering [mkReply 308 [] ""]) (demo_file 20 0) 20
           "http://backend/session" (zeros 10) 0%nat [] "10" 10 "0" 0
           (mkReply 308 [] "") []);
    try reflexivity.
  vm_compute. discriminate.
Defined.

(** ** Patch: no bytes, no file *)

Lemma tus_patch_no_bytes_run env req b f date body k tr v1 n v2 off :
  hget "CONTENT-LENGTH" (req_headers req) = Some v1 ->
  Py.int v1 = Some n ->
  hget "UPLOAD-OFFSET" (req_headers req) = Some v2 ->
  Py.int v2 = Some off ->
  _resumable_uri_date f = Some date ->
  firstn (Z.to_nat n) body = [] ->
  tus_patch env req b (mkWorld (Some f) body k tr) =
    (Ok (patch_response env off date),
     mkWorld (Some (set_current_upload off f)) (skipn (Z.to_nat n) body) k tr).
Proof.
  intros H1 H1' H2 H2' Hdate Hempty.
  rewrite (@tus_patch_run env req b f body k tr v1 n v2 off H1 H1' H2 H2').
  rewrite Hempty. unfold bind at 1.
  assert (Hloop : forall answers w,
             patch_loop env b answers (Some []) 0 w = (Ok tt, w))
    by (intros [| a answers] w; reflexivity).
  rewrite Hloop.
  apply (@patch_tail_run env (set_current_upload off f) date). exact Hdate.
Qed.

(** X4.  A Patch that reads no bytes (a declared length of 0 or less, or
    an empty body) makes no call to the backend, whatever the backend
    would answer: it stores the offset the client declared, without
    comparing it to anything, and reports that offset. *)
Theorem tus_patch_no_bytes env req b f date body k tr v1 n v2 off :
  hget "CONTENT-LENGTH" (req_headers req) = Some v1 ->
  Py.int v1 = Some n ->
  hget "UPLOAD-OFFSET" (req_headers req) = Some v2 ->
  Py.int v2 = Some off ->
  _resumable_uri_date f = Some date ->
  n <= 0 \/ body = [] ->
  exists resp,
    tus_patch env req b (mkWorld (Some f) body k tr) =
      (Ok resp, mkWorld (Some (set_current_upload off f)) body k tr) /\
    hget "Upload-Offset" (resp_headers resp) = Some (Py.str off).
Proof.
  intros H1 H1' H2 H2' Hdate Hno.
  assert (Hfirst : firstn (Z.to_nat n) body = [] /\
                   skipn (Z.to_nat n) body = body).
  { destruct Hno as [Hn | ->].
    - replace (Z.to_nat n) with 0%nat by lia. split; reflexivity.
    - split; [apply firstn_nil | apply skipn_nil]. }
  destruct Hfirst as [Hfirst Hskip].
  exists (patch_response env off date). split; [| reflexivity].
  rewrite (@tus_patch_no_bytes_run env req b f date body k tr v1 n v2 off
             H1 H1' H2 H2' Hdate Hfirst).
  rewrite Hskip. reflexivity.
Qed.

Lemma tus_patch_no_bytes_witness :
  exists resp,
    tus_patch demo_env (patch_request 0 7) (answering [unavailable])
      (mkWorld (Some (demo_file 10 2)) (zeros 3) 0%nat []) =
      (Ok resp,
       mkWorld (Some (set_current_upload 7 (demo_file 10 2))) (zeros 3)
         0%nat []) /\
    hget "Upload-Offset" (resp_headers resp) = Some (Py.str 7).
Proof.
  apply (@tus_patch_no_bytes demo_env (patch_request 0 7)
           (answering [unavailable]) (demo_file 10 2) 0 (zeros 3) 0%nat []
           "0" 0 "7" 7);
    try reflexivity.
  left. lia.
Defined.

(** X5.  On a slot that holds no file, Head raises [KeyError] and a Patch
    with both headers raises [AttributeError]; neither reads the body nor
    calls the backend, and the slot stays empty. *)
Theorem no_file_errors env req b body k tr v1 n v2 off :
  hget "CONTENT-LENGTH" (req_headers req) = Some v1 ->
  Py.int v1 = Some n ->
  hget "UPLOAD-OFFSET" (req_headers req) = Some v2 ->
  Py.int v2 = Some off ->
  let w := mkWorld None body k tr in
  tus_head env w = (Raise (KeyError "No file on this context"), w) /\
  tus_patch env req b w = (Raise (AttributeError "NoneType"), w).
Proof.
  intros H1 H1' H2 H2' w. split; [reflexivity |].
  unfold tus_patch, hmem. rewrite H1, H2.
  unfold bind, of_option, ret, update. rewrite H1', H2'. reflexivity.
Qed.

Lemma no_file_errors_witness :
  let w := mkWorld None (zeros 10) 0%nat [] in
  tus_head demo_env w = (Raise (KeyError "No file on this context"), w) /\
  tus_patch demo_env (patch_request 10 0) (answering [complete]) w =
    (Raise (AttributeError "NoneType"), w).
Proof.
  apply (@no_file_errors demo_env (patch_request 10 0) (answering [complete])
           (zeros 10) 0%nat [] "10" 10 "0" 0);
    reflexivity.
Defined.

(** ** Head and Patch together *)

(** X6.  After a Patch that succeeded, Head reports the offset the Patch
    reported, and leaves the world as the Patch left it. *)
Theorem head_after_patch env req b w resp w' :
  tus_patch env req b w = (Ok resp, w') ->
  exists resp',
    tus_head env w' = (Ok resp', w') /\
    hget "Upload-Offset" (resp_headers resp') =
      hget "Upload-Offset" (resp_headers resp).
Proof.
  intros Hrun.
  apply tus_patch_response in Hrun as (f' & date & Hslot & ->).
  unfold tus_head. rewrite Hslot. unfold size, truthy_int.
  destruct (_size f') as [n |].
  - destruct (negb (n =? 0)); eexists; split; reflexivity.
  - eexists. split; reflexivity.
Qed.

Lemma head_after_patch_witness :
  let run :=
    tus_patch demo_env (patch_request 10 0) (answering [continue_ack 9])
      (demo_world (demo_file 20 0) (zeros 10)) in
  exists resp',
    tus_head demo_env (snd run) = (Ok resp', snd run) /\
    hget "Upload-Offset" (resp_headers resp') = Some "9".
Proof.
  cbv zeta.
  apply (@head_after_patch demo_env (patch_request 10 0)
           (answering [continue_ack 9])
           (demo_world (demo_file 20 0) (zeros 10))
           (patch_response demo_env 9 0)).
  vm_compute. reflexivity.
Defined.

Lemma set_current_upload_same f : set_current_upload (_current_upload f) f = f.
Proof. destruct f. reflexivity. Qed.

(** X7.  The offset Head reports can be sent back as it is: a Patch that
    declares it leaves the file as it was when it reads no bytes, and
    otherwise puts its first chunk under that very offset. *)
Theorem resume_at_head_offset env f body k tr :
  let w := mkWorld (Some f) body k tr in
  exists resp reported,
    tus_head env w = (Ok resp, w) /\
    hget "Upload-Offset" (resp_headers resp) = Some reported /\
    forall req b v1 n date,
      hget "CONTENT-LENGTH" (req_headers req) = Some v1 ->
      Py.int v1 = Some n ->
      hget "UPLOAD-OFFSET" (req_headers req) = Some reported ->
      _resumable_uri_date f = Some date ->
      (firstn (Z.to_nat n) body = [] ->
       tus_patch env req b w =
         (Ok (patch_response env (_current_upload f) date),
          mkWorld (Some f) (skipn (Z.to_nat n) body) k tr)) /\
      (forall sz uri,
         _size f = Some sz -> _resumable_uri f = Some uri ->
         1 <= Py.len (firstn (Z.to_nat n) body) ->
         exists later,
           trace (snd (tus_patch env req b w)) =
             (tr ++ put_event f uri sz (firstn (Z.to_nat n) body) :: later)%list).
Proof.
  intros w. subst w.
  assert (Hhead : exists resp,
    tus_head env (mkWorld (Some f) body k tr) =
      (Ok resp, mkWorld (Some f) body k tr) /\
    hget "Upload-Offset" (resp_headers resp) =
      Some (Py.str (_current_upload f))).
  { unfold tus_head. cbn [slot]. unfold size, truthy_int.
    destruct (_size f) as [m |].
    - destruct (negb (m =? 0)); eexists; split; reflexivity.
    - eexists. split; reflexivity. }
  destruct Hhead as (resp & Hhead & Hoff).
  exists resp, (Py.str (_current_upload f)).
  split; [exact Hhead |]. split; [exact Hoff |].
  intros req b v1 n date H1 H1' H2 Hdate.
  pose proof (int_str (_current_upload f)) as H2'. split.
  - intros Hempty.
    rewrite (@tus_patch_no_bytes_run env req b f date body k tr v1 n _ _
               H1 H1' H2 H2' Hdate Hempty).
    rewrite set_current_upload_same. reflexivity.
  - intros sz uri Hsz Huri Hlen.
    rewrite (@tus_patch_run env req b f body k tr v1 n _ _ H1 H1' H2 H2').
    rewrite set_current_upload_same. unfold bind.
    destruct (patch_loop env b (put_answers b)
                (Some (firstn (Z.to_nat n) body)) 0
                (mkWorld (Some f) (skipn (Z.to_nat n) body) k tr))
      as [r1 w1] eqn:Hloop.
    pose proof (@patch_loop_puts_first env b f sz uri _ _ _ _ _ _ _ _
                  Hsz Huri Hlen Hloop) as (later & Hput).
    destruct r1 as [[] | e].
    + destruct (patch_tail env w1) as [r2 w2] eqn:Htail.
      apply patch_tail_world in Htail. subst w2.
      exists later. exact Hput.
    + exists later. exact Hput.
Qed.

Lemma resume_at_head_offset_witness :
  let f := demo_file 10 4 in
  let w := mkWorld (Some f) (zeros 3) 0%nat [] in
  exists resp,
    tus_head demo_env w = (Ok resp, w) /\
    hget "Upload-Offset" (resp_headers resp) = Some "4" /\
    tus_patch demo_env (patch_request 0 4) (answering []) w =
      (Ok (patch_response demo_env 4 0), w) /\
    exists later,
      trace (snd (tus_patch demo_env (patch_request 3 4)
                    (answering [continue_ack 6]) w)) =
        ([] ++ put_event f "http://backend/session" 10 (zeros 3) :: later)%list.
Proof.
  cbv zeta.
  destruct (@resume_at_head_offset demo_env (demo_file 10 4) (zeros 3) 0%nat [])
    as (resp & reported & Hhead & Hoff & Hall).
  exists resp. split; [exact Hhead |].
  assert (Hrep : reported = "4").
  { cbv in Hhead. injection Hhead as <-. cbv in Hoff. injection Hoff as <-.
    reflexivity. }
  subst reported. split; [exact Hoff |]. split.
  - exact (proj1 (Hall (patch_request 0 4) (answering []) "0" 0 0
                    eq_refl eq_refl eq_refl eq_refl) eq_refl).
  - apply (proj2 (Hall (patch_request 3 4) (answering [continue_ack 6]) "3" 3 0
                    eq_refl eq_refl eq_refl eq_refl) 10 "http://backend/session");
      try reflexivity.
    vm_compute. discriminate.
Defined.

(** ** Patch after the upload is complete *)

(** X8.  When a file whose upload a Patch has finalized receives one more
    Patch that the backend completes again, the second finalization asks
    the backend to delete the object the first one committed, and leaves
    the file with no committed key. *)
Theorem second_completion_deletes_committed
    env req b f sz uri key date body1 body2 k tr v1 n v2 off a rest :
  hget "CONTENT-LENGTH" (req_headers req) = Some v1 ->
  Py.int v1 = Some n ->
  hget "UPLOAD-OFFSET" (req_headers req) = Some v2 ->
  Py.int v2 = Some off ->
  _size f = Some sz ->
  _resumable_uri f = Some uri ->
  _upload_file_id f = Some (Some key) ->
  _resumable_uri_date f = Some date ->
  1 <= Py.len (firstn (Z.to_nat n) body1) ->
  1 <= Py.len (firstn (Z.to_nat n) body2) ->
  put_answers b = a :: rest ->
  status_in (status a) [200; 201] = true ->
  exists resp1 w1 resp2 w2 f1 f2,
    tus_patch env req b (mkWorld (Some f) body1 k tr) = (Ok resp1, w1) /\
    slot w1 = Some f1 /\ _uri f1 = Some (Some key) /\
    tus_patch env req b (set_content body2 w1) = (Ok resp2, w2) /\
    slot w2 = Some f2 /\ _uri f2 = Some None /\
    In (EvDelete (bucket env) key) (skipn (List.length (trace w1)) (trace w2)).
Proof.
  intros H1 H1' H2 H2' Hsz Huri Hid Hdate Hlen1 Hlen2 Hans H200.
  pose proof (@tus_patch_complete_run env req b f sz uri (Some key) date
                body1 k tr v1 n v2 off a rest
                H1 H1' H2 H2' Hsz Huri Hid Hdate Hlen1 Hans H200) as Hfirst.
  pose proof (@tus_patch_complete_run env req b (finalized sz (Some key) f)
                sz uri None date body2 k
                ((tr ++ [put_event (set_current_upload off f) uri sz
                           (firstn (Z.to_nat n) body1)]) ++
                 finish_events env f)%list
                v1 n v2 off a rest
                H1 H1' H2 H2' Hsz Huri eq_refl Hdate Hlen2 Hans H200)
    as Hsecond.
  do 6 eexists.
  split; [exact Hfirst |]. cbn [slot]. split; [reflexivity |].
  split; [reflexivity |].
  unfold set_content. cbn [slot uuid_count trace].
  split; [exact Hsecond |]. cbn [slot trace].
  split; [reflexivity |]. split; [reflexivity |].
  match goal with
  | |- In _ (skipn (List.length ?t) _) => set (T1 := t)
  end.
  rewrite <- (app_assoc T1), skipn_app, skipn_all, Nat.sub_diag.
  cbn [List.app skipn]. right.
  unfold finish_events, finalized. cbn. left. reflexivity.
Qed.

Lemma second_completion_deletes_committed_witness :
  exists resp1 w1 resp2 w2 f1 f2,
    tus_patch demo_env (patch_request 10 0) (answering [complete])
      (mkWorld (Some (demo_file 10 0)) (zeros 10) 0%nat []) = (Ok resp1, w1) /\
    slot w1 = Some f1 /\ _uri f1 = Some (Some "site/pending") /\
    tus_patch demo_env (patch_request 10 0) (answering [complete])
      (set_content (zeros 10) w1) = (Ok resp2, w2) /\
    slot w2 = Some f2 /\ _uri f2 = Some None /\
    In (EvDelete (bucket demo_env) "site/pending")
      (skipn (List.length (trace w1)) (trace w2)).
Proof.
  apply (@second_completion_deletes_committed demo_env (patch_request 10 0)
           (answering [complete]) (demo_file 10 0) 10 "http://backend/session"
           "site/pending" 0 (zeros 10) (zeros 10) 0%nat [] "10" 10 "0" 0
           complete []);
    try reflexivity.
  - vm_compute. discriminate.
  - vm_compute. discriminate.
Defined.

(** ** Create *)

Lemma frames_initUpload {X} (p : GCloudFile -> X) env b :
  (forall v f, p (set_upload_file_id v f) = p f) ->
  (forall v f, p (set_resumable_uri v f) = p f) ->
  (forall v f, p (set_current_upload v f) = p f) ->
  (forall v f, p (set_resumable_uri_date v f) = p f) ->
  frames (on_file p) (initUpload env b).
Proof.
  intros P1 P2 P3 P4.
  assert (Hupd : forall g, (forall f, p (g f) = p f) ->
                           frames (on_file p) (update g)).
  { intros g Hg. apply frames_update. intros w f Hf.
    unfold on_file. cbn. rewrite Hf. cbn. rewrite Hg. reflexivity. }
  unfold initUpload, attr, answer.
  repeat match goal with
         | |- frames _ (update _) => apply Hupd; intros; auto
         | |- frames _ (if ?c then _ else _) => destruct c
         | |- frames _ (match ?x with _ => _ end) => destruct x
         | _ => frames_step_tac
         end.
Qed.

(** [initUpload] when the POST gets no answer. *)
Lemma initUpload_unanswered env b f sz body k tr :
  _size f = Some sz ->
  post_answer b = None ->
  exists w', initUpload env b (mkWorld (Some f) body k tr) =
               (Raise ClientError, w').
Proof.
  intros Hsz Hpost.
  assert (Hdel : exists tr',
    (match _upload_file_id f with
     | Some (Some key) => delete_best_effort env b key
     | _ => ret tt
     end) (mkWorld (Some f) body k tr) = (Ok tt, mkWorld (Some f) body k tr')).
  { destruct (_upload_file_id f) as [[key |] |].
    - rewrite delete_best_effort_run. eexists. reflexivity.
    - eexists. reflexivity.
    - eexists. reflexivity. }
  destruct Hdel as (tr' & Hdel).
  unfold initUpload. unfold bind at 1. cbn [self slot].
  unfold bind at 1. rewrite Hdel.
  unfold answer, attr.
  unfold bind, uuid4, update, self, of_option, ret, emit, raise.
  cbn [slot set_slot set_uuid_count set_trace uuid_count trace content
       _size set_upload_file_id filename contentType].
  rewrite Hsz, Hpost. eexists. reflexivity.
Qed.

(** What a successful [initUpload] has done. *)
Lemma initUpload_ok_inv env b f sz body k tr w' :
  _size f = Some sz ->
  initUpload env b (mkWorld (Some f) body k tr) = (Ok tt, w') ->
  exists call loc,
    post_answer b = Some call /\ status call = 200 /\
    hget "Location" (rheaders call) = Some loc /\
    w' = mkWorld (Some (initiated env k loc f)) body (S k)
           ((((tr ++ init_delete env f) ++ [post_event env f sz k])
             ++ [EvNotifyInitial]))%list.
Proof.
  intros Hsz Hrun.
  destruct (post_answer b) as [call |] eqn:Hpost.
  - rewrite (@initUpload_run env b f sz call body k tr Hsz Hpost) in Hrun.
    cbv zeta in Hrun.
    destruct (Z.eqb_spec (status call) 200) as [E | E]; cbn [negb] in Hrun;
      [| discriminate].
    destruct (hget "Location" (rheaders call)) as [loc |] eqn:Hloc;
      [| discriminate].
    apply pair_equal_spec in Hrun as [_ <-].
    exists call, loc. repeat split; assumption || reflexivity.
  - destruct (@initUpload_unanswered env b f sz body k tr Hsz Hpost)
      as (w1 & Hw1).
    rewrite Hw1 in Hrun. discriminate.
Qed.

Lemma update_ok_inv g w r w' :
  update g w = (r, w') ->
  (exists f, slot w = Some f /\ r = Ok tt /\ w' = set_slot (Some (g f)) w) \/
  (slot w = None /\ r = Raise (AttributeError "NoneType") /\ w' = w).
Proof.
  unfold update. destruct (slot w) as [f |]; intros H;
    apply pair_equal_spec in H as [<- <-]; [left; eauto | right; auto].
Qed.

(** The step of [tus_create] and [upload] that reads the declared size. *)
Lemma size_step_ok_inv name err hs w w' :
  (if hmem name hs
   then
     v <- of_option (KeyError name) (hget name hs) ;;
     n <- of_option ValueError (Py.int v) ;;
     update (set_size n)
   else raise err) w = (Ok tt, w') ->
  exists v n f,
    hget name hs = Some v /\ Py.int v = Some n /\
    slot w = Some f /\ w' = set_slot (Some (set_size n f)) w.
Proof.
  unfold hmem. destruct (hget name hs) as [v |]; [| discriminate].
  unfold bind, of_option, ret, raise.
  destruct (Py.int v) as [n |] eqn:Hn; [| discriminate].
  intros H. apply update_ok_inv in H as [(f & Hf & _ & ->) | (_ & H & _)];
    [| discriminate].
  exists v, n, f. repeat split; assumption || reflexivity.
Qed.

(** What [q] sees is the same before and after the step of [H]. *)
Ltac frame_of H q :=
  cbv beta in H;
  match type of H with
  | ?m _ = (_, _) =>
      let F := fresh "F" in
      assert (F : frames q m) by (unfold hmem; frames_auto);
      let E := fresh "E" in
      destruct (F _ _ _ H) as [E _]; clear F; cbv beta in E
  end.

(** What a Create that is not redirected to Patch has done when it
    returns: the headers gave the size and the name, and [initUpload]
    opened the session on the file [f] they left. *)
Lemma tus_create_ok_inv env req b w resp w' :
  method_override_is_patch req = false ->
  tus_create env req b w = (Ok resp, w') ->
  resp = create_response env /\
  exists f v n call loc k,
    hget "UPLOAD-LENGTH" (req_headers req) = Some v /\ Py.int v = Some n /\
    _size f = Some n /\
    post_answer b = Some call /\ status call = 200 /\
    hget "Location" (rheaders call) = Some loc /\
    match hget "UPLOAD-METADATA" (req_headers req) with
    | None =>
        k = S (uuid_count w) /\
        filename f = Some (uuid4_hex env (uuid_count w))
    | Some meta =>
        k = uuid_count w /\
        exists piece name,
          nth_error (Py.split_ws meta) 1 = Some piece /\
          b64decode_utf8 env piece = Some name /\
          filename f = Some name
    end /\
    w' = mkWorld (Some (initiated env k loc f)) (content w) (S k)
           (((trace w ++ init_delete env f) ++ [post_event env f n k])
            ++ [EvNotifyInitial])%list.
Proof.
  intros Hover Hrun. unfold tus_create in Hrun. rewrite Hover in Hrun.
  apply bind_ok_inv in Hrun as ([] & w1 & H0 & Hrun).
  apply bind_ok_inv in Hrun as ([] & w2 & H1 & Hrun).
  apply bind_ok_inv in Hrun as ([] & w3 & H2 & Hrun).
  apply bind_ok_inv in Hrun as ([] & w4 & H3 & Hrun).
  apply bind_ok_inv in Hrun as ([] & w5 & H4 & Hrun).
  apply bind_ok_inv in Hrun as ([] & w6 & H5 & Hrun).
  apply bind_ok_inv in Hrun as ([] & w7 & H6 & Hrun).
  apply bind_ok_inv in Hrun as ([] & w8 & Hinit & Hrun).
  apply pair_equal_spec in Hrun as [Hresp <-]. injection Hresp as <-.
  split; [reflexivity |].
  (* the body, the trace and the uuid counter up to the naming step *)
  pose (q := fun w : World => (content w, uuid_count w, trace w)).
  frame_of H0 q. frame_of H1 q. frame_of H2 q. frame_of H3 q.
  frame_of H4 q. frame_of H5 q.
  assert (Eq : q w = q w6) by congruence. unfold q in Eq.
  injection Eq as Ec Ek Et. clear E E0 E1 E2 E3 E4.
  (* the declared size *)
  pose proof H2 as Hsize.
  apply size_step_ok_inv in Hsize as (v & n & f2 & Hv & Hn & Hf2 & ->).
  frame_of H3 (on_file _size). frame_of H4 (on_file _size).
  frame_of H5 (on_file _size).
  assert (Hsz6 : on_file _size w6 = Some (Some n)).
  { rewrite <- E1, <- E0, <- E. unfold on_file. reflexivity. }
  clear E E0 E1.
  destruct w6 as [[f6 |] body6 k6 tr6]; [| discriminate].
  unfold on_file in Hsz6. cbn in Hsz6. injection Hsz6 as Hsz6.
  cbn [content uuid_count trace] in Ec, Ek, Et. subst body6 k6 tr6.
  (* the name *)
  destruct (hget "UPLOAD-METADATA" (req_headers req)) as [meta |] eqn:Hmeta.
  - unfold bind, of_option, ret, raise, update in H6.
    destruct (nth_error (Py.split_ws meta) 1) as [piece |] eqn:Hpiece;
      [| discriminate].
    destruct (b64decode_utf8 env piece) as [name |] eqn:Hname;
      [| discriminate].
    cbn [slot set_slot content uuid_count trace] in H6.
    apply pair_equal_spec in H6 as [_ <-].
    apply (@initUpload_ok_inv env b (set_filename (Some name) f6) n
             (content w) (uuid_count w) (trace w) w8 Hsz6) in Hinit
      as (call & loc & Hpost & Hst & Hloc & ->).
    exists (set_filename (Some name) f6), v, n, call, loc, (uuid_count w).
    repeat split; try assumption.
    exists piece, name. repeat split; assumption.
  - unfold bind, uuid4, update in H6.
    cbn [slot set_slot set_uuid_count content uuid_count trace] in H6.
    apply pair_equal_spec in H6 as [_ <-].
    apply (@initUpload_ok_inv env b
             (set_filename (Some (uuid4_hex env (uuid_count w))) f6) n
             (content w) (S (uuid_count w)) (trace w) w8 Hsz6) in Hinit
      as (call & loc & Hpost & Hst & Hloc & ->).
    exists (set_filename (Some (uuid4_hex env (uuid_count w))) f6), v, n,
      call, loc, (S (uuid_count w)).
    repeat split; assumption.
Qed.

(** X9.  A Create that is not redirected to Patch and returns has opened a
    session: the response is 201 with the location of the upload; the
    declared size of the file is the integer of [Upload-Length]; the
    session URI is the [Location] the backend gave with its status 200;
    the accepted offset is 0, whatever [Content-Length] the request
    carried; no byte of the request body has been read; and the calls are
    the clean-up of an earlier pending object, one POST and the
    notification, in this order. *)
Theorem tus_create_success env req b w resp w' :
  method_override_is_patch req = false ->
  tus_create env req b w = (Ok resp, w') ->
  resp = create_response env /\
  content w' = content w /\
  exists f' v n call loc k old,
    slot w' = Some f' /\
    hget "UPLOAD-LENGTH" (req_headers req) = Some v /\ Py.int v = Some n /\
    _size f' = Some n /\
    _current_upload f' = 0 /\
    post_answer b = Some call /\ status call = 200 /\
    hget "Location" (rheaders call) = Some loc /\
    _resumable_uri f' = Some loc /\
    _upload_file_id f' = Some (Some (pending_key env k)) /\
    (old = [] \/ exists key, old = [EvDelete (bucket env) key]) /\
    trace w' =
      (((trace w ++ old) ++ [post_event env f' n k])
       ++ [EvNotifyInitial])%list.
Proof.
  intros Hover Hrun.
  destruct (@tus_create_ok_inv env req b w resp w' Hover Hrun)
    as (Hresp & f & v & n & call & loc & k & Hv & Hn & Hsz & Hpost & Hst &
        Hloc & _ & ->).
  split; [exact Hresp |]. split; [reflexivity |].
  exists (initiated env k loc f), v, n, call, loc, k, (init_delete env f).
  cbn [slot trace]. repeat split; try assumption.
  unfold init_delete.
  destruct (_upload_file_id f) as [[key |] |]; [right; eauto | left | left];
    reflexivity.
Qed.

Lemma tus_create_success_witness :
  let b := mkBackend (Some created) [] (fun _ => 204) in
  let req :=
    mkRequest [("Upload-Length", "10"); ("Content-Length", "7");
               ("Tus-Resumable", "1.0.0")] "text/plain" in
  exists resp w' f',
    tus_create demo_env req b (mkWorld None [] 0%nat []) = (Ok resp, w') /\
    resp = create_response demo_env /\
    slot w' = Some f' /\ _size f' = Some 10 /\ _current_upload f' = 0.
Proof.
  intros b req. set (w := mkWorld None [] 0%nat []).
  destruct (tus_create demo_env req b w) as [[resp |] w'] eqn:Hrun;
    [| vm_compute in Hrun; discriminate].
  destruct (@tus_create_success demo_env req b w resp w' eq_refl Hrun)
    as (Hresp & _ & f' & v & n & call & loc & k & old & Hslot & Hv & Hn &
        Hsz & Hcu & _).
  exists resp, w', f'. split; [reflexivity |]. split; [exact Hresp |].
  split; [exact Hslot |].
  cbv in Hv. injection Hv as <-. cbv in Hn. injection Hn as <-.
  split; assumption.
Defined.

(** The first half of a Create, on well-formed length headers. *)
Lemma tus_create_headers_run env req b w v c n :
  method_override_is_patch req = false ->
  create_offset req = Some c ->
  hget "UPLOAD-LENGTH" (req_headers req) = Some v -> Py.int v = Some n ->
  tus_create env req b w =
  create_tail env req b
    (set_slot (Some (create_headers req c n (file_or_new req (slot w)))) w).
Proof.
  intros Hover Hc Hv Hn. unfold tus_create, create_tail, create_response.
  rewrite Hover. unfold create_offset in Hc. unfold create_headers, hmem.
  rewrite Hv.
  destruct w as [sl body k tr].
  unfold bind at 1. unfold get_or_create_file. cbn [slot set_slot].
  assert (Hstep :
    forall f,
      (if match hget "CONTENT-LENGTH" (req_headers req) with
          | Some _ => true
          | None => false
          end
       then
         v0 <- of_option (KeyError "CONTENT-LENGTH")
                 (hget "CONTENT-LENGTH" (req_headers req)) ;;
         n0 <- of_option ValueError (Py.int v0) ;;
         update (set_current_upload n0)
       else update (set_current_upload 0)) (mkWorld (Some f) body k tr) =
      (Ok tt, mkWorld (Some (set_current_upload c f)) body k tr)).
  { intros f.
    destruct (hget "CONTENT-LENGTH" (req_headers req)) as [v0 |].
    - unfold bind, of_option, ret, update. rewrite Hc. reflexivity.
    - injection Hc as <-. reflexivity. }
  assert (Hgoal :
    forall f,
      file_or_new req sl = f ->
      forall w1, w1 = mkWorld (Some f) body k tr ->
      forall K : M Response,
        ((if match hget "CONTENT-LENGTH" (req_headers req) with
             | Some _ => true
             | None => false
             end
          then
            v0 <- of_option (KeyError "CONTENT-LENGTH")
                    (hget "CONTENT-LENGTH" (req_headers req)) ;;
            n0 <- of_option ValueError (Py.int v0) ;;
            update (set_current_upload n0)
          else update (set_current_upload 0)) ;;;
         (v0 <- of_option (KeyError "UPLOAD-LENGTH") (Some v) ;;
          n0 <- of_option ValueError (Py.int v0) ;;
          update (set_size n0)) ;;;
         match hget "UPLOAD-MD5" (req_headers req) with
         | Some v0 => update (set_md5hash (Some v0))
         | None => ret tt
         end ;;;
         match hget "UPLOAD-EXTENSION" (req_headers req) with
         | Some v0 => update (set_extension (Some v0))
         | None => ret tt
         end ;;;
         K) w1 =
        K (mkWorld
             (Some
                match hget "UPLOAD-EXTENSION" (req_headers req) with
                | Some v0 =>
                    set_extension (Some v0)
                      match hget "UPLOAD-MD5" (req_headers req) with
                      | Some v1 =>
                          set_md5hash (Some v1)
                            (set_size n (set_current_upload c f))
                      | None => set_size n (set_current_upload c f)
                      end
                | None =>
                    match hget "UPLOAD-MD5" (req_headers req) with
                    | Some v1 =>
                        set_md5hash (Some v1)
                          (set_size n (set_current_upload c f))
                    | None => set_size n (set_current_upload c f)
                    end
                end) body k tr)).
  { intros f _ w1 -> K.
    unfold bind at 1. rewrite Hstep.
    unfold bind at 1. unfold bind at 1. unfold of_option at 1, ret at 1.
    unfold bind at 1. rewrite Hn. unfold of_option at 1, ret at 1.
    unfold update at 1. cbn [slot set_slot].
    unfold bind at 1.
    destruct (hget "UPLOAD-MD5" (req_headers req)) as [m |];
      unfold bind at 1;
      destruct (hget "UPLOAD-EXTENSION" (req_headers req)) as [x |];
      reflexivity. }
  destruct sl as [f |]; cbn [file_or_new];
    eapply Hgoal; reflexivity.
Qed.

(** X10.  A Create is not atomic.  When it is rejected for the missing
    [Tus-Resumable] header, the size and the offset of a session that
    exists have already been overwritten from the length headers of the
    rejected request: the upload that was in progress has lost its
    offset, although its session URI and its pending object are still
    there and no call was made. *)
Theorem tus_create_rejected_overwrites env req b f body k tr v c n :
  method_override_is_patch req = false ->
  create_offset req = Some c ->
  hget "UPLOAD-LENGTH" (req_headers req) = Some v -> Py.int v = Some n ->
  hget "TUS-RESUMABLE" (req_headers req) = None ->
  exists f',
    tus_create env req b (mkWorld (Some f) body k tr) =
      (Raise (AttributeError "Its a TUS needs a TUS version"),
       mkWorld (Some f') body k tr) /\
    _size f' = Some n /\ _current_upload f' = c /\
    _resumable_uri f' = _resumable_uri f /\
    _upload_file_id f' = _upload_file_id f /\
    filename f' = filename f.
Proof.
  intros Hover Hc Hv Hn Htus.
  rewrite (@tus_create_headers_run env req b (mkWorld (Some f) body k tr)
             v c n Hover Hc Hv Hn).
  cbn [slot set_slot file_or_new content uuid_count trace].
  exists (create_headers req c n f). split.
  - unfold create_tail, hmem. rewrite Htus. reflexivity.
  - unfold create_headers.
    destruct (hget "UPLOAD-MD5" (req_headers req)),
      (hget "UPLOAD-EXTENSION" (req_headers req)); repeat split.
Qed.

Lemma tus_create_rejected_overwrites_witness :
  exists f',
    tus_create demo_env
      (mkRequest [("Upload-Length", "3"); ("Content-Length", "5")] "text/plain")
      (answering []) (mkWorld (Some (demo_file 1000 400)) [] 0%nat []) =
      (Raise (AttributeError "Its a TUS needs a TUS version"),
       mkWorld (Some f') [] 0%nat []) /\
    _size f' = Some 3 /\ _current_upload f' = 5.
Proof.
  destruct (@tus_create_rejected_overwrites demo_env
              (mkRequest [("Upload-Length", "3"); ("Content-Length", "5")]
                 "text/plain")
              (answering []) (demo_file 1000 400) [] 0%nat [] "3" 5 3
              eq_refl eq_refl eq_refl eq_refl eq_refl)
    as (f' & Hrun & Hsz & Hcu & _).
  exists f'. repeat split; assumption.
Defined.

(** X11.  The name of the file a Create makes.  Without [Upload-Metadata]
    it is a fresh uuid, and the pending object gets the next one; with the
    header it is what base64 decodes from its second whitespace-separated
    piece, whatever the first piece (the key) says, and a header with
    fewer than two pieces cannot pass. *)
Theorem tus_create_names_the_file env req b w resp w' :
  method_override_is_patch req = false ->
  tus_create env req b w = (Ok resp, w') ->
  match hget "UPLOAD-METADATA" (req_headers req) with
  | None =>
      on_file filename w' = Some (Some (uuid4_hex env (uuid_count w))) /\
      on_file _upload_file_id w' =
        Some (Some (Some (pending_key env (S (uuid_count w)))))
  | Some meta =>
      exists piece name,
        nth_error (Py.split_ws meta) 1 = Some piece /\
        b64decode_utf8 env piece = Some name /\
        on_file filename w' = Some (Some name) /\
        on_file _upload_file_id w' =
          Some (Some (Some (pending_key env (uuid_count w))))
  end.
Proof.
  intros Hover Hrun.
  destruct (@tus_create_ok_inv env req b w resp w' Hover Hrun)
    as (_ & f & v & n & call & loc & k & _ & _ & _ & _ & _ & _ & Hname & ->).
  destruct (hget "UPLOAD-METADATA" (req_headers req)) as [meta |].
  - destruct Hname as (-> & piece & name & Hpiece & Hdec & Hf).
    exists piece, name. unfold on_file. cbn. rewrite Hf. auto.
  - destruct Hname as (-> & Hf). unfold on_file. cbn. rewrite Hf. auto.
Qed.

Lemma tus_create_names_the_file_witness :
  let b := mkBackend (Some created) [] (fun _ => 204) in
  let req :=
    mkRequest [("Upload-Length", "10"); ("Tus-Resumable", "1.0.0")]
      "text/plain" in
  exists resp w',
    tus_create demo_env req b (mkWorld None [] 0%nat []) = (Ok resp, w') /\
    on_file filename w' = Some (Some (uuid4_hex demo_env 0%nat)).
Proof.
  intros b req. set (w := mkWorld None [] 0%nat []).
  destruct (tus_create demo_env req b w) as [[resp |] w'] eqn:Hrun;
    [| vm_compute in Hrun; discriminate].
  pose proof (@tus_create_names_the_file demo_env req b w resp w' eq_refl Hrun)
    as H.
  change (hget "UPLOAD-METADATA" (req_headers req)) with (@None string) in H.
  cbv beta iota in H. destruct H as [H _].
  exists resp, w'. split; [reflexivity | exact H].
Defined.

(** X12.  The size that [tus_options] advertises as the largest is not
    enforced: a Create declaring any size, however large, opens a session
    when the backend accepts it. *)
Theorem tus_create_any_size env b w n call loc :
  post_answer b = Some call -> status call = 200 ->
  hget "Location" (rheaders call) = Some loc ->
  let req :=
    mkRequest [("Upload-Length", Py.str n); ("Tus-Resumable", "1.0.0")]
      "application/octet-stream" in
  exists w',
    tus_create env req b w = (Ok (create_response env), w') /\
    on_file _size w' = Some (Some n) /\
    forall r w1,
      tus_options w = (r, w1) ->
      exists resp, r = Ok resp /\
        hget "Tus-Max-Size" (resp_headers resp) = Some (Py.str MAX_SIZE).
Proof.
  intros Hpost Hst Hloc req.
  assert (Hover : method_override_is_patch req = false) by reflexivity.
  assert (Hc : create_offset req = Some 0) by reflexivity.
  assert (Hv : hget "UPLOAD-LENGTH" (req_headers req) = Some (Py.str n))
    by reflexivity.
  rewrite (@tus_create_headers_run env req b w (Py.str n) 0 n Hover Hc Hv
             (int_str n)).
  destruct w as [sl body k tr]. cbn [slot set_slot].
  set (f := create_headers req 0 n (file_or_new req sl)).
  assert (Hsz : forall u, _size (set_filename u f) = Some n)
    by (intros; destruct sl; reflexivity).
  eexists. split; [| split].
  - unfold create_tail. change (hmem "TUS-RESUMABLE" (req_headers req)) with true.
    change (hget "UPLOAD-METADATA" (req_headers req)) with (@None string).
    cbn [negb]. unfold bind at 1. unfold ret at 1.
    unfold bind at 1. unfold bind at 1. unfold uuid4 at 1.
    unfold update at 1. unfold set_slot, set_uuid_count.
    cbn [slot content uuid_count trace].
    unfold bind at 1.
    rewrite (@initUpload_run env b _ n call body (S k) tr (Hsz _) Hpost).
    cbv zeta. rewrite Hst, Hloc. cbn [Z.eqb Pos.eqb negb]. reflexivity.
  - unfold on_file. cbn. reflexivity.
  - intros r w1 H. unfold tus_options, ret in H.
    apply pair_equal_spec in H as [<- _]. eexists. split; reflexivity.
Qed.

Lemma tus_create_any_size_witness :
  exists w',
    tus_create demo_env
      (mkRequest [("Upload-Length", Py.str (4 * MAX_SIZE));
                  ("Tus-Resumable", "1.0.0")] "application/octet-stream")
      (mkBackend (Some created) [] (fun _ => 204))
      (mkWorld None [] 0%nat []) =
      (Ok (create_response demo_env), w') /\
    on_file _size w' = Some (Some (4 * MAX_SIZE)).
Proof.
  destruct (@tus_create_any_size demo_env
              (mkBackend (Some created) [] (fun _ => 204))
              (mkWorld None [] 0%nat []) (4 * MAX_SIZE) created
              "http://backend/session")
    as (w' & Hrun & Hsz & _).
  - reflexivity.
  - reflexivity.
  - reflexivity.
  - exists w'. split; assumption.
Defined.

(** ** The one-request upload *)

(** The headers of [upload]. *)
Ltac upload_run_tac :=
  unfold bind, get_or_create_file, update, of_option, ret, raise, uuid4,
    set_slot, set_uuid_count;
  cbn [slot content uuid_count trace file_or_new].

Lemma upload_headers_run env req b sl body k tr :
  upload env req b (mkWorld sl body k tr) =
  match hget "X-UPLOAD-SIZE" (req_headers req) with
  | None =>
      (Raise (AttributeError "x-upload-size header needed"),
       mkWorld (Some (upload_reset req sl)) body k tr)
  | Some v =>
      match Py.int v with
      | None => (Raise ValueError,
                 mkWorld (Some (upload_reset req sl)) body k tr)
      | Some n =>
          match upload_name env req k with
          | None =>
              (Raise DecodeError,
               mkWorld (Some (set_size n (upload_reset req sl))) body k tr)
          | Some name =>
              upload_tail env b
                (mkWorld (Some (upload_file req n name sl)) body
                   (k + upload_uuids req) tr)
          end
      end
  end.
Proof.
  unfold upload, upload_tail, upload_name, upload_uuids, upload_file,
    upload_reset, hmem.
  destruct (hget "X-UPLOAD-SIZE" (req_headers req)) as [v |].
  - destruct (Py.int v) as [n |] eqn:Hn.
    + destruct (hget "X-UPLOAD-FILENAME" (req_headers req)) as [name |].
      * destruct sl as [f |]; upload_run_tac; rewrite Hn; upload_run_tac;
          rewrite Nat.add_0_r; reflexivity.
      * destruct (hget "X-UPLOAD-FILENAME-B64" (req_headers req)) as [b64 |].
        -- destruct (b64decode_utf8 env b64) as [name |];
             destruct sl as [f |]; upload_run_tac; rewrite Hn; upload_run_tac;
             rewrite ?Nat.add_0_r; reflexivity.
        -- destruct sl as [f |]; upload_run_tac; rewrite Hn; upload_run_tac;
             rewrite Nat.add_1_r; reflexivity.
    + destruct sl as [f |]; upload_run_tac; rewrite Hn; reflexivity.
  - destruct sl as [f |]; reflexivity.
Qed.

(** The appends change the accepted offset and nothing else of the file. *)
Lemma frames_but_offset_appendData data a :
  frames (on_file but_offset) (appendData data a).
Proof. unfold appendData, attr, answer. frames_auto. Qed.

Lemma frames_but_offset_upload_turn data count a :
  frames (on_file but_offset) (upload_turn data count a).
Proof.
  unfold upload_turn.
  apply frames_bind; [apply frames_self | intros f].
  apply frames_bind; [apply frames_but_offset_appendData | intros resp].
  frames_auto.
Qed.

Lemma frames_but_offset_upload_loop answers :
  forall data count,
    frames (on_file but_offset) (upload_loop answers data count).
Proof.
  induction answers as [| a answers IH]; intros data count;
    destruct data as [[| x d] |]; cbn [upload_loop]; try apply frames_ret.
  - apply frames_bind;
      [apply frames_but_offset_upload_turn | intros; apply frames_ret].
  - apply frames_bind; [apply frames_but_offset_upload_turn |].
    intros [| data' count']; [apply frames_ret | apply IH].
Qed.

Lemma but_offset_fields f g :
  but_offset f = but_offset g ->
  (contentType f, filename f, _size f, _md5hash f, _extension f,
   _upload_file_id f, _uri f, _resumable_uri f, _resumable_uri_date f) =
  (contentType g, filename g, _size g, _md5hash g, _extension g,
   _upload_file_id g, _uri g, _resumable_uri g, _resumable_uri_date g).
Proof.
  destruct f, g. unfold but_offset, set_current_upload. cbn.
  intros H. injection H. intros. subst. reflexivity.
Qed.

(** X13.  An [upload] that returns has committed the object and described
    the file from the request alone: the size is the integer of
    [X-Upload-Size]; the name is [X-Upload-Filename], else the decoded
    [X-Upload-Filename-B64], else a fresh uuid; checksum and extension are
    the headers' values, and none when a header is absent, also on a file
    that had them; the content type is that of the file that was there,
    and of the request only for a new file.  The object that was pending
    is the committed one and no pending object is left. *)
Theorem upload_success env req b w w' :
  upload env req b w = (Ok tt, w') ->
  exists f' v n name call loc,
    slot w' = Some f' /\
    hget "X-UPLOAD-SIZE" (req_headers req) = Some v /\ Py.int v = Some n /\
    upload_name env req (uuid_count w) = Some name /\
    post_answer b = Some call /\ status call = 200 /\
    hget "Location" (rheaders call) = Some loc /\
    _resumable_uri f' = Some loc /\
    _uri f' =
      Some (Some (pending_key env (uuid_count w + upload_uuids req))) /\
    _upload_file_id f' = Some None /\
    json_converter (Some f') =
      Some (mkFileJson (Some name)
              (contentType (file_or_new req (slot w))) (Some n)
              (hget "X-UPLOAD-EXTENSION" (req_headers req))
              (hget "X-UPLOAD-MD5HASH" (req_headers req))).
Proof.
  intros H. destruct w as [sl body k tr]. cbn [slot uuid_count].
  rewrite upload_headers_run in H.
  destruct (hget "X-UPLOAD-SIZE" (req_headers req)) as [v |] eqn:Hv;
    [| discriminate].
  destruct (Py.int v) as [n |] eqn:Hn; [| discriminate].
  destruct (upload_name env req k) as [name |] eqn:Hname; [| discriminate].
  unfold upload_tail in H.
  apply bind_ok_inv in H as ([] & w1 & Hinit & H).
  apply bind_ok_inv in H as (data & w2 & Hread & H).
  apply bind_ok_inv in H as ([] & w3 & Hloop & Hfin).
  apply (@initUpload_ok_inv env b (upload_file req n name sl) n body
           (k + upload_uuids req)%nat tr w1 eq_refl) in Hinit
    as (call & loc & Hpost & Hst & Hloc & ->).
  rewrite read_or_partial_run in Hread.
  apply pair_equal_spec in Hread as [_ <-].
  destruct (@frames_but_offset_upload_loop (put_answers b) (Some data) 0
              _ _ _ Hloop) as [E _].
  destruct w3 as [[f3 |] body3 k3 tr3]; [| discriminate].
  unfold on_file in E. cbn [slot option_map] in E.
  apply (f_equal (fun o => match o with Some x => x | None => f3 end)) in E.
  symmetry in E. apply but_offset_fields in E. cbn in E.
  injection E as Ect Efn Esz Emd Eex Eid Euri Eru Edate.
  rewrite (@finishUpload_run env b f3 _ body3 k3 tr3 Eid) in Hfin.
  apply pair_equal_spec in Hfin as [_ <-].
  exists (set_upload_file_id None
            (set_uri (Some (pending_key env (k + upload_uuids req))) f3)),
    v, n, name, call, loc.
  cbn [slot]. repeat split; try assumption; try reflexivity.
  unfold json_converter, size, extension, md5. cbn.
  rewrite Efn, Ect, Esz, Eex, Emd. reflexivity.
Qed.

Lemma upload_success_witness :
  let b := mkBackend (Some created) [complete] (fun _ => 204) in
  let req :=
    mkRequest [("X-Upload-Size", "3"); ("X-Upload-Filename", "a.txt")]
      "text/plain" in
  let w := mkWorld (Some (demo_file 9 4)) [x00; x00; x00] 0%nat [] in
  exists w' f',
    upload demo_env req b w = (Ok tt, w') /\ slot w' = Some f' /\
    json_converter (Some f') =
      Some (mkFileJson (Some "a.txt") "application/octet-stream" (Some 3)
              None None).
Proof.
  intros b req w.
  destruct (upload demo_env req b w) as [[[] |] w'] eqn:Hrun;
    [| vm_compute in Hrun; discriminate].
  destruct (@upload_success demo_env req b w w' Hrun)
    as (f' & v & n & name & call & loc & Hslot & Hv & Hn & Hname & _ & _ &
        _ & _ & _ & _ & Hjson).
  exists w', f'. split; [reflexivity |]. split; [exact Hslot |].
  cbv in Hv. injection Hv as <-. cbv in Hn. injection Hn as <-.
  cbv in Hname. injection Hname as <-. exact Hjson.
Defined.

Lemma attempts_init_delete env f : attempts (init_delete env f) = 0%nat.
Proof.
  unfold init_delete. destruct (_upload_file_id f) as [[key |] |]; reflexivity.
Qed.

Lemma attempts_finish_events env f : attempts (finish_events env f) = 0%nat.
Proof.
  unfold finish_events. destruct (_uri f) as [[key |] |]; reflexivity.
Qed.

Lemma upload_loop_nil answers count : upload_loop answers (Some []) count = ret tt.
Proof. destruct answers; reflexivity. Qed.

(** X14.  An [upload] with an empty body sends nothing and still commits:
    the loop is not entered, [finishUpload] runs, and the file that
    declares [n] bytes is complete with the accepted offset 0 and without
    one PUT. *)
Theorem upload_empty_body env req b sl k tr v n name call loc :
  hget "X-UPLOAD-SIZE" (req_headers req) = Some v -> Py.int v = Some n ->
  upload_name env req k = Some name ->
  post_answer b = Some call -> status call = 200 ->
  hget "Location" (rheaders call) = Some loc ->
  exists f' tr',
    upload env req b (mkWorld sl [] k tr) =
      (Ok tt, mkWorld (Some f') [] (S (k + upload_uuids req)) tr') /\
    attempts tr' = attempts tr /\
    _size f' = Some n /\ _current_upload f' = 0 /\
    _uri f' = Some (Some (pending_key env (k + upload_uuids req))) /\
    _upload_file_id f' = Some None /\
    List.last tr' EvNotifyInitial = EvNotifyFinish.
Proof.
  intros Hv Hn Hname Hpost Hst Hloc.
  rewrite upload_headers_run, Hv, Hn, Hname. unfold upload_tail.
  unfold bind at 1.
  rewrite (@initUpload_run env b (upload_file req n name sl) n call []
             (k + upload_uuids req)%nat tr eq_refl Hpost).
  cbv zeta. rewrite Hst, Hloc. cbn [Z.eqb Pos.eqb negb].
  unfold bind at 1. rewrite read_or_partial_run.
  unfold set_content. cbn [content slot uuid_count trace].
  rewrite firstn_nil, skipn_nil.
  unfold bind at 1. rewrite upload_loop_nil. unfold ret.
  erewrite finishUpload_run by reflexivity.
  eexists. eexists. split; [reflexivity |].
  split; [| split; [reflexivity | split; [reflexivity | split;
    [reflexivity | split; [reflexivity |]]]]].
  - rewrite !attempts_app, attempts_init_delete, attempts_finish_events.
    cbn. lia.
  - unfold finish_events. cbn [_uri set_resumable_uri_date set_current_upload
      set_resumable_uri set_upload_file_id].
    destruct (_uri (upload_file req n name sl)) as [[key |] |];
      rewrite ?app_assoc;
      try (change [EvDelete (bucket env) key; EvNotifyFinish]
             with ([EvDelete (bucket env) key] ++ [EvNotifyFinish])%list;
           rewrite app_assoc);
      apply last_last.
Qed.

Lemma upload_empty_body_witness :
  exists f' tr',
    upload demo_env
      (mkRequest [("X-Upload-Size", "1000"); ("X-Upload-Filename", "a.txt")]
         "text/plain")
      (mkBackend (Some created) [] (fun _ => 204))
      (mkWorld None [] 0%nat []) =
      (Ok tt, mkWorld (Some f') [] 1%nat tr') /\
    attempts tr' = 0%nat /\ _size f' = Some 1000 /\ _current_upload f' = 0.
Proof.
  destruct (@upload_empty_body demo_env
              (mkRequest [("X-Upload-Size", "1000");
                          ("X-Upload-Filename", "a.txt")] "text/plain")
              (mkBackend (Some created) [] (fun _ => 204))
              None 0%nat [] "1000" 1000 "a.txt" created
              "http://backend/session"
              eq_refl eq_refl eq_refl eq_refl eq_refl eq_refl)
    as (f' & tr' & Hrun & Hatt & Hsz & Hcu & _).
  exists f', tr'. repeat split; assumption.
Defined.

(** X15.  [upload] refuses a request without [X-Upload-Size] before any
    call and before reading the body, but not before it has replaced the
    checksum and the extension of a file that exists by those of the
    refused request, which are none when the headers are absent. *)
Theorem upload_missing_size env req b f body k tr :
  hget "X-UPLOAD-SIZE" (req_headers req) = None ->
  exists f',
    upload env req b (mkWorld (Some f) body k tr) =
      (Raise (AttributeError "x-upload-size header needed"),
       mkWorld (Some f') body k tr) /\
    md5 f' = hget "X-UPLOAD-MD5HASH" (req_headers req) /\
    extension f' = hget "X-UPLOAD-EXTENSION" (req_headers req) /\
    (filename f', _size f', _current_upload f', _upload_file_id f', _uri f',
     _resumable_uri f') =
    (filename f, _size f, _current_upload f, _upload_file_id f, _uri f,
     _resumable_uri f).
Proof.
  intros Hsz. rewrite upload_headers_run, Hsz.
  exists (upload_reset req (Some f)). repeat split.
Qed.

Lemma upload_missing_size_witness :
  exists f',
    upload demo_env (mkRequest [] "text/plain") (answering [])
      (mkWorld (Some (set_md5hash (Some "abc") (demo_file 10 0)))
         [x00] 0%nat []) =
      (Raise (AttributeError "x-upload-size header needed"),
       mkWorld (Some f') [x00] 0%nat []) /\
    md5 f' = None.
Proof.
  destruct (@upload_missing_size demo_env (mkRequest [] "text/plain")
              (answering [])
              (set_md5hash (Some "abc") (demo_file 10 0)) [x00] 0%nat []
              eq_refl)
    as (f' & Hrun & Hmd5 & _).
  exists f'. split; [exact Hrun | exact Hmd5].
Defined.

(** X16.  [upload] gives up like Patch does: when the backend answers the
    appends with statuses that are none of 200, 201 and 308, it raises the
    max-retries error after six PUTs, the accepted offset still 0; nothing
    is cleaned up, the pending object stays the file's pending object and
    [finishUpload] is not reached. *)
Theorem upload_max_retries env req b sl body k tr v n name call loc :
  hget "X-UPLOAD-SIZE" (req_headers req) = Some v -> Py.int v = Some n ->
  upload_name env req k = Some name ->
  post_answer b = Some call -> status call = 200 ->
  hget "Location" (rheaders call) = Some loc ->
  1 <= Py.len body ->
  (5 < List.length (put_answers b))%nat ->
  forallb (fun a => negb (status_in (status a) [200; 201; 308]))
    (firstn 6 (put_answers b)) = true ->
  exists w',
    upload env req b (mkWorld sl body k tr) =
      (Raise (AttributeError "MAX retries error"), w') /\
    attempts (trace w') = (attempts tr + 6)%nat /\
    on_file _current_upload w' = Some 0 /\
    on_file _upload_file_id w' =
      Some (Some (Some (pending_key env (k + upload_uuids req)))) /\
    on_file _uri w' = Some (_uri (file_or_new req sl)).
Proof.
  intros Hv Hn Hname Hpost Hst Hloc Hbody Hlen Hall.
  rewrite upload_headers_run, Hv, Hn, Hname. unfold upload_tail.
  unfold bind at 1.
  rewrite (@initUpload_run env b (upload_file req n name sl) n call body
             (k + upload_uuids req)%nat tr eq_refl Hpost).
  cbv zeta. rewrite Hst, Hloc. cbn [Z.eqb Pos.eqb negb].
  unfold bind at 1. rewrite read_or_partial_run.
  unfold set_content. cbn [content slot uuid_count trace].
  assert (Hdata : 1 <= Py.len (firstn (Z.to_nat CHUNK_SIZE) body)).
  { unfold Py.len in *. rewrite length_firstn. unfold CHUNK_SIZE. lia. }
  unfold bind at 1.
  match goal with
  | |- context [upload_loop _ _ _ (mkWorld (Some ?f) ?bd ?kk ?t)] =>
      destruct (@upload_loop_retries f n loc bd kk eq_refl eq_refl 5%nat
                  (put_answers b) (firstn (Z.to_nat CHUNK_SIZE) body) 0 t
                  eq_refl Hlen Hall Hdata) as (evs & Hrun & Hevs)
  end.
  match goal with
  | |- context [upload_loop ?an ?d ?c ?w0] =>
      change (upload_loop an d c w0) with
        (upload_loop (put_answers b)
           (Some (firstn (Z.to_nat CHUNK_SIZE) body)) 0 w0)
  end.
  eapply eq_ind_r with (y := upload_loop _ _ _ _) (x := (_, _));
    [| exact Hrun].
  eexists. split; [reflexivity |]. cbn [trace]. split; [| repeat split].
  rewrite !attempts_app, attempts_init_delete, Hevs. cbn. lia.
Qed.

Lemma upload_max_retries_witness :
  exists w',
    upload demo_env
      (mkRequest [("X-Upload-Size", "3"); ("X-Upload-Filename", "a.txt")]
         "text/plain")
      (mkBackend (Some created)
         [unavailable; unavailable; unavailable; unavailable; unavailable;
          unavailable; complete] (fun _ => 204))
      (mkWorld None [x00; x00; x00] 0%nat []) =
      (Raise (AttributeError "MAX retries error"), w') /\
    attempts (trace w') = 6%nat.
Proof.
  destruct (@upload_max_retries demo_env
              (mkRequest [("X-Upload-Size", "3");
                          ("X-Upload-Filename", "a.txt")] "text/plain")
              (mkBackend (Some created)
                 [unavailable; unavailable; unavailable; unavailable;
                  unavailable; unavailable; complete] (fun _ => 204))
              None [x00; x00; x00] 0%nat [] "3" 3 "a.txt" created
              "http://backend/session"
              eq_refl eq_refl eq_refl eq_refl eq_refl eq_refl)
    as (w' & Hrun & Hatt & _).
  - unfold Py.len. cbn. lia.
  - cbn. lia.
  - reflexivity.
  - exists w'. split; [exact Hrun | exact Hatt].
Defined.

Lemma skipn_last {A} (l : list A) (d : A) :
  l <> [] -> skipn (List.length l - 1) l = [List.last l d].
Proof.
  induction l as [| x l IH]; [congruence | intros _].
  destruct l as [| y l]; [reflexivity |].
  replace (List.length (x :: y :: l) - 1)%nat
    with (S (List.length (y :: l) - 1)) by (cbn [List.length]; lia).
  cbn [skipn]. rewrite IH by discriminate. reflexivity.
Qed.

(** X17.  The loop of [upload] slides its window one byte short.  When the
    backend acknowledges every byte of the chunk it was sent (status 308,
    [Range] ending at the index of the last one), the stored offset is
    that index, the buffer keeps the last byte of the chunk, one byte less
    than the chunk is read from the client, and the next turn has a chunk
    of the same length that starts with a byte the backend already has,
    at its index. *)
Theorem upload_turn_resends_last_byte f sz uri data count txt body k tr :
  _size f = Some sz ->
  _resumable_uri f = Some uri ->
  0 <= _current_upload f ->
  1 <= Py.len data ->
  let last := _current_upload f + Py.len data - 1 in
  let a := mkReply 308 [("Range", "bytes=0-" ++ Py.str last)] txt in
  let more := firstn (Z.to_nat (Py.len data - 1)) body in
  upload_turn data count (Some a) (mkWorld (Some f) body k tr) =
    (Ok (Again (Some (List.last data x00 :: more)) 0),
     mkWorld (Some (set_current_upload last f))
       (skipn (Z.to_nat (Py.len data - 1)) body) k
       (tr ++ [put_event f uri sz data])%list).
Proof.
  intros Hsz Huri Hcur Hlen last a more.
  assert (Hrng : range_end a = Ok last)
    by (apply range_end_ack; unfold last; lia).
  unfold upload_turn. unfold bind at 1. cbn [self slot].
  unfold bind at 1.
  rewrite (@appendData_continue f sz uri data a last body k tr Hsz Huri
             eq_refl Hrng).
  unfold bind at 1. cbn [self slot _current_upload set_current_upload].
  change (status a) with 308.
  change (status_in 308 [200; 201]) with false.
  cbn [Z.eqb Pos.eqb].
  replace (last - _current_upload f) with (Py.len data - 1)
    by (unfold last; lia).
  unfold bind at 1. rewrite read_or_partial_run.
  unfold set_content, ret. cbn [content slot uuid_count trace].
  assert (Hslice : Py.slice_from (Py.len data - 1) data = [List.last data x00]).
  { unfold Py.slice_from.
    destruct (Z.ltb_spec (Py.len data - 1) 0) as [Hneg | _]; [lia |].
    unfold Py.len in *.
    replace (Z.to_nat (Z.of_nat (List.length data) - 1))
      with (List.length data - 1)%nat by lia.
    apply skipn_last. destruct data; [cbn in Hlen; lia | discriminate]. }
  rewrite Hslice. reflexivity.
Qed.

Lemma upload_turn_resends_last_byte_witness :
  upload_turn [x01; x02; x03] 0
    (Some (mkReply 308 [("Range", "bytes=0-" ++ Py.str 2)] ""))
    (mkWorld (Some (demo_file 10 0)) [x04; x05; x06] 0%nat []) =
    (Ok (Again (Some [x03; x04; x05]) 0),
     mkWorld (Some (set_current_upload 2 (demo_file 10 0))) [x06] 0%nat
       [put_event (demo_file 10 0) "http://backend/session" 10
          [x01; x02; x03]]).
Proof.
  apply (@upload_turn_resends_last_byte (demo_file 10 0) 10
           "http://backend/session" [x01; x02; x03] 0 "" [x04; x05; x06]
           0%nat [] eq_refl eq_refl).
  - cbn. lia.
  - unfold Py.len. cbn. lia.
Defined.

(** ** A new file and its extension *)

Lemma list_ascii_of_string_app s1 s2 :
  list_ascii_of_string (s1 ++ s2) =
  (list_ascii_of_string s1 ++ list_ascii_of_string s2)%list.
Proof.
  induction s1 as [| c s1 IH]; [reflexivity |].
  cbn. rewrite IH. reflexivity.
Qed.

Lemma contains_char_forallb c s :
  contains_char c s = false ->
  forallb (fun c' => negb (Ascii.eqb c' c)) (list_ascii_of_string s) = true.
Proof.
  induction s as [| c' s IH]; [reflexivity |].
  cbn. intros H. apply orb_false_iff in H as [Hc Hs].
  rewrite Hc, (IH Hs). reflexivity.
Qed.

Lemma split_chars_cons sep l : forall cur,
  exists p ps, Py.split_chars sep cur l = p :: ps.
Proof.
  induction l as [| c l IH]; intros cur; cbn [Py.split_chars].
  - eauto.
  - destruct (Ascii.eqb c sep); [eauto | apply IH].
Qed.

(** The pieces of a string that holds the separator: there are at least
    two, and the last is what follows the last separator. *)
Lemma split_chars_last sep pre post :
  forallb (fun c => negb (Ascii.eqb c sep)) post = true ->
  forall cur,
    let pieces := Py.split_chars sep cur (pre ++ sep :: post) in
    (1 <? Py.len pieces) = true /\
    List.last pieces EmptyString = string_of_list_ascii post.
Proof.
  intros Hpost. induction pre as [| c pre IH]; intros cur; cbv zeta.
  - cbn [List.app Py.split_chars]. rewrite Ascii.eqb_refl.
    rewrite (@split_chars_no_sep sep post [] Hpost). cbn [List.rev List.app].
    split; reflexivity.
  - cbn [List.app Py.split_chars]. destruct (Ascii.eqb c sep).
    + destruct (IH []) as [Hlen Hlast]. cbv zeta in Hlen, Hlast.
      destruct (@split_chars_cons sep (pre ++ sep :: post) [])
        as (p & ps & Hp).
      rewrite Hp in *. split.
      * unfold Py.len in *. cbn [List.length] in *.
        apply Z.ltb_lt. lia.
      * exact Hlast.
    + apply IH.
Qed.

(** X18.  The extension a new file discovers in its name is what follows
    the last dot, and a name without a dot gives none: the attribute is
    not set and the property answers [None]. *)
Theorem init_file_extension ct stem ext :
  contains_char "." ext = false ->
  extension (init_file ct (Some (stem ++ "." ++ ext))) = Some ext /\
  filename (init_file ct (Some (stem ++ "." ++ ext)))
    = Some (stem ++ "." ++ ext) /\
  extension (init_file ct (Some ext)) = None /\
  _extension (init_file ct (Some ext)) = None.
Proof.
  intros Hext. apply contains_char_forallb in Hext.
  unfold init_file, Py.split, last_piece.
  rewrite list_ascii_of_string_app.
  change (list_ascii_of_string ("." ++ ext))
    with ("."%char :: list_ascii_of_string ext).
  destruct (@split_chars_last "." (list_ascii_of_string stem)
              (list_ascii_of_string ext) Hext []) as [Hlen Hlast].
  cbv zeta in Hlen, Hlast. cbv zeta. rewrite Hlen, Hlast.
  rewrite string_of_list_ascii_of_string.
  rewrite (@split_chars_no_sep "." (list_ascii_of_string ext) [] Hext).
  repeat split.
Qed.

Lemma init_file_extension_witness :
  extension (init_file "application/gzip" (Some "backup.tar.gz")) = Some "gz" /\
  extension (init_file "text/plain" (Some "gz")) = None.
Proof.
  destruct (@init_file_extension "application/gzip" "backup.tar" "gz" eq_refl)
    as (H1 & _ & _ & _).
  destruct (@init_file_extension "text/plain" "backup.tar" "gz" eq_refl)
    as (_ & _ & H3 & _).
  split; [exact H1 | exact H3].
Defined.

(** ** Download *)

Lemma download_turn_empty chunk out :
  download_turn chunk (mkBytesIO [] 0) out =
  ((out ++ chunk)%list, mkBytesIO [] 0).
Proof.
  unfold download_turn, buf_write, buf_seek0, buf_read, buf_truncate.
  cbn. rewrite skipn_nil, app_nil_r. reflexivity.
Qed.

Lemma download_loop_empty chunks : forall out,
  download_loop chunks (mkBytesIO [] 0) out =
  ((out ++ List.concat chunks)%list, mkBytesIO [] 0).
Proof.
  induction chunks as [| chunk rest IH]; intros out.
  - cbn [download_loop List.concat]. apply download_turn_empty.
  - cbn [download_loop List.concat]. destruct rest as [| chunk' rest].
    + rewrite download_turn_empty. cbn [List.concat]. rewrite app_nil_r.
      reflexivity.
    + rewrite download_turn_empty, IH, <- app_assoc. reflexivity.
Qed.

(** X19.  What a download answers.  The body is the pieces the downloader
    fetched, each once and in order: the buffer they pass through is
    emptied after every piece.  The length is announced only for a
    declared size that is not 0, and the name is in the disposition
    header as it is, [None] included.  Without a file there is an
    [AttributeError]. *)
Theorem download_streams f media resp :
  download (Some f) media = Ok resp ->
  exists key,
    download_key f = Ok key /\
    sr_body resp = List.concat (media key) /\
    sr_content_type resp = contentType f /\
    sr_content_length resp =
      match _size f with
      | Some 0 => None
      | s => s
      end /\
    hget "Content-Disposition" (sr_headers resp) =
      Some ("attachment; filename=" ++ dquote ++ format_s (filename f)
            ++ dquote) /\
    download None media = Raise (AttributeError "No field value").
Proof.
  unfold download. destruct (download_key f) as [key | e]; [| discriminate].
  rewrite download_loop_empty. intros [= <-]. exists key. cbn.
  repeat split. unfold size, truthy_int.
  destruct (_size f) as [[| p | p] |]; reflexivity.
Qed.

Lemma download_streams_witness :
  exists resp,
    download (Some (demo_file 3 3)) (fun _ => [[x01; x02]; [x03]]) = Ok resp /\
    sr_body resp = [x01; x02; x03] /\
    sr_content_length resp = Some 3.
Proof.
  destruct (download (Some (demo_file 3 3)) (fun _ => [[x01; x02]; [x03]]))
    as [resp | e] eqn:Hrun; [| vm_compute in Hrun; discriminate].
  destruct (@download_streams (demo_file 3 3) (fun _ => [[x01; x02]; [x03]])
              resp Hrun) as (key & _ & Hbody & _ & Hlen & _).
  exists resp. repeat split; assumption.
Defined.

(** X20.  Which object a download fetches.  While an upload is in
    progress on a file that has a committed object, it is still the
    committed one; on a file that never had one, it is the pending object
    of the upload in progress; and once [finishUpload] has run it is the
    object that was pending. *)
Theorem download_key_during_upload env b f sz body k tr w1 r w2 :
  _size f = Some sz ->
  initUpload env b (mkWorld (Some f) body k tr) = (Ok tt, w1) ->
  finishUpload env b w1 = (r, w2) ->
  exists f1 f2,
    slot w1 = Some f1 /\ slot w2 = Some f2 /\ r = Ok tt /\
    download_key f1 =
      Ok (match _uri f with
          | Some committed => committed
          | None => Some (pending_key env k)
          end) /\
    download_key f2 = Ok (Some (pending_key env k)).
Proof.
  intros Hsz Hinit Hfin.
  apply (@initUpload_ok_inv env b f sz body k tr w1 Hsz) in Hinit
    as (call & loc & _ & _ & _ & ->).
  rewrite (@finishUpload_run env b (initiated env k loc f)
             (Some (pending_key env k)) body (S k) _ eq_refl) in Hfin.
  apply pair_equal_spec in Hfin as [<- <-].
  eexists. eexists. cbn [slot].
  split; [reflexivity |]. split; [reflexivity |]. split; [reflexivity |].
  split; [| reflexivity].
  unfold download_key, initiated. cbn. destruct (_uri f); reflexivity.
Qed.

Lemma download_key_during_upload_witness :
  let b := mkBackend (Some created) [] (fun _ => 204) in
  exists w1 w2 f1 f2,
    initUpload demo_env b (mkWorld (Some replacing_file) [] 0%nat []) =
      (Ok tt, w1) /\
    finishUpload demo_env b w1 = (Ok tt, w2) /\
    slot w1 = Some f1 /\ slot w2 = Some f2 /\
    download_key f1 = Ok (match _uri replacing_file with
                          | Some committed => committed
                          | None => Some (pending_key demo_env 0)
                          end) /\
    download_key f2 = Ok (Some (pending_key demo_env 0)).
Proof.
  intros b.
  destruct (initUpload demo_env b (mkWorld (Some replacing_file) [] 0%nat []))
    as [[[] |] w1] eqn:Hinit; [| vm_compute in Hinit; discriminate].
  destruct (finishUpload demo_env b w1) as [r w2] eqn:Hfin.
  destruct (@download_key_during_upload demo_env b replacing_file 10 []
              0%nat [] w1 r w2 eq_refl Hinit Hfin)
    as (f1 & f2 & H1 & H2 & -> & Hk1 & Hk2).
  exists w1, w2, f1, f2. repeat split; assumption.
Defined.

(** ** The bucket *)

Lemma lower_upper_char c : lower_char (Py.upper_char c) = lower_char c.
Proof.
  destruct c as [[] [] [] [] [] [] [] []]; reflexivity.
Qed.

Lemma lower_upper s : lower (Py.upper s) = lower s.
Proof.
  induction s as [| c s IH]; [reflexivity |].
  cbn. rewrite lower_upper_char, IH. reflexivity.
Qed.

(** X21.  The bucket of a site.  Its name is the site id in lower case,
    the configured name, and between them a dot when the configured name
    has a dot and an underscore otherwise, so that site ids that differ in
    case only share a bucket.  After the property was read the bucket
    exists, the buckets that existed are all there, and reading it again
    creates nothing. *)
Theorem bucket_is_there site configured existing :
  let r := bucket_property site configured existing in
  fst r =
    lower site ++ (if contains_char "." configured then "." else "_")
    ++ configured /\
  fst (bucket_property (Py.upper site) configured existing) = fst r /\
  In (fst r) (snd r) /\
  incl existing (snd r) /\
  bucket_property site configured (snd r) = r /\
  (In (fst r) existing -> snd r = existing).
Proof.
  cbv zeta. unfold bucket_property.
  assert (Hup : bucket_name (Py.upper site) configured
                = bucket_name site configured)
    by (unfold bucket_name; rewrite lower_upper; reflexivity).
  rewrite Hup.
  destruct (existsb (String.eqb (bucket_name site configured)) existing)
    eqn:Hex; cbn [fst snd].
  - rewrite Hex. repeat split.
    + apply existsb_exists in Hex as (x & Hin & Heq).
      apply String.eqb_eq in Heq. subst x. exact Hin.
    + apply incl_refl.
  - cbn [existsb]. rewrite String.eqb_refl. cbn [orb]. repeat split.
    + left. reflexivity.
    + apply incl_tl, incl_refl.
    + intros Hin. exfalso.
      assert (Hex' : existsb (String.eqb (bucket_name site configured))
                       existing = true).
      { apply existsb_exists. eexists. split; [exact Hin |].
        apply String.eqb_refl. }
      congruence.
Qed.

Lemma bucket_is_there_witness :
  bucket_property "Site" "files.example" [] =
    ("site.files.example", ["site.files.example"]) /\
  bucket_property "SITE" "files" ["site_files"] =
    ("site_files", ["site_files"]).
Proof.
  destruct (@bucket_is_there "Site" "files.example" [])
    as (H1 & _ & _ & _ & _ & _).
  destruct (@bucket_is_there "SITE" "files" ["site_files"])
    as (H2 & _ & _ & _ & _ & H3).
  cbv zeta in H1, H2, H3. split.
  - reflexivity.
  - apply injective_projections; [exact H2 | apply H3; left; reflexivity].
Defined.

(** ** An initiation that the backend refuses *)

(** X22.  [initUpload] is not atomic either.  When the backend answers the
    POST with a status other than 200, the exception comes after the
    pending object of the file was deleted and its key replaced by a new
    one, for which there is no session; the session URI, the offset and
    the committed object of the file are as before. *)
Theorem initUpload_refused_state env b f sz call body k tr :
  _size f = Some sz ->
  post_answer b = Some call ->
  status call <> 200 ->
  exists f',
    initUpload env b (mkWorld (Some f) body k tr) =
      (Raise (GoogleCloudException (text call)),
       mkWorld (Some f') body (S k)
         ((tr ++ init_delete env f) ++ [post_event env f sz k])%list) /\
    _upload_file_id f' = Some (Some (pending_key env k)) /\
    (forall old, _upload_file_id f = Some (Some old) ->
                 init_delete env f = [EvDelete (bucket env) old]) /\
    (_resumable_uri f', _current_upload f', _uri f', _resumable_uri_date f') =
    (_resumable_uri f, _current_upload f, _uri f, _resumable_uri_date f).
Proof.
  intros Hsz Hpost Hst.
  rewrite (@initUpload_run env b f sz call body k tr Hsz Hpost). cbv zeta.
  destruct (Z.eqb_spec (status call) 200) as [E | _]; [contradiction |].
  cbn [negb]. eexists. split; [reflexivity |]. repeat split.
  intros old Hold. unfold init_delete. rewrite Hold. reflexivity.
Qed.

Lemma initUpload_refused_state_witness :
  exists f',
    initUpload demo_env (mkBackend (Some unavailable) [] (fun _ => 204))
      (mkWorld (Some (demo_file 10 4)) [] 0%nat []) =
      (Raise (GoogleCloudException ""),
       mkWorld (Some f') [] 1%nat
         [EvDelete "bucket" "site/pending";
          post_event demo_env (demo_file 10 4) 10 0]) /\
    _upload_file_id f' = Some (Some (pending_key demo_env 0)) /\
    _resumable_uri f' = Some "http://backend/session" /\
    _current_upload f' = 4.
Proof.
  destruct (@initUpload_refused_state demo_env
              (mkBackend (Some unavailable) [] (fun _ => 204))
              (demo_file 10 4) 10 unavailable [] 0%nat []
              eq_refl eq_refl)
    as (f' & Hrun & Hid & _ & Hrest).
  - cbn. lia.
  - injection Hrest as Huri Hcu _ _.
    exists f'. repeat split; assumption.
Defined.

(** ** What every entry point keeps *)

Lemma orderly_refl w : orderly w w.
Proof.
  split; [exists [] | exists []];
    [split; [symmetry; apply app_nil_r | reflexivity] | reflexivity].
Qed.

Lemma orderly_trans w1 w2 w3 : orderly w1 w2 -> orderly w2 w3 -> orderly w1 w3.
Proof.
  intros [(e1 & H1 & F1) (r1 & C1)] [(e2 & H2 & F2) (r2 & C2)]. split.
  - exists (e1 ++ e2)%list. split.
    + rewrite H2, H1, app_assoc. reflexivity.
    + rewrite forallb_app, F1, F2. reflexivity.
  - exists (r1 ++ r2)%list. rewrite C1, C2, app_assoc. reflexivity.
Qed.

Lemma disciplined_ret {A} (a : A) : disciplined (ret a).
Proof. apply safe_ret, orderly_refl. Qed.

Lemma disciplined_raise {A} e : handled e -> disciplined (@raise A e).
Proof. apply safe_raise, orderly_refl. Qed.

Lemma disciplined_bind {A B} (m : M A) (k : A -> M B) :
  disciplined m -> (forall a, disciplined (k a)) -> disciplined (bind m k).
Proof. apply safe_bind, orderly_trans. Qed.

Lemma disciplined_of_option {A} e (o : option A) :
  handled e -> disciplined (of_option e o).
Proof. apply safe_of_option, orderly_refl. Qed.

Lemma disciplined_self : disciplined self.
Proof. apply safe_self; [apply orderly_refl | exact I]. Qed.

(** A step that makes no call and reads nothing. *)
Lemma disciplined_still {A} (m : M A) :
  (forall w r w', m w = (r, w') ->
     trace w' = trace w /\ content w' = content w /\
     forall e, r = Raise e -> handled e) ->
  disciplined m.
Proof.
  intros H w r w' Hm. destruct (H _ _ _ Hm) as (Ht & Hc & He).
  split; [| exact He]. split.
  - exists []. rewrite Ht, app_nil_r. split; reflexivity.
  - exists []. rewrite Hc. reflexivity.
Qed.

Lemma disciplined_update g : disciplined (update g).
Proof.
  apply disciplined_still. intros w r w' H. unfold update in H.
  destruct (slot w); apply pair_equal_spec in H as [<- <-];
    repeat split; intros e [= <-]; exact I.
Qed.

Lemma disciplined_uuid4 env : disciplined (uuid4 env).
Proof.
  apply disciplined_still. intros w r w' H. unfold uuid4 in H.
  apply pair_equal_spec in H as [<- <-]. repeat split. intros e [=].
Qed.

Lemma disciplined_get_or_create_file req :
  disciplined (get_or_create_file req).
Proof.
  apply disciplined_still. intros w r w' H. unfold get_or_create_file in H.
  destruct (slot w); apply pair_equal_spec in H as [<- <-];
    repeat split; intros e [=].
Qed.

Lemma disciplined_emit e : put_nonempty e = true -> disciplined (emit e).
Proof.
  intros He w r w' H. unfold emit in H. apply pair_equal_spec in H as [<- <-].
  split; [split |].
  - exists [e]. split; [reflexivity |]. cbn. rewrite He. reflexivity.
  - exists []. reflexivity.
  - intros e' [=].
Qed.

Lemma disciplined_read_or_partial n : disciplined (read_or_partial n).
Proof.
  intros w r w' H. rewrite read_or_partial_run in H.
  apply pair_equal_spec in H as [<- <-]. split; [split |].
  - exists []. split; [symmetry; apply app_nil_r | reflexivity].
  - exists (firstn (Z.to_nat n) (content w)). symmetry. apply firstn_skipn.
  - intros e [=].
Qed.

Lemma disciplined_delete_best_effort env b key :
  disciplined (delete_best_effort env b key).
Proof.
  intros w r w' H. rewrite delete_best_effort_run in H.
  apply pair_equal_spec in H as [<- <-]. split; [split |].
  - eexists. split; reflexivity.
  - exists []. reflexivity.
  - intros e [=].
Qed.

Lemma disciplined_range_end call : disciplined (lift (range_end call)).
Proof.
  apply safe_lift; [apply orderly_refl |].
  unfold range_end. intros e.
  destruct (hget "Range" (rheaders call)); [| intros [= <-]; exact I].
  destruct (nth_error (Py.split "-" s) 1); [| intros [= <-]; exact I].
  destruct (Py.int s0); [discriminate | intros [= <-]; exact I].
Qed.

Ltac disciplined_step :=
  first
    [ apply disciplined_bind; [| intros ? ]
    | apply disciplined_ret
    | apply disciplined_self
    | apply disciplined_update
    | apply disciplined_uuid4
    | apply disciplined_get_or_create_file
    | apply disciplined_read_or_partial
    | apply disciplined_delete_best_effort
    | apply disciplined_range_end
    | apply disciplined_emit; reflexivity
    | apply disciplined_of_option; exact I
    | apply disciplined_raise; exact I ].

Ltac disciplined_auto :=
  repeat match goal with
         | |- disciplined (if ?c then _ else _) => destruct c
         | |- disciplined (match ?x with _ => _ end) => destruct x
         | _ => disciplined_step
         end.

(** The appends are made on chunks that hold a byte. *)
Lemma disciplined_appendData x d a : disciplined (appendData (x :: d) a).
Proof. unfold appendData, attr, answer. disciplined_auto. Qed.

Lemma disciplined_finishUpload env b : disciplined (finishUpload env b).
Proof. unfold finishUpload, attr. disciplined_auto. Qed.

Lemma disciplined_initUpload env b : disciplined (initUpload env b).
Proof. unfold initUpload, attr, answer. disciplined_auto. Qed.

Lemma disciplined_patch_turn env b x d count a :
  disciplined (patch_turn env b (x :: d) count a).
Proof.
  unfold patch_turn, iadd.
  apply disciplined_bind; [apply disciplined_self | intros f].
  apply disciplined_bind; [apply disciplined_appendData | intros resp].
  apply disciplined_bind; [apply disciplined_self | intros f'].
  apply disciplined_bind.
  - destruct (status_in (status resp) [200; 201]); [| apply disciplined_ret].
    apply disciplined_bind;
      [apply disciplined_finishUpload | intros; apply disciplined_ret].
  - intros data'. disciplined_auto.
Qed.

Lemma disciplined_patch_loop env b answers :
  forall data count, disciplined (patch_loop env b answers data count).
Proof.
  induction answers as [| a answers IH]; intros data count;
    destruct data as [[| x d] |]; cbn [patch_loop];
    try apply disciplined_ret.
  - apply disciplined_bind;
      [apply disciplined_patch_turn | intros; apply disciplined_ret].
  - apply disciplined_bind; [apply disciplined_patch_turn |].
    intros [| data' count']; [apply disciplined_ret | apply IH].
Qed.

Lemma disciplined_upload_turn x d count a :
  disciplined (upload_turn (x :: d) count a).
Proof.
  unfold upload_turn.
  apply disciplined_bind; [apply disciplined_self | intros f].
  apply disciplined_bind; [apply disciplined_appendData | intros resp].
  disciplined_auto.
Qed.

Lemma disciplined_upload_loop answers :
  forall data count, disciplined (upload_loop answers data count).
Proof.
  induction answers as [| a answers IH]; intros data count;
    destruct data as [[| x d] |]; cbn [upload_loop];
    try apply disciplined_ret.
  - apply disciplined_bind;
      [apply disciplined_upload_turn | intros; apply disciplined_ret].
  - apply disciplined_bind; [apply disciplined_upload_turn |].
    intros [| data' count']; [apply disciplined_ret | apply IH].
Qed.

Lemma disciplined_tus_patch env req b : disciplined (tus_patch env req b).
Proof.
  unfold tus_patch, attr.
  apply disciplined_bind.
  { disciplined_auto. }
  intros to_upload. apply disciplined_bind.
  { disciplined_auto. }
  intros _. apply disciplined_bind; [apply disciplined_read_or_partial |].
  intros data. apply disciplined_bind; [apply disciplined_patch_loop |].
  intros _. disciplined_auto.
Qed.

(** X23.  What every entry point keeps, whatever the request, the state
    and the answers of the backend: calls are only added to those made,
    no PUT is made without a byte, the request body is only read from its
    front, and neither a short read nor a refused delete comes out as an
    exception. *)
Theorem entry_points_disciplined env req b :
  disciplined (upload env req b) /\
  disciplined (tus_create env req b) /\
  disciplined (tus_patch env req b) /\
  disciplined (tus_head env) /\
  disciplined tus_options.
Proof.
  split; [| split; [| split; [| split]]].
  - unfold upload.
    do 5 (apply disciplined_bind; [unfold hmem; disciplined_auto | intros _]).
    apply disciplined_bind; [apply disciplined_initUpload | intros _].
    apply disciplined_bind; [apply disciplined_read_or_partial | intros data].
    apply disciplined_bind; [apply disciplined_upload_loop | intros _].
    apply disciplined_finishUpload.
  - unfold tus_create.
    destruct (method_override_is_patch req);
      [apply disciplined_tus_patch |].
    do 7 (apply disciplined_bind; [unfold hmem; disciplined_auto | intros _]).
    apply disciplined_bind; [apply disciplined_initUpload | intros _].
    apply disciplined_ret.
  - apply disciplined_tus_patch.
  - apply disciplined_still. intros w r w' H. unfold tus_head in H.
    destruct (slot w) as [f |].
    + destruct (truthy_int (size f)).
      * destruct (_size f); apply pair_equal_spec in H as [<- <-];
          repeat split; intros e [= <-]; exact I.
      * apply pair_equal_spec in H as [<- <-]. repeat split. intros e [=].
    + apply pair_equal_spec in H as [<- <-]. repeat split.
      intros e [= <-]. exact I.
  - apply disciplined_ret.
Qed.

(** ** Whole uploads *)

Lemma status_complete_not_continue a :
  status_in (status a) [200; 201] = true -> (status a =? 308) = false.
Proof.
  intros H200. destruct (Z.eqb_spec (status a) 308) as [E | E];
    [| reflexivity].
  rewrite E in H200. discriminate.
Qed.

Lemma upload_turn_complete f sz uri data count a body k tr :
  _size f = Some sz ->
  _resumable_uri f = Some uri ->
  status_in (status a) [200; 201] = true ->
  upload_turn data count (Some a) (mkWorld (Some f) body k tr) =
    (Ok Break,
     mkWorld (Some (set_current_upload sz f)) body k
       (tr ++ [put_event f uri sz data])%list).
Proof.
  intros Hsz Huri H200.
  pose proof (status_complete_not_continue a H200) as H308.
  unfold upload_turn. unfold bind at 1. cbn [self slot].
  unfold bind at 1.
  rewrite (@appendData_run f sz uri data a body k tr Hsz Huri).
  rewrite H308, H200. cbv zeta.
  unfold bind at 1. cbn [self slot]. rewrite H200. reflexivity.
Qed.

Lemma upload_loop_cons a answers data count w :
  1 <= Py.len data ->
  upload_loop (a :: answers) (Some data) count w =
    (fl <- upload_turn data count (Some a) ;;
     match fl with
     | Break => ret tt
     | Again data' count' => upload_loop answers data' count'
     end) w.
Proof.
  intros H. destruct data as [| x d]; [unfold Py.len in H; cbn in H; lia |].
  reflexivity.
Qed.

(** X24.  An [upload] that the backend completes at the first append.  The
    first [CHUNK_SIZE] bytes of the body, or all of it when it is shorter,
    go out in one PUT as the range that starts at 0; the file is committed
    with the declared size as accepted offset, however many bytes were
    sent; what the body holds beyond the chunk is never read.  The calls
    are, in order: the clean-up of an old pending object, the POST, the
    initial notification, the PUT, the delete of the object committed
    before, the final notification. *)
Theorem upload_one_put env req b sl body k tr v n name call loc a rest :
  hget "X-UPLOAD-SIZE" (req_headers req) = Some v -> Py.int v = Some n ->
  upload_name env req k = Some name ->
  post_answer b = Some call -> status call = 200 ->
  hget "Location" (rheaders call) = Some loc ->
  1 <= Py.len body ->
  put_answers b = a :: rest ->
  status_in (status a) [200; 201] = true ->
  let f0 := upload_file req n name sl in
  let k' := (k + upload_uuids req)%nat in
  let f1 := initiated env k' loc f0 in
  let data := firstn (Z.to_nat CHUNK_SIZE) body in
  upload env req b (mkWorld sl body k tr) =
    (Ok tt,
     mkWorld (Some (finalized n (Some (pending_key env k')) f1))
       (skipn (Z.to_nat CHUNK_SIZE) body) (S k')
       (((((tr ++ init_delete env f0) ++ [post_event env f0 n k'])
          ++ [EvNotifyInitial])
         ++ [EvPut loc
               [("Content-Length", Py.str (Py.len data));
                ("Content-Type", contentType f0);
                ("Content-Range", content_range 0 (0 + Py.len data - 1) n)]
               data])
        ++ finish_events env f0)%list).
Proof.
  intros Hv Hn Hname Hpost Hst Hloc Hbody Hans H200 f0 k' f1 data.
  rewrite upload_headers_run, Hv, Hn, Hname. unfold upload_tail.
  unfold bind at 1.
  rewrite (@initUpload_run env b (upload_file req n name sl) n call body
             (k + upload_uuids req)%nat tr eq_refl Hpost).
  cbv zeta. rewrite Hst, Hloc. cbn [Z.eqb Pos.eqb negb].
  unfold bind at 1. rewrite read_or_partial_run.
  unfold set_content. cbn [content slot uuid_count trace].
  assert (Hdata : 1 <= Py.len data).
  { unfold data, Py.len in *. rewrite length_firstn. unfold CHUNK_SIZE. lia. }
  fold f0 k' data. rewrite Hans.
  unfold bind at 1. rewrite upload_loop_cons by exact Hdata.
  unfold bind at 1.
  match goal with
  | |- context [upload_turn _ _ _ (mkWorld (Some ?f) ?bd ?kk ?t)] =>
      rewrite (@upload_turn_complete f n loc data 0 a bd kk t eq_refl eq_refl
                 H200)
  end.
  unfold ret at 1.
  erewrite finishUpload_run by reflexivity.
  reflexivity.
Qed.

Lemma upload_one_put_witness :
  exists f' tr',
    upload demo_env
      (mkRequest [("X-Upload-Size", "3"); ("X-Upload-Filename", "a.txt")]
         "text/plain")
      (mkBackend (Some created) [complete] (fun _ => 204))
      (mkWorld None [x01; x02; x03] 0%nat []) =
      (Ok tt, mkWorld (Some f') [] 1%nat tr') /\
    attempts tr' = 1%nat /\ _current_upload f' = 3.
Proof.
  eexists. eexists. split.
  - apply (@upload_one_put demo_env
             (mkRequest [("X-Upload-Size", "3");
                         ("X-Upload-Filename", "a.txt")] "text/plain")
             (mkBackend (Some created) [complete] (fun _ => 204))
             None [x01; x02; x03] 0%nat [] "3" 3 "a.txt" created
             "http://backend/session" complete []
             eq_refl eq_refl eq_refl eq_refl eq_refl eq_refl).
    + unfold Py.len. cbn. lia.
    + reflexivity.
    + reflexivity.
  - split; reflexivity.
Defined.

Lemma appendData_without_session f data a body k tr :
  _size f = None \/ _resumable_uri f = None ->
  exists name,
    appendData data a (mkWorld (Some f) body k tr) =
      (Raise (AttributeError name), mkWorld (Some f) body k tr) /\
    (name = "_size" \/ name = "_resumable_uri").
Proof.
  intros H. unfold appendData, bind, self, attr, of_option, ret, raise.
  cbn [slot].
  destruct (_size f) as [sz |].
  - destruct H as [H | H]; [discriminate |]. rewrite H. eauto.
  - eauto.
Qed.

(** X25.  A Patch on a file for which no session was opened (a file that a
    rejected Create left, for one): with a chunk of at least one byte it
    raises [AttributeError] for the attribute that is missing, [_size] or
    [_resumable_uri], before any PUT; the chunk has been read from the
    body and the declared offset has been stored all the same. *)
Theorem tus_patch_without_session env req b f body k tr v1 n v2 off :
  hget "CONTENT-LENGTH" (req_headers req) = Some v1 ->
  Py.int v1 = Some n ->
  hget "UPLOAD-OFFSET" (req_headers req) = Some v2 ->
  Py.int v2 = Some off ->
  _size f = None \/ _resumable_uri f = None ->
  1 <= Py.len (firstn (Z.to_nat n) body) ->
  exists name,
    tus_patch env req b (mkWorld (Some f) body k tr) =
      (Raise (AttributeError name),
       mkWorld (Some (set_current_upload off f)) (skipn (Z.to_nat n) body)
         k tr) /\
    (name = "_size" \/ name = "_resumable_uri").
Proof.
  intros H1 H1' H2 H2' Hno Hlen.
  rewrite (@tus_patch_run env req b f body k tr v1 n v2 off H1 H1' H2 H2').
  destruct (len_pos_cons _ Hlen) as (x & d & Hd). rewrite Hd.
  assert (Hturn : forall a,
    exists name,
      patch_turn env b (x :: d) 0 a
        (mkWorld (Some (set_current_upload off f)) (skipn (Z.to_nat n) body)
           k tr) =
        (Raise (AttributeError name),
         mkWorld (Some (set_current_upload off f)) (skipn (Z.to_nat n) body)
           k tr) /\
      (name = "_size" \/ name = "_resumable_uri")).
  { intros a.
    destruct (@appendData_without_session (set_current_upload off f) (x :: d)
                a (skipn (Z.to_nat n) body) k tr Hno) as (name & Happ & Hname).
    exists name. split; [| exact Hname].
    unfold patch_turn. unfold bind at 1. cbn [self slot].
    unfold bind at 1. rewrite Happ. reflexivity. }
  unfold bind at 1.
  destruct (put_answers b) as [| a rest]; cbn [patch_loop].
  - destruct (Hturn None) as (name & Hrun & Hname).
    exists name. split; [| exact Hname].
    unfold bind at 1. rewrite Hrun. reflexivity.
  - destruct (Hturn (Some a)) as (name & Hrun & Hname).
    exists name. split; [| exact Hname].
    unfold bind at 1. rewrite Hrun. reflexivity.
Qed.

Lemma tus_patch_without_session_witness :
  exists name,
    tus_patch demo_env (patch_request 3 0) (answering [complete])
      (mkWorld (Some (set_size 3 (new_file "text/plain"))) [x01; x02; x03]
         0%nat []) =
      (Raise (AttributeError name),
       mkWorld (Some (set_current_upload 0 (set_size 3 (new_file "text/plain"))))
         [] 0%nat []) /\
    (name = "_size" \/ name = "_resumable_uri").
Proof.
  apply (@tus_patch_without_session demo_env (patch_request 3 0)
           (answering [complete]) (set_size 3 (new_file "text/plain"))
           [x01; x02; x03] 0%nat [] "3" 3 "0" 0
           eq_refl eq_refl eq_refl eq_refl).
  - right. reflexivity.
  - vm_compute. discriminate.
Defined.

(** A Create with well-formed headers and no metadata, answered by the
    backend with a session. *)
Lemma tus_create_opens env req b sl body k tr v c n call loc :
  method_override_is_patch req = false ->
  create_offset req = Some c ->
  hget "UPLOAD-LENGTH" (req_headers req) = Some v -> Py.int v = Some n ->
  hmem "TUS-RESUMABLE" (req_headers req) = true ->
  hget "UPLOAD-METADATA" (req_headers req) = None ->
  post_answer b = Some call -> status call = 200 ->
  hget "Location" (rheaders call) = Some loc ->
  let f0 :=
    set_filename (Some (uuid4_hex env k))
      (create_headers req c n (file_or_new req sl)) in
  tus_create env req b (mkWorld sl body k tr) =
    (Ok (create_response env),
     mkWorld (Some (initiated env (S k) loc f0)) body (S (S k))
       (((tr ++ init_delete env f0) ++ [post_event env f0 n (S k)])
        ++ [EvNotifyInitial])%list).
Proof.
  intros Hover Hc Hv Hn Htus Hmeta Hpost Hst Hloc f0.
  rewrite (@tus_create_headers_run env req b (mkWorld sl body k tr) v c n
             Hover Hc Hv Hn).
  cbn [slot]. unfold create_tail. rewrite Htus, Hmeta.
  cbn [negb]. unfold bind at 1. unfold ret at 1.
  unfold bind at 1. unfold bind at 1. unfold uuid4 at 1.
  unfold update at 1. unfold set_slot, set_uuid_count.
  cbn [slot content uuid_count trace].
  unfold bind at 1. fold f0.
  assert (Hsz : _size f0 = Some n).
  { unfold f0, create_headers.
    destruct (hget "UPLOAD-MD5" (req_headers req)),
      (hget "UPLOAD-EXTENSION" (req_headers req)); reflexivity. }
  rewrite (@initUpload_run env b f0 n call body (S k) tr Hsz Hpost).
  cbv zeta. rewrite Hst, Hloc. cbn [Z.eqb Pos.eqb negb]. reflexivity.
Qed.

(** X26.  Create, Patch and Head together.  A Create for [n] bytes opens
    the session; a Patch that sends a body of at least one byte from
    offset 0 and is completed by the backend at its first append commits
    the object; the Patch and a Head after it both report the declared
    size [n] as the offset, whatever the length of the body that was
    sent: that the upload is complete is the backend's word alone.  One
    PUT was made, and the body is read to its end. *)
Theorem create_patch_head_completes env b sl k tr body n call loc a rest :
  post_answer b = Some call -> status call = 200 ->
  hget "Location" (rheaders call) = Some loc ->
  1 <= Py.len body ->
  put_answers b = a :: rest ->
  status_in (status a) [200; 201] = true ->
  let creq :=
    mkRequest [("Upload-Length", Py.str n); ("Tus-Resumable", "1.0.0")]
      "application/octet-stream" in
  let preq := patch_request (Py.len body) 0 in
  exists w1 w2 r2 r3 f2,
    tus_create env creq b (mkWorld sl [] k tr) =
      (Ok (create_response env), w1) /\
    tus_patch env preq b (set_content body w1) = (Ok r2, w2) /\
    tus_head env w2 = (Ok r3, w2) /\
    hget "Upload-Offset" (resp_headers r2) = Some (Py.str n) /\
    hget "Upload-Offset" (resp_headers r3) = Some (Py.str n) /\
    slot w2 = Some f2 /\
    _uri f2 = Some (Some (pending_key env (S k))) /\
    _upload_file_id f2 = Some None /\
    _size f2 = Some n /\
    content w2 = [] /\
    attempts (trace w2) = (attempts tr + 1)%nat.
Proof.
  intros Hpost Hst Hloc Hbody Hans H200 creq preq.
  pose proof (@tus_create_opens env creq b sl [] k tr (Py.str n) 0 n call loc
                eq_refl eq_refl eq_refl (int_str n) eq_refl eq_refl
                Hpost Hst Hloc) as Hcreate.
  cbv zeta in Hcreate.
  set (f0 := set_filename (Some (uuid4_hex env k))
               (create_headers creq 0 n (file_or_new creq sl))) in *.
  set (f1 := initiated env (S k) loc f0) in *.
  assert (Hfirst : firstn (Z.to_nat (Py.len body)) body = body).
  { unfold Py.len. rewrite Nat2Z.id. apply firstn_all. }
  assert (Hskip : skipn (Z.to_nat (Py.len body)) body = []).
  { unfold Py.len. rewrite Nat2Z.id. apply skipn_all. }
  assert (Hsz : _size f1 = Some n) by (unfold f1, f0; destruct sl; reflexivity).
  assert (Hlen : 1 <= Py.len (firstn (Z.to_nat (Py.len body)) body))
    by (rewrite Hfirst; exact Hbody).
  pose proof (@tus_patch_complete_run env preq b f1 n loc
                (Some (pending_key env (S k))) (now env) body (S (S k))
                (((tr ++ init_delete env f0) ++ [post_event env f0 n (S k)])
                 ++ [EvNotifyInitial])%list
                (Py.str (Py.len body)) (Py.len body) (Py.str 0) 0 a rest
                eq_refl (int_str _) eq_refl (int_str _) Hsz eq_refl eq_refl
                eq_refl Hlen Hans H200) as Hpatch.
  rewrite Hskip in Hpatch.
  assert (Hhead : exists r3,
    tus_head env
      (mkWorld (Some (finalized n (Some (pending_key env (S k))) f1)) []
         (S (S k))
         (((((tr ++ init_delete env f0) ++ [post_event env f0 n (S k)])
            ++ [EvNotifyInitial])
           ++ [put_event (set_current_upload 0 f1) loc n
                 (firstn (Z.to_nat (Py.len body)) body)])
          ++ finish_events env f1)%list) =
      (Ok r3,
       mkWorld (Some (finalized n (Some (pending_key env (S k))) f1)) []
         (S (S k))
         (((((tr ++ init_delete env f0) ++ [post_event env f0 n (S k)])
            ++ [EvNotifyInitial])
           ++ [put_event (set_current_upload 0 f1) loc n
                 (firstn (Z.to_nat (Py.len body)) body)])
          ++ finish_events env f1)%list) /\
      hget "Upload-Offset" (resp_headers r3) = Some (Py.str n)).
  { unfold tus_head. cbn [slot].
    assert (Hs : size (finalized n (Some (pending_key env (S k))) f1) = Some n)
      by (unfold size, finalized; cbn; exact Hsz).
    assert (Hs' : _size (finalized n (Some (pending_key env (S k))) f1)
                  = Some n) by exact Hs.
    rewrite Hs, Hs'. unfold truthy_int.
    destruct (negb (n =? 0)); eexists; (split; [reflexivity |]);
      reflexivity. }
  destruct Hhead as (r3 & Hhead & Hoff).
  eexists. eexists. eexists. eexists. eexists.
  split; [exact Hcreate |].
  split; [unfold set_content; cbn [slot content uuid_count trace];
          exact Hpatch |].
  split; [exact Hhead |].
  split; [reflexivity |]. split; [exact Hoff |].
  split; [reflexivity |]. split; [reflexivity |]. split; [reflexivity |].
  split; [exact Hsz |]. split; [reflexivity |].
  cbn [trace]. rewrite !attempts_app, attempts_init_delete.
  rewrite attempts_finish_events. cbn. lia.
Qed.

Lemma create_patch_head_completes_witness :
  let b := mkBackend (Some created) [complete] (fun _ => 204) in
  exists w1 w2 r2 r3,
    tus_create demo_env
      (mkRequest [("Upload-Length", Py.str 1000); ("Tus-Resumable", "1.0.0")]
         "application/octet-stream") b (mkWorld None [] 0%nat []) =
      (Ok (create_response demo_env), w1) /\
    tus_patch demo_env (patch_request 3 0) b (set_content [x01; x02; x03] w1)
      = (Ok r2, w2) /\
    tus_head demo_env w2 = (Ok r3, w2) /\
    hget "Upload-Offset" (resp_headers r3) = Some (Py.str 1000).
Proof.
  intros b.
  destruct (@create_patch_head_completes demo_env b None 0%nat []
              [x01; x02; x03] 1000 created "http://backend/session"
              complete [] eq_refl eq_refl eq_refl)
    as (w1 & w2 & r2 & r3 & f2 & Hc & Hp & Hh & _ & Hoff & _).
  - vm_compute. discriminate.
  - reflexivity.
  - reflexivity.
  - exists w1, w2, r2, r3. repeat split; assumption.
Defined.
